(** * Context engine of the task store: a shallow embedding

    This development embeds [context_engine/context_engine.py] and the part of
    [task_storage/task_storage.py] it reads from ([ContextStorage.get_task_context]
    and the data classes), and states the properties of the aggregation,
    analytics, scoring and export code over that embedding.

    Conventions of the embedding.
    - A Python value of dynamic type is a [pyval]; a dict read with string keys
      ([Dict[str, Any]]) is a [gmap string pyval].
    - Python floats are rationals ([Q]); infinities and NaN are not
      represented.  The two trend computations, whose outcome can depend on
      rounding, are carried out in binary64 (section Binary64 arithmetic);
      the rates, averages and scores elsewhere are the exact quotients and
      sums.
    - A call that may raise returns a [result]; [try ... except Exception] is
      [catch].  [except Exception: log; raise] blocks only log and are the
      identity on results.
    - [await] is sequencing: the engine holds no state between calls.
    - A database table is read through [Database]: every fetch may fail, and a
      successful fetch lists the rows of the task newest first (the order the
      queries ask for with [ORDER BY ... DESC]); [LIMIT] and the [WHERE] flags
      are applied here, as in the query text.
    - Rendered text keeps the values interpolated by an f-string as values
      ([Val]): [str()] of a float is not modelled. *)

From Stdlib Require Import ZArith QArith Qround Lqa Ascii String List Lia.
From stdpp Require Import base option gmap strings list.

#[local] Open Scope string_scope.
#[local] Open Scope Z_scope.

(** ** Python values *)

#[warnings="-register-all"]
Inductive pyval :=
| PNone
| PBool (b : bool)
| PInt (z : Z)
| PFloat (q : Q)
| PStr (s : string)
| PList (l : list pyval)
| PDict (d : gmap string pyval).

Abbreviation pydict := (gmap string pyval).

(** [bool(v)]: the truth value of an object. *)
Definition py_truthy (v : pyval) : bool :=
  match v with
  | PNone => false
  | PBool b => b
  | PInt z => negb (z =? 0)
  | PFloat q => negb (Qeq_bool q 0)
  | PStr s => negb (String.eqb s "")
  | PList l => match l with [] => false | _ => true end
  | PDict d => negb (bool_decide (d = ∅))
  end.

Definition type_name (v : pyval) : string :=
  match v with
  | PNone => "NoneType"
  | PBool _ => "bool"
  | PInt _ => "int"
  | PFloat _ => "float"
  | PStr _ => "str"
  | PList _ => "list"
  | PDict _ => "dict"
  end.

(** Numbers: [bool] is a subtype of [int]. *)
Inductive num := NInt (z : Z) | NFloat (q : Q).

Definition as_num (v : pyval) : option num :=
  match v with
  | PBool b => Some (NInt (Z.b2z b))
  | PInt z => Some (NInt z)
  | PFloat q => Some (NFloat q)
  | _ => None
  end.

Definition num_q (n : num) : Q :=
  match n with NInt z => inject_Z z | NFloat q => q end.

Definition num_type (n : num) : string :=
  match n with NInt _ => "int" | NFloat _ => "float" end.

Definition num_add (a b : num) : num :=
  match a, b with
  | NInt x, NInt y => NInt (x + y)
  | _, _ => NFloat (num_q a + num_q b)
  end.

(** [==] on the values that can be dict keys here (numbers compare by value). *)
Definition py_eqb (a b : pyval) : bool :=
  match as_num a, as_num b with
  | Some x, Some y => Qeq_bool (num_q x) (num_q y)
  | None, None =>
      match a, b with
      | PNone, PNone => true
      | PStr s, PStr t => String.eqb s t
      | _, _ => false
      end
  | _, _ => false
  end.

Definition of_ostr (o : option string) : pyval :=
  match o with Some s => PStr s | None => PNone end.
Definition of_oint (o : option Z) : pyval :=
  match o with Some z => PInt z | None => PNone end.
Definition of_ofloat (o : option Q) : pyval :=
  match o with Some q => PFloat q | None => PNone end.

Definition Qltb (a b : Q) : bool := negb (Qle_bool b a).
Definition Qnat (n : nat) : Q := inject_Z (Z.of_nat n).

(** ** Binary64 arithmetic *)

(** A Python [float] is an IEEE-754 binary64 number.  The finite ones are
    the rationals [m * 2^e] with [|m| < 2^53] and [-1074 <= e], and they are
    kept here as those rationals.  An operation on floats returns the double
    nearest to the exact result, ties to the even mantissa; so does the true
    division of two ints.  Results of magnitude [2^1024] and more, which
    binary64 turns into infinities, are outside this model. *)
Definition Qpow2 (e : Z) : Q :=
  if 0 <=? e then inject_Z (2 ^ e) else 1 # (2 ^ Z.to_pos (- e)).

(** The integer nearest to [x >= 0], ties to even. *)
Definition nearest_even (x : Q) : Z :=
  let q := Qnum x / Zpos (Qden x) in
  let r := Qnum x mod Zpos (Qden x) in
  match 2 * r ?= Zpos (Qden x) with
  | Lt => q
  | Gt => q + 1
  | Eq => if Z.even q then q else q + 1
  end.

(** The exponent [e] of the unit in the last place of [x > 0]:
    [2^52 <= x / 2^e < 2^53], and [-1074] for the subnormal numbers. *)
Definition double_exponent (x : Q) : Z :=
  let k := Z.log2 (Qnum x) - Z.log2 (Zpos (Qden x)) in
  let k := if Qle_bool (Qpow2 k) x then k else k - 1 in
  Z.max (k - 52) (-1074).

Definition round_positive (x : Q) : Q :=
  let e := double_exponent x in
  (inject_Z (nearest_even (x / Qpow2 e)) * Qpow2 e)%Q.

(** The double nearest to [x]. *)
Definition round_double (x : Q) : Q :=
  let x := Qred x in
  match Qnum x with
  | Z0 => 0%Q
  | Zpos _ => Qred (round_positive x)
  | Zneg _ => Qred (- round_positive (- x))
  end.

(** [a + b], [a - b], [a * b] and [a / b] on floats. *)
Definition fadd (a b : Q) : Q := round_double (a + b).
Definition fsub (a b : Q) : Q := round_double (a - b).
Definition fmul (a b : Q) : Q := round_double (a * b).
Definition fdiv (a b : Q) : Q := round_double (a / b).

(** [sum(l)] on floats: the additions from left to right, starting at the
    int 0.  (CPython 3.12 adds a compensation term to this sum; the term
    is zero whenever the partial sums are exact.) *)
Definition fsum (l : list Q) : Q := fold_left fadd l 0%Q.

(** ** Exceptions and results *)

Inductive exn :=
| ValueError (msg : string)
| TypeError (msg : string)
| KeyError (key : string)
| RuntimeError (msg : string)
| AttributeError (msg : string)
| StorageError (msg : string).

(** [str(e)] *)
Definition exn_str (e : exn) : string :=
  match e with
  | ValueError m | TypeError m | RuntimeError m | AttributeError m | StorageError m => m
  | KeyError k => "'" ++ k ++ "'"
  end.

Inductive result (A : Type) :=
| Ok (a : A)
| Err (e : exn).
Arguments Ok {A} a.
Arguments Err {A} e.

#[global] Instance result_ret : MRet result := fun _ a => Ok a.
#[global] Instance result_bind : MBind result := fun _ _ f m =>
  match m with Ok a => f a | Err e => Err e end.
#[global] Instance result_fmap : FMap result := fun _ _ f m =>
  match m with Ok a => Ok (f a) | Err e => Err e end.

(** [try: m  except Exception as e: h e] *)
Definition catch {A} (m : result A) (h : exn -> result A) : result A :=
  match m with Ok a => Ok a | Err e => h e end.

(** [d[k]] *)
Definition subscript (d : pydict) (k : string) : result pyval :=
  match d !! k with Some v => Ok v | None => Err (KeyError k) end.

(** [l[:n]] *)
Definition slice_to {A} (n : Z) (l : list A) : list A :=
  if n <? 0 then take (length l - Z.to_nat (- n)) l else take (Z.to_nat n) l.

(** One monadic left fold, for the [for] loops whose body may raise. *)
Fixpoint foldM {A S} (f : S -> A -> result S) (s : S) (l : list A) : result S :=
  match l with
  | [] => Ok s
  | a :: l' => s' ← f s a; foldM f s' l'
  end.

(** ** Data model of the storage ([task_storage.py]) *)

Inductive TaskStatus := PENDING | IN_PROGRESS | DONE | DEFERRED | BLOCKED | CANCELLED.
Inductive TaskPriority := LOW | MEDIUM | HIGH | CRITICAL.

Definition TaskStatus_value (s : TaskStatus) : string :=
  match s with
  | PENDING => "pending"
  | IN_PROGRESS => "in-progress"
  | DONE => "done"
  | DEFERRED => "deferred"
  | BLOCKED => "blocked"
  | CANCELLED => "cancelled"
  end.

Definition TaskPriority_value (p : TaskPriority) : string :=
  match p with
  | LOW => "low"
  | MEDIUM => "medium"
  | HIGH => "high"
  | CRITICAL => "critical"
  end.

Record AtomicTask := {
  id : option string;
  title : string;
  description : option string;
  affected_files : option (list string);
  complexity_score : option Z;
  status : TaskStatus;
  priority : TaskPriority;
  created_at : option string;   (* the datetime, as [isoformat()] prints it *)
  updated_at : option string;
  assigned_to : option string;
  estimated_hours : option Q;
  actual_hours : option Q;
  tags : option (list string)
}.

Record TaskContext := {
  tc_task_id : string;
  tc_requirements_context : pyval;
  tc_codebase_context : pyval;
  tc_ai_interactions : option (list pydict);
  tc_validation_results : option (list pydict);
  tc_workflow_state : pyval;
  tc_performance_metrics : pyval;
  tc_metadata : pyval
}.

(** Rows, as the queries select them. *)
Record context_row := {
  context_type : string;
  context_data : pyval;         (* [json.loads] of the stored text *)
  is_active : bool
}.

Record ai_row := {
  ai_agent_name : string;
  ai_interaction_type : string;
  ai_request_data : option pyval;    (* NULL, or the decoded JSON text *)
  ai_response_data : option pyval;
  ai_execution_time_ms : option Z;
  ai_success : bool;
  ai_error_message : option string;
  ai_created_at : string
}.

Record validation_row := {
  vr_validation_type : string;
  vr_validator_name : string;
  vr_status : string;
  vr_score : option Q;
  vr_details : option pyval;
  vr_suggestions : option pyval;
  vr_created_at : string
}.

Record metric_row := {
  metric_type : string;
  metric_name : string;
  metric_value : option Q;
  metric_unit : option string;
  metric_timestamp : string
}.

(** The database manager: whether the pool exists, and the tables. *)
Record Database := {
  pool : bool;
  tasks : string -> result (option AtomicTask);
  task_dependencies : string -> result (list string);
  task_context : string -> result (list context_row);
  ai_interactions : string -> result (list ai_row);
  validation_results : string -> result (list validation_row);
  performance_metrics : string -> result (list metric_row)
}.

(** [DatabaseManager.get_task_storage] / [get_context_storage] *)
Definition get_storage (db : Database) : result unit :=
  if pool db then Ok tt else Err (RuntimeError "Database not initialized").

(** [TaskStorage.get_task], [TaskStorage.get_task_dependencies] *)
Definition get_task (db : Database) (task_id : string) : result (option AtomicTask) :=
  tasks db task_id.

Definition get_task_dependencies (db : Database) (task_id : string) : result (list string) :=
  task_dependencies db task_id.

(** ** [ContextStorage.get_task_context] *)

Definition empty_TaskContext (task_id : string) : TaskContext :=
  {| tc_task_id := task_id;
     tc_requirements_context := PNone;
     tc_codebase_context := PNone;
     tc_ai_interactions := None;
     tc_validation_results := None;
     tc_workflow_state := PNone;
     tc_performance_metrics := PNone;
     tc_metadata := PNone |}.

(** The body of [for row in context_rows]. *)
Definition process_context_row (context : TaskContext) (row : context_row) : TaskContext :=
  let context_data := context_data row in
  let context_type := context_type row in
  if String.eqb context_type "requirements" then
    {| tc_task_id := tc_task_id context;
       tc_requirements_context := context_data;
       tc_codebase_context := tc_codebase_context context;
       tc_ai_interactions := tc_ai_interactions context;
       tc_validation_results := tc_validation_results context;
       tc_workflow_state := tc_workflow_state context;
       tc_performance_metrics := tc_performance_metrics context;
       tc_metadata := tc_metadata context |}
  else if String.eqb context_type "codebase" then
    {| tc_task_id := tc_task_id context;
       tc_requirements_context := tc_requirements_context context;
       tc_codebase_context := context_data;
       tc_ai_interactions := tc_ai_interactions context;
       tc_validation_results := tc_validation_results context;
       tc_workflow_state := tc_workflow_state context;
       tc_performance_metrics := tc_performance_metrics context;
       tc_metadata := tc_metadata context |}
  else if String.eqb context_type "workflow" then
    {| tc_task_id := tc_task_id context;
       tc_requirements_context := tc_requirements_context context;
       tc_codebase_context := tc_codebase_context context;
       tc_ai_interactions := tc_ai_interactions context;
       tc_validation_results := tc_validation_results context;
       tc_workflow_state := context_data;
       tc_performance_metrics := tc_performance_metrics context;
       tc_metadata := tc_metadata context |}
  else if String.eqb context_type "performance" then
    {| tc_task_id := tc_task_id context;
       tc_requirements_context := tc_requirements_context context;
       tc_codebase_context := tc_codebase_context context;
       tc_ai_interactions := tc_ai_interactions context;
       tc_validation_results := tc_validation_results context;
       tc_workflow_state := tc_workflow_state context;
       tc_performance_metrics := context_data;
       tc_metadata := tc_metadata context |}
  else context.

Definition ai_row_dict (row : ai_row) : pydict :=
  list_to_map
    [ ("agent_name", PStr (ai_agent_name row));
      ("interaction_type", PStr (ai_interaction_type row));
      ("request_data", default PNone (ai_request_data row));
      ("response_data", default PNone (ai_response_data row));
      ("execution_time_ms", of_oint (ai_execution_time_ms row));
      ("success", PBool (ai_success row));
      ("error_message", of_ostr (ai_error_message row));
      ("created_at", PStr (ai_created_at row)) ].

Definition validation_row_dict (row : validation_row) : pydict :=
  list_to_map
    [ ("validation_type", PStr (vr_validation_type row));
      ("validator_name", PStr (vr_validator_name row));
      ("status", PStr (vr_status row));
      ("score", of_ofloat (vr_score row));
      ("details", default PNone (vr_details row));
      ("suggestions", default PNone (vr_suggestions row));
      ("created_at", PStr (vr_created_at row)) ].

Definition get_task_context (db : Database) (task_id : string) : result TaskContext :=
  context_rows ← (List.filter is_active <$> task_context db task_id);
  ai_rows ← (take 50 <$> ai_interactions db task_id);
  validation_rows ← (take 20 <$> validation_results db task_id);
  let context := fold_left process_context_row context_rows (empty_TaskContext task_id) in
  Ok {| tc_task_id := tc_task_id context;
        tc_requirements_context := tc_requirements_context context;
        tc_codebase_context := tc_codebase_context context;
        tc_ai_interactions := Some (ai_row_dict <$> ai_rows);
        tc_validation_results := Some (validation_row_dict <$> validation_rows);
        tc_workflow_state := tc_workflow_state context;
        tc_performance_metrics := tc_performance_metrics context;
        tc_metadata := tc_metadata context |}.

(** ** The prompt context ([context_engine.py]) *)

(** The [task_summary] dict literal of [generate_prompt_context]. *)
Record TaskSummary := {
  ts_id : option string;
  ts_title : string;
  ts_description : option string;
  ts_status : string;
  ts_priority : string;
  ts_complexity_score : option Z;
  ts_affected_files : option (list string);
  ts_tags : option (list string);
  ts_created_at : option string;
  ts_updated_at : option string;
  ts_assigned_to : option string;
  ts_estimated_hours : option Q;
  ts_actual_hours : option Q
}.

(** One entry of [dependency_info]. *)
Record dependency_entry := {
  dep_id : option string;
  dep_title : string;
  dep_status : string;
  dep_priority : string;
  dep_complexity_score : option Z
}.

(** The two dicts [_build_dependency_context] returns:
    [{'has_dependencies': False, 'dependencies': []}] and the full summary. *)
Record dependency_summary := {
  total_dependencies : nat;
  completed_dependencies : nat;
  pending_dependencies : nat;
  blocked_dependencies : nat;
  dependencies : list dependency_entry;
  is_ready : bool
}.

Inductive DependencyContext :=
| NoDependencies
| Dependencies (s : dependency_summary).

Definition has_dependencies (d : DependencyContext) : bool :=
  match d with NoDependencies => false | Dependencies _ => true end.

(** One entry of [metrics] in [_get_performance_context]. *)
Record metric := {
  m_type : string;
  m_name : string;
  m_value : option Q;
  m_unit : option string;
  m_timestamp : string
}.

Record performance_summary := {
  total_metrics : nat;
  avg_execution_time : option Q;
  recent_metrics : list metric;
  execution_times_count : nat;            (* performance_summary.execution_times *)
  avg_execution_time_ms_summary : option Q (* performance_summary.avg_execution_time_ms *)
}.

Inductive PerformanceContext :=
| NoMetrics
| Metrics (s : performance_summary).

Record PromptContext := {
  task_id : string;
  task_summary : TaskSummary;
  requirements_context : pyval;
  codebase_context : pyval;
  recent_interactions : option (list pydict);
  validation_history : option (list pydict);
  dependency_context : option DependencyContext;
  performance_context : option PerformanceContext;
  workflow_state : pyval;
  metadata : pyval
}.

(** *** [_build_dependency_context] *)

Definition dependency_entry_of (dep_task : AtomicTask) : dependency_entry :=
  {| dep_id := id dep_task;
     dep_title := title dep_task;
     dep_status := TaskStatus_value (status dep_task);
     dep_priority := TaskPriority_value (priority dep_task);
     dep_complexity_score := complexity_score dep_task |}.

Definition is_completed_dep (d : dependency_entry) : bool :=
  String.eqb (dep_status d) "done".
Definition is_pending_dep (d : dependency_entry) : bool :=
  String.eqb (dep_status d) "pending" || String.eqb (dep_status d) "in-progress".
Definition is_blocked_dep (d : dependency_entry) : bool :=
  String.eqb (dep_status d) "blocked" || String.eqb (dep_status d) "deferred".

(** The statistics computed once [dependency_info] is collected. *)
Definition summarize_dependencies (dependency_info : list dependency_entry) : dependency_summary :=
  let completed_deps := List.filter is_completed_dep dependency_info in
  let pending_deps := List.filter is_pending_dep dependency_info in
  let blocked_deps := List.filter is_blocked_dep dependency_info in
  {| total_dependencies := length dependency_info;
     completed_dependencies := length completed_deps;
     pending_dependencies := length pending_deps;
     blocked_dependencies := length blocked_deps;
     dependencies := dependency_info;
     is_ready := (length pending_deps =? 0)%nat && (length blocked_deps =? 0)%nat |}.

(** The body of [for dep_id in dependencies]. *)
Definition collect_dependency (db : Database) (dependency_info : list dependency_entry)
    (dep_id : string) : result (list dependency_entry) :=
  dep_task ← get_task db dep_id;
  match dep_task with
  | Some t => Ok (dependency_info ++ [dependency_entry_of t])%list
  | None => Ok dependency_info
  end.

Definition _build_dependency_context (db : Database) (task_id : string)
    (dependencies : list string) : result DependencyContext :=
  match dependencies with
  | [] => Ok NoDependencies
  | _ =>
      _ ← get_storage db;
      dependency_info ← foldM (collect_dependency db) [] dependencies;
      Ok (Dependencies (summarize_dependencies dependency_info))
  end.

(** *** [_get_performance_context] *)

Definition metric_of_row (row : metric_row) : metric :=
  {| m_type := metric_type row;
     m_name := metric_name row;
     m_value := match metric_value row with
                | Some v => if Qeq_bool v 0 then None else Some v
                | None => None
                end;
     m_unit := metric_unit row;
     m_timestamp := metric_timestamp row |}.

Definition is_execution_time (m : metric) : bool :=
  String.eqb (m_type m) "execution_time".

(** [sum(m['value'] for m in ms if m['value'])] *)
Definition sum_values (ms : list metric) : Q :=
  fold_left (fun acc m =>
               match m_value m with
               | Some v => if Qeq_bool v 0 then acc else (acc + v)%Q
               | None => acc
               end) ms 0%Q.

Definition _get_performance_context (db : Database) (task_id : string)
    : result PerformanceContext :=
  _ ← (if pool db then Ok tt
       else Err (AttributeError "'NoneType' object has no attribute 'acquire'"));
  rows ← (take 20 <$> performance_metrics db task_id);
  match rows with
  | [] => Ok NoMetrics
  | _ =>
      let metrics := metric_of_row <$> rows in
      let execution_times := List.filter is_execution_time metrics in
      let avg_execution_time :=
        match execution_times with
        | [] => None
        | _ => Some (sum_values execution_times / Qnat (length execution_times))%Q
        end in
      Ok (Metrics {| total_metrics := length metrics;
                     avg_execution_time := avg_execution_time;
                     recent_metrics := take 10 metrics;
                     execution_times_count := length execution_times;
                     avg_execution_time_ms_summary := avg_execution_time |})
  end.

(** *** [generate_prompt_context] *)

Definition task_summary_of (task : AtomicTask) : TaskSummary :=
  {| ts_id := id task;
     ts_title := title task;
     ts_description := description task;
     ts_status := TaskStatus_value (status task);
     ts_priority := TaskPriority_value (priority task);
     ts_complexity_score := complexity_score task;
     ts_affected_files := affected_files task;
     ts_tags := tags task;
     ts_created_at := created_at task;
     ts_updated_at := updated_at task;
     ts_assigned_to := assigned_to task;
     ts_estimated_hours := estimated_hours task;
     ts_actual_hours := actual_hours task |}.

(** [full[:cap] if include_history and full else None] *)
Definition trimmed_history (include_history : bool) (full : option (list pydict))
    (cap : Z) : option (list pydict) :=
  match full with
  | Some (x :: l) => if include_history then Some (slice_to cap (x :: l)) else None
  | _ => None
  end.

Definition generate_prompt_context (db : Database) (task_id : string)
    (include_history : bool) (max_interactions max_validations : Z)
    : result PromptContext :=
  _ ← get_storage db;
  task ← get_task db task_id;
  match task with
  | None => Err (ValueError ("Task " ++ task_id ++ " not found"))
  | Some task =>
      _ ← get_storage db;
      full_context ← get_task_context db task_id;
      dependencies ← get_task_dependencies db task_id;
      dependency_context ← _build_dependency_context db task_id dependencies;
      performance_context ← _get_performance_context db task_id;
      Ok {| task_id := task_id;
            task_summary := task_summary_of task;
            requirements_context := tc_requirements_context full_context;
            codebase_context := tc_codebase_context full_context;
            recent_interactions :=
              trimmed_history include_history (tc_ai_interactions full_context) max_interactions;
            validation_history :=
              trimmed_history include_history (tc_validation_results full_context) max_validations;
            dependency_context := Some dependency_context;
            performance_context := Some performance_context;
            workflow_state := tc_workflow_state full_context;
            metadata := tc_metadata full_context |}
  end.

(** The call with the default arguments. *)
Definition generate_prompt_context_default (db : Database) (task_id : string) :=
  generate_prompt_context db task_id true 10 5.

(** ** Analytics *)

(** *** [_analyze_complexity] *)

Record ComplexityIndicators := {
  ci_complexity_score : option Z;
  affected_files_count : nat;
  ci_has_dependencies : bool;
  dependency_count : nat;
  requirements_complexity : string;
  overall_complexity : string
}.

(** The three additive contributions to [complexity_factors]. *)
Definition score_factor (complexity_score : option Z) : nat :=
  match complexity_score with
  | Some s =>
      if negb (s =? 0) && (7 <? s) then 2%nat
      else if negb (s =? 0) && (5 <? s) then 1%nat
      else 0%nat
  | None => 0%nat
  end.

Definition files_factor (affected_files_count : nat) : nat :=
  if (5 <? affected_files_count)%nat then 2%nat
  else if (2 <? affected_files_count)%nat then 1%nat
  else 0%nat.

Definition dependency_factor (dependency_count : nat) : nat :=
  if (3 <? dependency_count)%nat then 1%nat else 0%nat.

Definition complexity_bucket (complexity_factors : nat) : string :=
  if (4 <=? complexity_factors)%nat then "very_high"
  else if (3 <=? complexity_factors)%nat then "high"
  else if (2 <=? complexity_factors)%nat then "medium"
  else "low".

Definition _analyze_complexity (context : PromptContext) : result ComplexityIndicators :=
  let complexity_score := ts_complexity_score (task_summary context) in
  affected_files_count ←
    match ts_affected_files (task_summary context) with
    | Some files => Ok (length files)
    | None => Err (TypeError "object of type 'NoneType' has no len()")
    end;
  dependency_context ←
    match dependency_context context with
    | Some d => Ok d
    | None => Err (AttributeError "'NoneType' object has no attribute 'get'")
    end;
  let dependency_count :=
    match dependency_context with
    | Dependencies s => total_dependencies s
    | NoDependencies => 0%nat
    end in
  let complexity_factors :=
    (score_factor complexity_score + files_factor affected_files_count
     + dependency_factor dependency_count)%nat in
  Ok {| ci_complexity_score := complexity_score;
        affected_files_count := affected_files_count;
        ci_has_dependencies := has_dependencies dependency_context;
        dependency_count := dependency_count;
        requirements_complexity :=
          if py_truthy (requirements_context context) then "high" else "low";
        overall_complexity := complexity_bucket complexity_factors |}.

(** *** Tallies: the [counts[k] = counts.get(k, 0) + 1] dicts *)

Definition tally := list (pyval * nat).

Fixpoint tally_get (k : pyval) (counts : tally) : nat :=
  match counts with
  | [] => 0%nat
  | (k', n) :: rest => if py_eqb k k' then n else tally_get k rest
  end.

Fixpoint tally_set (k : pyval) (n : nat) (counts : tally) : tally :=
  match counts with
  | [] => [(k, n)]
  | (k', n') :: rest => if py_eqb k k' then (k', n) :: rest else (k', n') :: tally_set k n rest
  end.

Definition hashable (k : pyval) : bool :=
  match k with PList _ | PDict _ => false | _ => true end.

Definition tally_incr (k : pyval) (counts : tally) : result tally :=
  if hashable k then Ok (tally_set k (tally_get k counts + 1)%nat counts)
  else Err (TypeError ("unhashable type: '" ++ type_name k ++ "'")).

(** [acc += v] for a numeric accumulator *)
Definition iadd (acc : num) (v : pyval) : result num :=
  match as_num v with
  | Some n => Ok (num_add acc n)
  | None => Err (TypeError ("unsupported operand type(s) for +=: '" ++ num_type acc
                            ++ "' and '" ++ type_name v ++ "'"))
  end.

(** *** [_analyze_interactions] *)

Record InteractionStats := {
  total_interactions : nat;
  interaction_types : tally;
  error_count : nat;
  error_rate : Q;
  avg_execution_time_ms : option Q;
  success_rate : Q
}.

Inductive InteractionPatterns :=
| NoInteractions                       (* {'has_interactions': False} *)
| Interactions (s : InteractionStats).

Definition has_interactions (p : InteractionPatterns) : bool :=
  match p with NoInteractions => false | Interactions _ => true end.

Record interaction_loop := {
  il_type_counts : tally;
  il_error_count : nat;
  il_total_execution_time : num;
  il_execution_count : nat
}.

(** [not interaction.get('success', True)] *)
Definition is_failed_interaction (interaction : pydict) : bool :=
  negb (py_truthy (default (PBool true) (interaction !! "success"))).

(** The body of [for interaction in interactions]. *)
Definition interaction_step (st : interaction_loop) (interaction : pydict)
    : result interaction_loop :=
  let interaction_type := default (PStr "unknown") (interaction !! "interaction_type") in
  type_counts ← tally_incr interaction_type (il_type_counts st);
  let error_count :=
    if is_failed_interaction interaction then (il_error_count st + 1)%nat
    else il_error_count st in
  let exec_time := default PNone (interaction !! "execution_time_ms") in
  if py_truthy exec_time then
    total ← iadd (il_total_execution_time st) exec_time;
    Ok {| il_type_counts := type_counts;
          il_error_count := error_count;
          il_total_execution_time := total;
          il_execution_count := (il_execution_count st + 1)%nat |}
  else
    Ok {| il_type_counts := type_counts;
          il_error_count := error_count;
          il_total_execution_time := il_total_execution_time st;
          il_execution_count := il_execution_count st |}.

Definition interaction_loop_init : interaction_loop :=
  {| il_type_counts := [];
     il_error_count := 0;
     il_total_execution_time := NInt 0;
     il_execution_count := 0 |}.

Definition _analyze_interactions (interactions : option (list pydict))
    : result InteractionPatterns :=
  match interactions with
  | None | Some [] => Ok NoInteractions
  | Some interactions =>
      st ← foldM interaction_step interaction_loop_init interactions;
      let avg_execution_time :=
        if (0 <? il_execution_count st)%nat
        then Some (num_q (il_total_execution_time st) / Qnat (il_execution_count st))%Q
        else None in
      let error_rate := (Qnat (il_error_count st) / Qnat (length interactions))%Q in
      Ok (Interactions
            {| total_interactions := length interactions;
               interaction_types := il_type_counts st;
               error_count := il_error_count st;
               error_rate := error_rate;
               avg_execution_time_ms := avg_execution_time;
               success_rate := (1 - error_rate)%Q |})
  end.

(** *** [_calculate_validation_trend] and [_analyze_validations] *)

(** [v.get('status') == 'passed'] *)
Definition is_passed (validation : pydict) : bool :=
  py_eqb (default PNone (validation !! "status")) (PStr "passed").

(** [sum(1 for v in vs if v.get('status') == 'passed') / len(vs)]: an int
    divided by an int, a float. *)
Definition pass_rate_of (vs : list pydict) : Q :=
  fdiv (Qnat (length (List.filter is_passed vs))) (Qnat (length vs)).

(** [validations[:len(validations)//2]] and [validations[len(validations)//2:]] *)
Definition recent_validations (validations : list pydict) : list pydict :=
  take (length validations / 2) validations.
Definition older_validations (validations : list pydict) : list pydict :=
  drop (length validations / 2) validations.

Definition _calculate_validation_trend (validations : list pydict) : string :=
  if (length validations <? 3)%nat then "insufficient_data"
  else
    let recent := recent_validations validations in
    let older := older_validations validations in
    let recent_pass_rate := pass_rate_of recent in
    let older_pass_rate := pass_rate_of older in
    if Qltb (fadd older_pass_rate (round_double (1 # 10))) recent_pass_rate
    then "improving"
    else if Qltb recent_pass_rate (fsub older_pass_rate (round_double (1 # 10)))
    then "declining"
    else "stable".

Record ValidationStats := {
  total_validations : nat;
  status_distribution : tally;
  validation_types : tally;
  avg_score : option Q;
  pass_rate : Q;
  recent_trend : string
}.

Inductive ValidationTrends :=
| NoValidations                        (* {'has_validations': False} *)
| Validations (s : ValidationStats).

Definition has_validations (v : ValidationTrends) : bool :=
  match v with NoValidations => false | Validations _ => true end.

Record validation_loop := {
  vl_status_counts : tally;
  vl_type_counts : tally;
  vl_total_score : num;
  vl_score_count : nat
}.

(** The body of [for validation in validations]. *)
Definition validation_step (st : validation_loop) (validation : pydict)
    : result validation_loop :=
  let status := default (PStr "unknown") (validation !! "status") in
  let validation_type := default (PStr "unknown") (validation !! "validation_type") in
  status_counts ← tally_incr status (vl_status_counts st);
  type_counts ← tally_incr validation_type (vl_type_counts st);
  match default PNone (validation !! "score") with
  | PNone =>
      Ok {| vl_status_counts := status_counts;
            vl_type_counts := type_counts;
            vl_total_score := vl_total_score st;
            vl_score_count := vl_score_count st |}
  | score =>
      total ← iadd (vl_total_score st) score;
      Ok {| vl_status_counts := status_counts;
            vl_type_counts := type_counts;
            vl_total_score := total;
            vl_score_count := (vl_score_count st + 1)%nat |}
  end.

Definition validation_loop_init : validation_loop :=
  {| vl_status_counts := [];
     vl_type_counts := [];
     vl_total_score := NInt 0;
     vl_score_count := 0 |}.

Definition _analyze_validations (validations : option (list pydict))
    : result ValidationTrends :=
  match validations with
  | None | Some [] => Ok NoValidations
  | Some validations =>
      st ← foldM validation_step validation_loop_init validations;
      let avg_score :=
        if (0 <? vl_score_count st)%nat
        then Some (num_q (vl_total_score st) / Qnat (vl_score_count st))%Q
        else None in
      Ok (Validations
            {| total_validations := length validations;
               status_distribution := vl_status_counts st;
               validation_types := vl_type_counts st;
               avg_score := avg_score;
               pass_rate := (Qnat (tally_get (PStr "passed") (vl_status_counts st))
                             / Qnat (length validations))%Q;
               recent_trend := _calculate_validation_trend validations |})
  end.

(** *** [_calculate_performance_trend] and [_analyze_performance] *)

Definition Qsum (l : list Q) : Q := fold_left Qplus l 0%Q.

(** The execution times are floats ([float(row['metric_value'])], taken to
    be doubles already); the sums, the averages and the products by 0.9 and
    1.1 are float operations. *)
Definition _calculate_performance_trend (execution_times : list Q) : string :=
  if (length execution_times <? 3)%nat then "insufficient_data"
  else
    let half := (length execution_times / 2)%nat in
    let recent_avg := fdiv (fsum (take half execution_times)) (Qnat half) in
    let older_avg :=
      fdiv (fsum (drop half execution_times)) (Qnat (length execution_times - half)) in
    if Qltb recent_avg (fmul older_avg (round_double (9 # 10))) then "improving"
    else if Qltb (fmul older_avg (round_double (11 # 10))) recent_avg then "declining"
    else "stable".

Record PerformanceStats := {
  pa_total_metrics : nat;
  pa_avg_execution_time : option Q;
  execution_time_trend : string
}.

Inductive PerformanceAnalysis :=
| NoPerformanceData                    (* {'has_performance_data': False} *)
| PerformanceData (s : PerformanceStats).

Definition has_performance_data (p : PerformanceAnalysis) : bool :=
  match p with NoPerformanceData => false | PerformanceData _ => true end.

(** [[m['value'] for m in metrics if m['type'] == 'execution_time' and m['value']]] *)
Fixpoint execution_time_values (metrics : list metric) : list Q :=
  match metrics with
  | [] => []
  | m :: rest =>
      match m_value m with
      | Some v =>
          if is_execution_time m && negb (Qeq_bool v 0)
          then v :: execution_time_values rest
          else execution_time_values rest
      | None => execution_time_values rest
      end
  end.

Definition _analyze_performance (performance_context : option PerformanceContext)
    : PerformanceAnalysis :=
  match performance_context with
  | None | Some NoMetrics => NoPerformanceData
  | Some (Metrics s) =>
      let metrics := recent_metrics s in
      let execution_times := execution_time_values metrics in
      PerformanceData
        {| pa_total_metrics := length metrics;
           pa_avg_execution_time := avg_execution_time s;
           execution_time_trend := _calculate_performance_trend execution_times |}
  end.

(** *** [_generate_recommendations] *)

Definition rec_very_high := "Consider breaking this task into smaller subtasks due to very high complexity".
Definition rec_high := "Task has high complexity - ensure thorough testing and validation".
Definition rec_dependencies := "High number of dependencies - verify all prerequisites are completed".
Definition rec_error_rate := "High error rate in AI interactions - review prompts and context quality".
Definition rec_slow := "Long AI interaction times - consider optimizing prompts or context size".
Definition rec_pass_rate := "Low validation pass rate - review code quality and testing strategy".
Definition rec_validation_declining := "Validation quality is declining - investigate recent changes".
Definition rec_performance_declining := "Performance is declining - consider optimization opportunities".
Definition rec_no_interactions := "No AI interactions recorded - ensure proper logging is enabled".
Definition rec_no_validations := "No validation results - implement automated validation checks".

(** [recommendations.append(r)] under [if c] *)
Definition append_if (c : bool) (r : string) (recommendations : list string) : list string :=
  if c then (recommendations ++ [r])%list else recommendations.

(** [interactions.get('avg_execution_time_ms', 0) > 5000]: the key is present
    in the full dict even when its value is [None]. *)
Definition slow_interactions (interactions : InteractionPatterns) : result bool :=
  match interactions with
  | NoInteractions => Ok false
  | Interactions s =>
      match avg_execution_time_ms s with
      | Some t => Ok (Qltb 5000 t)
      | None => Err (TypeError "'>' not supported between instances of 'NoneType' and 'int'")
      end
  end.

Definition _generate_recommendations
    (complexity : ComplexityIndicators) (interactions : InteractionPatterns)
    (validations : ValidationTrends) (performance : PerformanceAnalysis)
    : result (list string) :=
  let recommendations := [] in
  let recommendations :=
    if String.eqb (overall_complexity complexity) "very_high"
    then (recommendations ++ [rec_very_high])%list
    else if String.eqb (overall_complexity complexity) "high"
    then (recommendations ++ [rec_high])%list
    else recommendations in
  let recommendations :=
    append_if (3 <? dependency_count complexity)%nat rec_dependencies recommendations in
  let recommendations :=
    append_if
      (Qltb (3 # 10)
         match interactions with Interactions s => error_rate s | NoInteractions => 0%Q end)
      rec_error_rate recommendations in
  slow ← slow_interactions interactions;
  let recommendations := append_if slow rec_slow recommendations in
  let recommendations :=
    append_if
      (Qltb match validations with Validations s => pass_rate s | NoValidations => 1%Q end
            (7 # 10))
      rec_pass_rate recommendations in
  let recommendations :=
    append_if
      match validations with
      | Validations s => String.eqb (recent_trend s) "declining"
      | NoValidations => false
      end
      rec_validation_declining recommendations in
  let recommendations :=
    append_if
      match performance with
      | PerformanceData s => String.eqb (execution_time_trend s) "declining"
      | NoPerformanceData => false
      end
      rec_performance_declining recommendations in
  let recommendations :=
    append_if (negb (has_interactions interactions)) rec_no_interactions recommendations in
  let recommendations :=
    append_if (negb (has_validations validations)) rec_no_validations recommendations in
  Ok recommendations.

(** *** [analyze_context_patterns] *)

Record ContextAnalytics := {
  ca_task_id : string;
  complexity_indicators : ComplexityIndicators;
  interaction_patterns : InteractionPatterns;
  validation_trends : ValidationTrends;
  performance_metrics_analysis : PerformanceAnalysis;
  recommendations : list string
}.

Definition analyze_prompt_context (task_id : string) (prompt_context : PromptContext)
    : result ContextAnalytics :=
  complexity_indicators ← _analyze_complexity prompt_context;
  interaction_patterns ← _analyze_interactions (recent_interactions prompt_context);
  validation_trends ← _analyze_validations (validation_history prompt_context);
  let performance_metrics := _analyze_performance (performance_context prompt_context) in
  recommendations ← _generate_recommendations
    complexity_indicators interaction_patterns validation_trends performance_metrics;
  Ok {| ca_task_id := task_id;
        complexity_indicators := complexity_indicators;
        interaction_patterns := interaction_patterns;
        validation_trends := validation_trends;
        performance_metrics_analysis := performance_metrics;
        recommendations := recommendations |}.

Definition analyze_context_patterns (db : Database) (task_id : string)
    : result ContextAnalytics :=
  prompt_context ← generate_prompt_context_default db task_id;
  analyze_prompt_context task_id prompt_context.

(** ** Export *)

(** An f-string is a line of literal pieces and interpolated values. *)
Inductive frag :=
| Lit (s : string)
| Val (v : pyval).

Definition line := list frag.

Inductive text :=
| Joined (sep : string) (lines : list line)   (* sep.join(lines) *)
| JsonDumps (context : PromptContext).        (* json.dumps(context.__dict__, indent=2, default=str) *)

Definition nat_val (n : nat) : frag := Val (PInt (Z.of_nat n)).

(** The newline character. *)
Definition nl : string := String "010"%char "".

(** The summary of a context whose dependency dict is present and has
    [has_dependencies] set. *)
Definition dependency_section (context : PromptContext) : option dependency_summary :=
  match dependency_context context with
  | Some (Dependencies dep_ctx) => Some dep_ctx
  | _ => None
  end.

(** *** [_format_structured_context] *)

Definition structured_interaction (sections : list line) (numbered : nat * pydict)
    : result (list line) :=
  let '(i, interaction) := numbered in
  interaction_type ← subscript interaction "interaction_type";
  agent_name ← subscript interaction "agent_name";
  let sections :=
    (sections ++ [[Lit "**Interaction "; nat_val (i + 1); Lit "**: ";
                   Val interaction_type; Lit " by "; Val agent_name]])%list in
  if py_truthy (default PNone (interaction !! "error_message")) then
    error_message ← subscript interaction "error_message";
    Ok (sections ++ [[Lit "  - Error: "; Val error_message]])%list
  else Ok sections.

Definition structured_validation (sections : list line) (validation : pydict)
    : result (list line) :=
  status ← subscript validation "status";
  let status_emoji :=
    if py_eqb status (PStr "passed") then "✅"
    else if py_eqb status (PStr "failed") then "❌"
    else "⚠️" in
  validation_type ← subscript validation "validation_type";
  validator_name ← subscript validation "validator_name";
  Ok (sections ++ [[Lit status_emoji; Lit " **"; Val validation_type; Lit "**: ";
                    Val status; Lit " ("; Val validator_name; Lit ")"]])%list.

(** The [# Recent Interactions] and [# Validation History] blocks. *)
Definition structured_interactions (context : PromptContext) (sections : list line)
    : result (list line) :=
  match recent_interactions context with
  | Some (x :: l) =>
      foldM structured_interaction
        (sections ++ [[Lit (nl ++ "## Recent AI Interactions")]])%list
        (imap (fun i interaction => (i, interaction)) (take 3 (x :: l)))
  | _ => Ok sections
  end.

Definition structured_validations (context : PromptContext) (sections : list line)
    : result (list line) :=
  match validation_history context with
  | Some (x :: l) =>
      foldM structured_validation
        (sections ++ [[Lit (nl ++ "## Recent Validations")]])%list
        (take 3 (x :: l))
  | _ => Ok sections
  end.

Definition truthy_score (complexity_score : option Z) : option Z :=
  match complexity_score with
  | Some s => if s =? 0 then None else Some s
  | None => None
  end.

Definition _format_structured_context (context : PromptContext) : result text :=
  let task := task_summary context in
  let sections : list line :=
    [ [Lit "## Task Summary"];
      [Lit "**ID**: "; Val (of_ostr (ts_id task))];
      [Lit "**Title**: "; Val (PStr (ts_title task))];
      [Lit "**Status**: "; Val (PStr (ts_status task))];
      [Lit "**Priority**: "; Val (PStr (ts_priority task))] ] in
  let sections :=
    match truthy_score (ts_complexity_score task) with
    | Some s => (sections ++ [[Lit "**Complexity**: "; Val (PInt s); Lit "/10"]])%list
    | None => sections
    end in
  let sections :=
    (sections ++ [[Lit "**Description**: "; Val (of_ostr (ts_description task))]])%list in
  let sections :=
    match dependency_section context with
    | Some dep_ctx =>
        (sections ++
         [ [Lit (nl ++ "## Dependencies")];
           [Lit "**Total Dependencies**: "; nat_val (total_dependencies dep_ctx)];
           [Lit "**Completed**: "; nat_val (completed_dependencies dep_ctx)];
           [Lit "**Pending**: "; nat_val (pending_dependencies dep_ctx)];
           [Lit "**Ready to Start**: "; Lit (if is_ready dep_ctx then "Yes" else "No")] ])%list
    | None => sections
    end in
  sections ← structured_interactions context sections;
  sections ← structured_validations context sections;
  let sections :=
    if py_truthy (codebase_context context) then
      (sections ++ [ [Lit (nl ++ "## Codebase Context")];
                     [Lit "Recent file changes and code context available"] ])%list
    else sections in
  Ok (Joined nl sections).

(** *** [_format_narrative_context] *)

(** The first matching range of [complexity_desc]. *)
Definition complexity_desc (score : Z) : option string :=
  if (1 <=? score) && (score <? 4) then Some "low complexity"
  else if (4 <=? score) && (score <? 7) then Some "medium complexity"
  else if (7 <=? score) && (score <? 9) then Some "high complexity"
  else if (9 <=? score) && (score <? 11) then Some "very high complexity"
  else None.

(** [sum(1 for i in interactions if not i.get('success', True))] *)
Definition narrative_error_count (interactions : list pydict) : nat :=
  length (List.filter is_failed_interaction interactions).

(** The sentence about the recent interactions. *)
Definition interaction_sentence (interactions : list pydict) : line :=
  let interaction_count := length interactions in
  let error_count := narrative_error_count interactions in
  if (0 <? error_count)%nat then
    [Lit "There have been "; nat_val interaction_count;
     Lit " recent AI interactions with "; nat_val error_count;
     Lit " errors that may need attention."]
  else
    [Lit "There have been "; nat_val interaction_count;
     Lit " successful recent AI interactions."].

(** [sum(1 for v in vs if v['status'] == 'passed')] *)
Definition count_passed (passed : nat) (validation : pydict) : result nat :=
  status ← subscript validation "status";
  Ok (if py_eqb status (PStr "passed") then (passed + 1)%nat else passed).

(** The [# Validation status] block. *)
Definition narrative_validations (context : PromptContext) (narrative : list line)
    : result (list line) :=
  match validation_history context with
  | Some (x :: l) =>
      let recent_validations := take 3 (x :: l) in
      passed ← foldM count_passed 0%nat recent_validations;
      Ok (narrative ++
          [[Lit "Recent validation results show "; nat_val passed; Lit "/";
            nat_val (length recent_validations); Lit " checks passing."]])%list
  | _ => Ok narrative
  end.

Definition _format_narrative_context (context : PromptContext) : result text :=
  let task := task_summary context in
  let narrative : list line :=
    [ [Lit "You are working on task '"; Val (PStr (ts_title task)); Lit "' (ID: ";
       Val (of_ostr (ts_id task)); Lit "), which is currently "; Val (PStr (ts_status task));
       Lit " with "; Val (PStr (ts_priority task)); Lit " priority."] ] in
  let narrative :=
    if py_truthy (of_ostr (ts_description task)) then
      (narrative ++ [[Lit "The task involves: "; Val (of_ostr (ts_description task))]])%list
    else narrative in
  let narrative :=
    match dependency_section context with
    | Some dep_ctx =>
        if is_ready dep_ctx then
          (narrative ++
           [[Lit "All dependencies have been satisfied and the task is ready to begin."]])%list
        else
          (narrative ++
           [[Lit "This task has "; nat_val (pending_dependencies dep_ctx);
             Lit " pending dependencies that must be completed first."]])%list
    | None => narrative
    end in
  let narrative :=
    match truthy_score (ts_complexity_score task) with
    | Some s =>
        match complexity_desc s with
        | Some desc =>
            (narrative ++ [[Lit "This is a "; Lit desc; Lit " task (score: ";
                            Val (PInt s); Lit "/10)."]])%list
        | None => narrative
        end
    | None => narrative
    end in
  let narrative :=
    match recent_interactions context with
    | Some (x :: l) => (narrative ++ [interaction_sentence (x :: l)])%list
    | _ => narrative
    end in
  narrative ← narrative_validations context narrative;
  Ok (Joined " " narrative).

(** *** [export_context_for_prompt] *)

Definition export_context_for_prompt (db : Database) (task_id : string)
    (format_type : string) : result text :=
  context ← generate_prompt_context_default db task_id;
  if String.eqb format_type "structured" then _format_structured_context context
  else if String.eqb format_type "narrative" then _format_narrative_context context
  else if String.eqb format_type "json" then Ok (JsonDumps context)
  else Err (ValueError ("Unsupported format type: " ++ format_type)).

(** ** Health score *)

Record ComponentScores := {
  interaction_health : Q;
  validation_health : Q;
  performance_health : Q;
  complexity_health : Q
}.

(** Both dicts [get_context_health_score] returns; [last_updated] (the clock)
    is left out. *)
Record HealthReport := {
  overall_score : Q;
  health_status : string;
  component_scores : option ComponentScores;
  hr_recommendations : option (list string);
  error : option string
}.

(** [max(0, x)] and [min(100, x)] *)
Definition max0 (x : Q) : Q := if Qltb 0 x then x else 0%Q.
Definition min100 (x : Q) : Q := if Qltb x 100 then x else 100%Q.

(** [round(x, 1)]: to one decimal place, ties to even. *)
Definition round_half_even (x : Q) : Z :=
  let f := Qfloor x in
  let d := (x - inject_Z f)%Q in
  if Qltb d (1 # 2) then f
  else if Qltb (1 # 2) d then f + 1
  else if Z.even f then f else f + 1.

Definition round1 (x : Q) : Q := (inject_Z (round_half_even (x * 10)) / 10)%Q.

Definition interaction_health_of (interactions : InteractionPatterns) : Q :=
  match interactions with
  | Interactions s =>
      let success_rate := success_rate s in
      let time_score :=
        match avg_execution_time_ms s with
        | Some avg_time =>
            if Qeq_bool avg_time 0 then 100%Q else max0 (100 - avg_time / 100)%Q
        | None => 100%Q
        end in
      (success_rate * 70 + time_score * (3 # 10))%Q
  | NoInteractions => 50%Q
  end.

Definition trend_bonus (trend : string) : Q :=
  if String.eqb trend "improving" then 10%Q
  else if String.eqb trend "stable" then 0%Q
  else if String.eqb trend "declining" then (-20)%Q
  else 0%Q.

Definition validation_health_of (validations : ValidationTrends) : Q :=
  match validations with
  | Validations s => min100 (max0 (pass_rate s * 100 + trend_bonus (recent_trend s))%Q)
  | NoValidations => 50%Q
  end.

Definition trend_score (trend : string) : Q :=
  if String.eqb trend "improving" then 90%Q
  else if String.eqb trend "stable" then 70%Q
  else if String.eqb trend "declining" then 40%Q
  else 50%Q.

Definition performance_health_of (performance : PerformanceAnalysis) : Q :=
  match performance with
  | PerformanceData s => trend_score (execution_time_trend s)
  | NoPerformanceData => 50%Q
  end.

Definition complexity_scores (complexity : string) : Q :=
  if String.eqb complexity "low" then 90%Q
  else if String.eqb complexity "medium" then 70%Q
  else if String.eqb complexity "high" then 50%Q
  else if String.eqb complexity "very_high" then 30%Q
  else 50%Q.

Definition component_scores_of (analytics : ContextAnalytics) : ComponentScores :=
  {| interaction_health := interaction_health_of (interaction_patterns analytics);
     validation_health := validation_health_of (validation_trends analytics);
     performance_health := performance_health_of (performance_metrics_analysis analytics);
     complexity_health :=
       complexity_scores (overall_complexity (complexity_indicators analytics)) |}.

(** [sum(scores[key] * weights[key] for key in scores)] *)
Definition weighted_sum (scores : ComponentScores) : Q :=
  (0 + interaction_health scores * (3 # 10)
     + validation_health scores * (3 # 10)
     + performance_health scores * (2 # 10)
     + complexity_health scores * (2 # 10))%Q.

Definition health_status_of (overall_score : Q) : string :=
  if Qle_bool 80 overall_score then "excellent"
  else if Qle_bool 60 overall_score then "good"
  else if Qle_bool 40 overall_score then "fair"
  else "poor".

(** The report built in the [try] block once the analytics are there. *)
Definition health_report_of (analytics : ContextAnalytics) : HealthReport :=
  let scores := component_scores_of analytics in
  let overall_score := weighted_sum scores in
  {| overall_score := round1 overall_score;
     health_status := health_status_of overall_score;
     component_scores := Some scores;
     hr_recommendations := Some (recommendations analytics);
     error := None |}.

(** The report built in the [except] block. *)
Definition degraded_report (e : exn) : HealthReport :=
  {| overall_score := 0%Q;
     health_status := "error";
     component_scores := None;
     hr_recommendations := None;
     error := Some (exn_str e) |}.

Definition get_context_health_score (db : Database) (task_id : string)
    : result HealthReport :=
  catch
    (analytics ← analyze_context_patterns db task_id;
     Ok (health_report_of analytics))
    (fun e => Ok (degraded_report e)).

(** ** A small database to evaluate the engine on *)

Module Fixture.

Definition task (i : string) (st : TaskStatus) (score : Z) (files : list string)
    : AtomicTask :=
  {| id := Some i;
     title := "Task " ++ i;
     description := Some "work";
     affected_files := Some files;
     complexity_score := Some score;
     status := st;
     priority := MEDIUM;
     created_at := None;
     updated_at := None;
     assigned_to := None;
     estimated_hours := None;
     actual_hours := None;
     tags := None |}.

Definition interaction (time : option Z) (ok : bool) : ai_row :=
  {| ai_agent_name := "codegen";
     ai_interaction_type := "prompt";
     ai_request_data := None;
     ai_response_data := None;
     ai_execution_time_ms := time;
     ai_success := ok;
     ai_error_message := None;
     ai_created_at := "2024-01-01T00:00:00" |}.

Definition validation (st : string) : validation_row :=
  {| vr_validation_type := "tests";
     vr_validator_name := "pytest";
     vr_status := st;
     vr_score := None;
     vr_details := None;
     vr_suggestions := None;
     vr_created_at := "2024-01-01T00:00:00" |}.

Definition sample (ty : string) (v : option Q) : metric_row :=
  {| metric_type := ty;
     metric_name := "m";
     metric_value := v;
     metric_unit := Some "ms";
     metric_timestamp := "2024-01-01T00:00:00" |}.

Definition row (ty : string) (data : pyval) : context_row :=
  {| context_type := ty; context_data := data; is_active := true |}.

(** A database holding the single task ["t1"]. *)
Definition single (t : AtomicTask) (ctx : list context_row) (ais : list ai_row)
    (vals : list validation_row) (samples : list metric_row) : Database :=
  {| pool := true;
     tasks := fun i => Ok (if String.eqb i "t1" then Some t else None);
     task_dependencies := fun _ => Ok [];
     task_context := fun _ => Ok ctx;
     ai_interactions := fun _ => Ok ais;
     validation_results := fun _ => Ok vals;
     performance_metrics := fun _ => Ok samples |}.

Definition plain : Database :=
  single (task "t1" PENDING 3 []) [] [interaction (Some 1000) true] [validation "passed"] [].

(** Task ["t1"] with three parent ids: one done, one pending, one dangling. *)
Definition parent_done : AtomicTask := task "p1" DONE 2 [].
Definition parent_pending : AtomicTask := task "p2" PENDING 2 [].

Definition family : Database :=
  {| pool := true;
     tasks := fun i =>
       Ok (if String.eqb i "t1" then Some (task "t1" PENDING 3 [])
           else if String.eqb i "p1" then Some parent_done
           else if String.eqb i "p2" then Some parent_pending
           else None);
     task_dependencies := fun i =>
       Ok (if String.eqb i "t1" then ["p1"; "p2"; "ghost"] else []);
     task_context := fun _ => Ok [];
     ai_interactions := fun _ => Ok [];
     validation_results := fun _ => Ok [];
     performance_metrics := fun _ => Ok [] |}.

(** A task of high complexity: score 8, three files, no dependency, one
    timed successful interaction and one passed validation. *)
Definition high_complexity : Database :=
  single (task "t1" PENDING 8 ["a.py"; "b.py"; "c.py"]) []
    [interaction (Some 1000) true] [validation "passed"] [].

(** The same task with an interaction that reports no execution time. *)
Definition untimed : Database :=
  single (task "t1" PENDING 3 []) [] [interaction None true] [validation "passed"] [].

(** Analyses of a task with many dependencies and slow, failing interactions. *)
Definition busy_complexity : ComplexityIndicators :=
  {| ci_complexity_score := Some 4;
     affected_files_count := 1;
     ci_has_dependencies := true;
     dependency_count := 4;
     requirements_complexity := "low";
     overall_complexity := "low" |}.

Definition slow_failing : InteractionPatterns :=
  Interactions {| total_interactions := 2;
                  interaction_types := [(PStr "prompt", 2%nat)];
                  error_count := 1;
                  error_rate := 1 # 2;
                  avg_execution_time_ms := Some 6000%Q;
                  success_rate := 1 # 2 |}.

(** Task ["t1"] after two writes of its requirements (newest first) and one
    write of metadata. *)
Definition rewritten : Database :=
  single (task "t1" PENDING 3 [])
    [ row "requirements" (PDict {[ "version" := PInt 2 ]});
      row "metadata" (PDict {[ "owner" := PStr "ops" ]});
      row "requirements" (PDict {[ "version" := PInt 1 ]}) ]
    [] [] [].

(** Validation records that carry only a status, and the history
    [passed, passed, failed, passed, failed], newest first. *)
Definition outcome (st : string) : pydict := {[ "status" := PStr st ]}.

Definition scenario_b : list pydict :=
  [outcome "passed"; outcome "passed"; outcome "failed"; outcome "passed"; outcome "failed"].

(** The prompt context of a task with a given score, files and number of
    resolved dependencies, and nothing else. *)
Definition context_of (score : Z) (files : list string) (deps : nat) : PromptContext :=
  {| task_id := "t1";
     task_summary := task_summary_of (task "t1" PENDING score files);
     requirements_context := PNone;
     codebase_context := PNone;
     recent_interactions := None;
     validation_history := None;
     dependency_context :=
       Some (Dependencies {| total_dependencies := deps;
                             completed_dependencies := 0;
                             pending_dependencies := 0;
                             blocked_dependencies := 0;
                             dependencies := [];
                             is_ready := true |});
     performance_context := Some NoMetrics;
     workflow_state := PNone;
     metadata := PNone |}.

(** Three samples, newest first: two execution times and one memory reading. *)
Definition measured : Database :=
  single (task "t1" PENDING 3 []) [] [] []
    [ sample "execution_time" (Some 100%Q);
      sample "memory" (Some 7%Q);
      sample "execution_time" (Some 300%Q) ].

(** Three interaction records: one without a success field, one that
    failed, one whose success field is None. *)
Definition mixed_interactions : list pydict :=
  [ {[ "interaction_type" := PStr "prompt" ]};
    <[ "success" := PBool false ]> {[ "interaction_type" := PStr "prompt" ]};
    <[ "success" := PNone ]> {[ "interaction_type" := PStr "response" ]} ].

(** Task ["t1"] with one successful interaction whose recorded execution
    time is negative. *)
Definition negative_time : Database :=
  single (task "t1" PENDING 3 []) [] [interaction (Some (-1000000)) true] [] [].

(** An interaction analysis of two successful interactions, none of which
    reports an execution time. *)
Definition untimed_patterns : InteractionStats :=
  {| total_interactions := 2;
     interaction_types := [(PStr "prompt", 2%nat)];
     error_count := 0;
     error_rate := 0;
     avg_execution_time_ms := None;
     success_rate := 1 |}.

End Fixture.

(** ** Vocabulary of the statements *)

(** The keys the formatters read with [d[k]]. *)
Definition well_formed_interaction (d : pydict) : Prop :=
  is_Some (d !! "interaction_type") /\ is_Some (d !! "agent_name").

Definition well_formed_validation (d : pydict) : Prop :=
  is_Some (d !! "status") /\ is_Some (d !! "validation_type")
  /\ is_Some (d !! "validator_name").

Definition well_formed_context (context : PromptContext) : Prop :=
  (forall l, recent_interactions context = Some l -> Forall well_formed_interaction l)
  /\ (forall l, validation_history context = Some l -> Forall well_formed_validation l).

(** The tokens [export_context_for_prompt] dispatches on. *)
Definition supported_format (format_type : string) : bool :=
  String.eqb format_type "structured" || String.eqb format_type "narrative"
  || String.eqb format_type "json".

(** The parents a dependency list resolves to: the tasks found, in order;
    the ids with no task are skipped. *)
Inductive resolves (db : Database) : list string -> list AtomicTask -> Prop :=
| resolves_nil : resolves db [] []
| resolves_found dep_id t deps parents :
    get_task db dep_id = Ok (Some t) -> resolves db deps parents ->
    resolves db (dep_id :: deps) (t :: parents)
| resolves_missing dep_id deps parents :
    get_task db dep_id = Ok None -> resolves db deps parents ->
    resolves db (dep_id :: deps) parents.

(** The three status classes of the dependency summary. *)
Definition completed_status (s : TaskStatus) : bool :=
  match s with DONE => true | _ => false end.
Definition pending_status (s : TaskStatus) : bool :=
  match s with PENDING | IN_PROGRESS => true | _ => false end.
Definition blocked_status (s : TaskStatus) : bool :=
  match s with BLOCKED | DEFERRED => true | _ => false end.

Definition count_status (p : TaskStatus -> bool) (parents : list AtomicTask) : nat :=
  length (List.filter (fun t => p (status t)) parents).

(** What the analyses report, when they report it. *)
Definition reported_error_rate (i : InteractionPatterns) : option Q :=
  match i with Interactions s => Some (error_rate s) | NoInteractions => None end.
Definition reported_avg_time (i : InteractionPatterns) : option Q :=
  match i with Interactions s => avg_execution_time_ms s | NoInteractions => None end.
Definition reported_pass_rate (v : ValidationTrends) : option Q :=
  match v with Validations s => Some (pass_rate s) | NoValidations => None end.
Definition reported_validation_trend (v : ValidationTrends) : option string :=
  match v with Validations s => Some (recent_trend s) | NoValidations => None end.
Definition reported_performance_trend (p : PerformanceAnalysis) : option string :=
  match p with PerformanceData s => Some (execution_time_trend s) | NoPerformanceData => None end.

Definition above (bound : Q) (o : option Q) : bool :=
  match o with Some q => Qltb bound q | None => false end.
Definition below (bound : Q) (o : option Q) : bool :=
  match o with Some q => Qltb q bound | None => false end.
Definition is_trend (t : string) (o : option string) : bool :=
  match o with Some s => String.eqb s t | None => false end.

(** A rule list is a list of (condition, advice); the advice of the rules
    that match, in the order of the list. *)
Definition matching_rules (rules : list (bool * string)) : list string :=
  snd <$> List.filter fst rules.

(** The rule list in the words of the specification: nine rules. *)
Definition specified_rules (c : ComplexityIndicators) (i : InteractionPatterns)
    (v : ValidationTrends) (p : PerformanceAnalysis) : list (bool * string) :=
  [ (String.eqb (overall_complexity c) "very_high", rec_very_high);
    ((3 <? dependency_count c)%nat, rec_dependencies);
    (above (3 # 10) (reported_error_rate i), rec_error_rate);
    (above 5000 (reported_avg_time i), rec_slow);
    (below (7 # 10) (reported_pass_rate v), rec_pass_rate);
    (is_trend "declining" (reported_validation_trend v), rec_validation_declining);
    (is_trend "declining" (reported_performance_trend p), rec_performance_declining);
    (negb (has_interactions i), rec_no_interactions);
    (negb (has_validations v), rec_no_validations) ].

(** The rule list of the code: the same with the rule for 'high' complexity
    (the [elif] of the first rule) in second place. *)
Definition recommendation_rules (c : ComplexityIndicators) (i : InteractionPatterns)
    (v : ValidationTrends) (p : PerformanceAnalysis) : list (bool * string) :=
  [ (String.eqb (overall_complexity c) "very_high", rec_very_high);
    (negb (String.eqb (overall_complexity c) "very_high")
     && String.eqb (overall_complexity c) "high", rec_high);
    ((3 <? dependency_count c)%nat, rec_dependencies);
    (above (3 # 10) (reported_error_rate i), rec_error_rate);
    (above 5000 (reported_avg_time i), rec_slow);
    (below (7 # 10) (reported_pass_rate v), rec_pass_rate);
    (is_trend "declining" (reported_validation_trend v), rec_validation_declining);
    (is_trend "declining" (reported_performance_trend p), rec_performance_declining);
    (negb (has_interactions i), rec_no_interactions);
    (negb (has_validations v), rec_no_validations) ].

(** The interaction analysis either found no interaction or reports an
    average execution time. *)
Definition avg_time_reported (i : InteractionPatterns) : Prop :=
  match i with
  | NoInteractions => True
  | Interactions s => is_Some (avg_execution_time_ms s)
  end.

(** The values stored for a context type: the data of the active rows of
    that type, newest first. *)
Definition stored_values (ty : string) (rows : list context_row) : list pyval :=
  context_data <$> List.filter (fun r => is_active r && String.eqb (context_type r) ty) rows.

(** A snapshot field exposes one of the stored values, and nothing when none
    is stored. *)
Definition exposes (field : pyval) (stored : list pyval) : Prop :=
  match stored with
  | [] => field = PNone
  | _ => field ∈ stored
  end.

(** The order low < medium < high < very_high on the complexity buckets. *)
Definition bucket_rank (bucket : string) : nat :=
  if String.eqb bucket "very_high" then 3
  else if String.eqb bucket "high" then 2
  else if String.eqb bucket "medium" then 1
  else 0.

(** A context with another complexity score, or other affected files, and
    everything else unchanged. *)
Definition with_task_summary (context : PromptContext) (summary : TaskSummary)
    : PromptContext :=
  {| task_id := task_id context;
     task_summary := summary;
     requirements_context := requirements_context context;
     codebase_context := codebase_context context;
     recent_interactions := recent_interactions context;
     validation_history := validation_history context;
     dependency_context := dependency_context context;
     performance_context := performance_context context;
     workflow_state := workflow_state context;
     metadata := metadata context |}.

Definition with_complexity_score (context : PromptContext) (score : Z) : PromptContext :=
  let t := task_summary context in
  with_task_summary context
    {| ts_id := ts_id t;
       ts_title := ts_title t;
       ts_description := ts_description t;
       ts_status := ts_status t;
       ts_priority := ts_priority t;
       ts_complexity_score := Some score;
       ts_affected_files := ts_affected_files t;
       ts_tags := ts_tags t;
       ts_created_at := ts_created_at t;
       ts_updated_at := ts_updated_at t;
       ts_assigned_to := ts_assigned_to t;
       ts_estimated_hours := ts_estimated_hours t;
       ts_actual_hours := ts_actual_hours t |}.

Definition with_affected_files (context : PromptContext) (files : list string)
    : PromptContext :=
  let t := task_summary context in
  with_task_summary context
    {| ts_id := ts_id t;
       ts_title := ts_title t;
       ts_description := ts_description t;
       ts_status := ts_status t;
       ts_priority := ts_priority t;
       ts_complexity_score := ts_complexity_score t;
       ts_affected_files := Some files;
       ts_tags := ts_tags t;
       ts_created_at := ts_created_at t;
       ts_updated_at := ts_updated_at t;
       ts_assigned_to := ts_assigned_to t;
       ts_estimated_hours := ts_estimated_hours t;
       ts_actual_hours := ts_actual_hours t |}.

(** The samples of type execution_time among the rows fetched (the latest
    twenty), their values, and the arithmetic mean of a list of values. *)
Definition fetched_execution_times (rows : list metric_row) : list metric_row :=
  List.filter (fun r => String.eqb (metric_type r) "execution_time") (take 20 rows).

Definition sample_values (rows : list metric_row) : list Q := omap metric_value rows.

Definition mean (values : list Q) : Q := (Qsum values / Qnat (length values))%Q.

(** A record whose success field is present and falsy. *)
Definition present_and_falsy (interaction : pydict) : bool :=
  match interaction !! "success" with
  | Some v => negb (py_truthy v)
  | None => false
  end.

(** The execution time of a record, when it has a numeric one, is not
    negative. *)
Definition nonnegative_time (interaction : pydict) : Prop :=
  forall v n,
    interaction !! "execution_time_ms" = Some v -> as_num v = Some n -> (0 <= num_q n)%Q.

(** ** More sample data *)

Module Sample.

(** A database whose only task is a cancelled one, stored as ["t1"]. *)
Definition cancelled_parent : Database :=
  Fixture.single (Fixture.task "c1" CANCELLED 1 []) [] [] [] [].

(** A database that finds ["p1"] and fails on every other task id. *)
Definition flaky : Database :=
  {| pool := true;
     tasks := fun i => if String.eqb i "p1" then Ok (Some Fixture.parent_done)
                       else Err (StorageError "timeout");
     task_dependencies := fun _ => Ok [];
     task_context := fun _ => Ok [];
     ai_interactions := fun _ => Ok [];
     validation_results := fun _ => Ok [];
     performance_metrics := fun _ => Ok [] |}.

(** Two execution_time samples of task ["t1"], the newer one without a
    value. *)
Definition half_valued_rows : list metric_row :=
  [Fixture.sample "execution_time" None; Fixture.sample "execution_time" (Some 10%Q)].

Definition half_valued : Database :=
  Fixture.single (Fixture.task "t1" PENDING 3 []) [] [] [] half_valued_rows.

(** A snapshot with the given interaction history and one validation. *)
Definition narrated (interactions : list pydict) : PromptContext :=
  {| task_id := "t1";
     task_summary := task_summary_of (Fixture.task "t1" PENDING 3 []);
     requirements_context := PNone;
     codebase_context := PNone;
     recent_interactions := Some interactions;
     validation_history := Some [Fixture.outcome "passed"];
     dependency_context := Some NoDependencies;
     performance_context := Some NoMetrics;
     workflow_state := PNone;
     metadata := PNone |}.

End Sample.

(** The number of records a tally has counted. *)
Definition tally_total (counts : tally) : nat :=
  fold_right (fun entry total => (snd entry + total)%nat) 0%nat counts.

(** A record that reports a truthy execution time. *)
Definition is_timed (interaction : pydict) : bool :=
  py_truthy (default PNone (interaction !! "execution_time_ms")).

(** ** Tasks without a history *)

(** [AtomicTask(title=t)]: the dataclass defaults leave every optional field
    None, the status pending and the priority medium. *)
Definition default_task (t : string) : AtomicTask :=
  {| id := None;
     title := t;
     description := None;
     affected_files := None;
     complexity_score := None;
     status := PENDING;
     priority := MEDIUM;
     created_at := None;
     updated_at := None;
     assigned_to := None;
     estimated_hours := None;
     actual_hours := None;
     tags := None |}.

Module Fresh.

(** Task ["t1"] stored as the defaults leave it. *)
Definition unlisted : Database := Fixture.single (default_task "new") [] [] [] [].

(** Task ["t1"] with a file list and nothing recorded about it yet. *)
Definition untouched : Database :=
  Fixture.single (Fixture.task "t1" PENDING 8 ["a.py"; "b.py"; "c.py"]) [] [] [] [].

End Fresh.

(** A validation row whose status is ['passed']. *)
Definition row_passed (row : validation_row) : bool := String.eqb (vr_status row) "passed".

(** ** The in-memory task storage ([mock_implementations.py]) *)

Inductive DependencyType := BLOCKS | REQUIRES | RELATES_TO | SUBTASK.

(** [a == b] on the members of [TaskStatus]. *)
Definition TaskStatus_eqb (a b : TaskStatus) : bool :=
  match a, b with
  | PENDING, PENDING | IN_PROGRESS, IN_PROGRESS | DONE, DONE
  | DEFERRED, DEFERRED | BLOCKED, BLOCKED | CANCELLED, CANCELLED => true
  | _, _ => false
  end.

Module MockTaskStorage.

(** One entry of [self.contexts[task_id]]. *)
Record context_entry := {
  ce_context_type : string;
  ce_context_data : pyval;
  ce_created_at : string
}.

(** [self.tasks]: a dict from ids to tasks, in insertion order. *)
Definition task_table := list (string * AtomicTask).

(** [table.get(task_id)] *)
Fixpoint lookup_task (task_id : string) (table : task_table) : option AtomicTask :=
  match table with
  | [] => None
  | (k, task) :: rest =>
      if String.eqb k task_id then Some task else lookup_task task_id rest
  end.

(** [table[task_id] = task]: in place for a key that is there, at the end
    for a new one. *)
Fixpoint assign_task (task_id : string) (task : AtomicTask) (table : task_table)
    : task_table :=
  match table with
  | [] => [(task_id, task)]
  | (k, t) :: rest =>
      if String.eqb k task_id then (k, task) :: rest
      else (k, t) :: assign_task task_id task rest
  end.

(** The three dicts of a [MockTaskStorage]. *)
Record state := {
  tasks : task_table;
  dependencies : gmap string (list string);
  contexts : gmap string (list context_entry)
}.

(** [store_task]; [fresh] is the uuid drawn when the task has no id, [t1]
    and [t2] are the two readings of the clock. *)
Definition store_task (s : state) (task : AtomicTask) (fresh t1 t2 : string)
    : state * string :=
  let task_id :=
    match id task with
    | Some i => if String.eqb i "" then fresh else i
    | None => fresh
    end in
  let task :=
    {| id := Some task_id;
       title := title task;
       description := description task;
       affected_files := affected_files task;
       complexity_score := complexity_score task;
       status := status task;
       priority := priority task;
       created_at := Some (default t1 (created_at task));
       updated_at := Some t2;
       assigned_to := assigned_to task;
       estimated_hours := estimated_hours task;
       actual_hours := actual_hours task;
       tags := tags task |} in
  ({| tasks := assign_task task_id task (tasks s);
      dependencies := dependencies s;
      contexts := contexts s |},
   task_id).

Definition get_task (s : state) (task_id : string) : option AtomicTask :=
  lookup_task task_id (tasks s).

Definition store_task_context (s : state) (task_id context_type : string)
    (context_data : pyval) (now : string) : state :=
  let entries := default [] (contexts s !! task_id) in
  {| tasks := tasks s;
     dependencies := dependencies s;
     contexts :=
       <[task_id := (entries ++ [{| ce_context_type := context_type;
                                    ce_context_data := context_data;
                                    ce_created_at := now |}])%list]> (contexts s) |}.

(** [task.status = status; task.updated_at = now] *)
Definition with_status (task : AtomicTask) (new_status : TaskStatus) (now : string)
    : AtomicTask :=
  {| id := id task;
     title := title task;
     description := description task;
     affected_files := affected_files task;
     complexity_score := complexity_score task;
     status := new_status;
     priority := priority task;
     created_at := created_at task;
     updated_at := Some now;
     assigned_to := assigned_to task;
     estimated_hours := estimated_hours task;
     actual_hours := actual_hours task;
     tags := tags task |}.

Definition update_task_status (s : state) (task_id : string) (new_status : TaskStatus)
    (context : pyval) (t1 t2 : string) : state :=
  match lookup_task task_id (tasks s) with
  | Some task =>
      let s := {| tasks := assign_task task_id (with_status task new_status t1) (tasks s);
                  dependencies := dependencies s;
                  contexts := contexts s |} in
      if py_truthy context then store_task_context s task_id "status_update" context t2
      else s
  | None => s
  end.

(** [[task for task in self.tasks.values() if task.status == status]] *)
Definition get_tasks_by_status (s : state) (wanted : TaskStatus) : list AtomicTask :=
  List.filter (fun task => TaskStatus_eqb (status task) wanted) (snd <$> tasks s).

Definition get_task_dependencies (s : state) (task_id : string) : list string :=
  default [] (dependencies s !! task_id).

Definition add_task_dependency (s : state) (parent_task_id child_task_id : string)
    (dependency_type : DependencyType) : state :=
  let dependencies :=
    match dependencies s !! child_task_id with
    | Some _ => dependencies s
    | None => <[child_task_id := []]> (dependencies s)
    end in
  let parents := default [] (dependencies !! child_task_id) in
  {| tasks := tasks s;
     dependencies :=
       if bool_decide (parent_task_id ∈ parents) then dependencies
       else <[child_task_id := (parents ++ [parent_task_id])%list]> dependencies;
     contexts := contexts s |}.

(** A storage with no task, no dependency and no context. *)
Definition empty : state :=
  {| tasks := []; dependencies := ∅; contexts := ∅ |}.

(** Every key of the task table occurs once, and every task is stored under
    its own id. *)
Definition keyed (s : state) : Prop :=
  NoDup (fst <$> tasks s)
  /\ Forall (fun entry => id (snd entry) = Some (fst entry)) (tasks s).

(** No dependency list names a parent twice. *)
Definition duplicate_free (s : state) : Prop :=
  forall child parents, dependencies s !! child = Some parents -> NoDup parents.

(** The calls that change a storage, with the values they draw. *)
Inductive call :=
| StoreTask (task : AtomicTask) (fresh t1 t2 : string)
| UpdateTaskStatus (task_id : string) (new_status : TaskStatus) (context : pyval)
    (t1 t2 : string)
| StoreTaskContext (task_id context_type : string) (context_data : pyval) (now : string)
| AddTaskDependency (parent_task_id child_task_id : string)
    (dependency_type : DependencyType).

Definition perform (s : state) (c : call) : state :=
  match c with
  | StoreTask task fresh t1 t2 => fst (store_task s task fresh t1 t2)
  | UpdateTaskStatus task_id new_status context t1 t2 =>
      update_task_status s task_id new_status context t1 t2
  | StoreTaskContext task_id context_type context_data now =>
      store_task_context s task_id context_type context_data now
  | AddTaskDependency parent_task_id child_task_id dependency_type =>
      add_task_dependency s parent_task_id child_task_id dependency_type
  end.

(** The storage after a sequence of calls. *)
Definition run (s : state) (calls : list call) : state := fold_left perform calls s.

End MockTaskStorage.

(** The values the trend is computed from: the non-zero values of the
    execution_time rows. *)
Definition timed_values (rows : list metric_row) : list Q :=
  omap (fun row =>
          if String.eqb (metric_type row) "execution_time" then
            match metric_value row with
            | Some v => if Qeq_bool v 0 then None else Some v
            | None => None
            end
          else None) rows.

(** ** The in-memory context storage ([mock_implementations.py]) *)

Inductive InteractionType := PROMPT | RESPONSE | VALIDATION | FEEDBACK | ERROR | COMPLETION.

Definition InteractionType_value (t : InteractionType) : string :=
  match t with
  | PROMPT => "prompt"
  | RESPONSE => "response"
  | VALIDATION => "validation"
  | FEEDBACK => "feedback"
  | ERROR => "error"
  | COMPLETION => "completion"
  end.

Module MockContextStorage.

(** The fields of [AIInteraction] and [ValidationResult] the storage reads
    or writes. *)
Record AIInteraction := {
  ai_id : option string;
  agent_name : string;
  interaction_type : InteractionType;
  request_data : pyval;
  response_data : pyval;
  execution_time_ms : option Z;
  success : bool;
  error_message : option string;
  ai_created_at : option string
}.

Record ValidationResult := {
  vr_id : option string;
  validation_type : string;
  validator_name : string;
  vr_status : string;
  score : option Q;
  details : pyval;
  suggestions : pyval;
  vr_created_at : option string
}.

(** The two history dicts of a [MockContextStorage]; [codebase_contexts],
    which only [get_codebase_context] reads, is left out. *)
Record state := {
  ai_interactions : gmap string (list AIInteraction);
  validation_results : gmap string (list ValidationResult)
}.

(** [x or fresh], on an optional string. *)
Definition or_else (x : option string) (fresh : string) : string :=
  match x with
  | Some s => if String.eqb s "" then fresh else s
  | None => fresh
  end.

(** [store_ai_interaction]; [fresh] is the uuid and [now] the clock. *)
Definition store_ai_interaction (s : state) (task_id : string)
    (interaction : AIInteraction) (fresh now : string) : state :=
  let stored := default [] (ai_interactions s !! task_id) in
  let interaction :=
    {| ai_id := Some (or_else (ai_id interaction) fresh);
       agent_name := agent_name interaction;
       interaction_type := interaction_type interaction;
       request_data := request_data interaction;
       response_data := response_data interaction;
       execution_time_ms := execution_time_ms interaction;
       success := success interaction;
       error_message := error_message interaction;
       ai_created_at := Some (default now (ai_created_at interaction)) |} in
  {| ai_interactions := <[task_id := (stored ++ [interaction])%list]> (ai_interactions s);
     validation_results := validation_results s |}.

Definition store_validation_result (s : state) (task_id : string)
    (result : ValidationResult) (fresh now : string) : state :=
  let stored := default [] (validation_results s !! task_id) in
  let result :=
    {| vr_id := Some (or_else (vr_id result) fresh);
       validation_type := validation_type result;
       validator_name := validator_name result;
       vr_status := vr_status result;
       score := score result;
       details := details result;
       suggestions := suggestions result;
       vr_created_at := Some (default now (vr_created_at result)) |} in
  {| ai_interactions := ai_interactions s;
     validation_results := <[task_id := (stored ++ [result])%list]> (validation_results s) |}.

(** The dicts [get_task_context] builds from the stored objects. *)
Definition interaction_dict (interaction : AIInteraction) : pydict :=
  list_to_map
    [ ("agent_name", PStr (agent_name interaction));
      ("interaction_type", PStr (InteractionType_value (interaction_type interaction)));
      ("request_data", request_data interaction);
      ("response_data", response_data interaction);
      ("execution_time_ms", of_oint (execution_time_ms interaction));
      ("success", PBool (success interaction));
      ("error_message", of_ostr (error_message interaction));
      ("created_at", of_ostr (ai_created_at interaction)) ].

Definition validation_dict (result : ValidationResult) : pydict :=
  list_to_map
    [ ("validation_type", PStr (validation_type result));
      ("validator_name", PStr (validator_name result));
      ("status", PStr (vr_status result));
      ("score", of_ofloat (score result));
      ("details", details result);
      ("suggestions", suggestions result);
      ("created_at", of_ostr (vr_created_at result)) ].

Definition strs (l : list string) : pyval := PList (PStr <$> l).

(** The four dict literals every [get_task_context] carries. *)
Definition canned_requirements : pyval :=
  PDict (list_to_map
    [ ("functional_requirements",
       strs ["secure authentication"; "JWT tokens"; "password reset"]);
      ("non_functional_requirements",
       strs ["performance < 200ms"; "security compliance"]);
      ("constraints", strs ["Django framework"; "PostgreSQL database"]) ]).

Definition canned_codebase : pyval :=
  PDict (list_to_map
    [ ("architecture", PStr "Django REST API");
      ("patterns", strs ["Model-View-Serializer"; "JWT middleware"]);
      ("dependencies", strs ["django-rest-framework"; "PyJWT"]) ]).

Definition canned_workflow : pyval :=
  PDict (list_to_map
    [ ("current_phase", PStr "implementation");
      ("progress", PInt 75);
      ("next_steps", strs ["add tests"; "security review"]) ]).

Definition canned_performance : pyval :=
  PDict (list_to_map
    [ ("avg_response_time", PInt 180);
      ("test_coverage", PFloat (185 # 2));
      ("code_quality_score", PFloat (17 # 2)) ]).

Definition get_task_context (s : state) (task_id : string) : TaskContext :=
  {| tc_task_id := task_id;
     tc_requirements_context := canned_requirements;
     tc_codebase_context := canned_codebase;
     tc_ai_interactions :=
       Some (interaction_dict <$> default [] (ai_interactions s !! task_id));
     tc_validation_results :=
       Some (validation_dict <$> default [] (validation_results s !! task_id));
     tc_workflow_state := canned_workflow;
     tc_performance_metrics := canned_performance;
     tc_metadata := PNone |}.

Definition empty : state := {| ai_interactions := ∅; validation_results := ∅ |}.

End MockContextStorage.

(** ** The engine over the in-memory manager *)

Module MockEngine.

(** [MockDatabaseManager]: two storages and a flag.  It has no [pool]. *)
Record MockDatabaseManager := {
  task_storage : MockTaskStorage.state;
  context_storage : MockContextStorage.state;
  initialized : bool
}.

Definition collect_dependency (m : MockDatabaseManager)
    (dependency_info : list dependency_entry) (dep_id : string) : list dependency_entry :=
  match MockTaskStorage.get_task (task_storage m) dep_id with
  | Some t => (dependency_info ++ [dependency_entry_of t])%list
  | None => dependency_info
  end.

Definition _build_dependency_context (m : MockDatabaseManager) (task_id : string)
    (dependencies : list string) : DependencyContext :=
  match dependencies with
  | [] => NoDependencies
  | _ => Dependencies (summarize_dependencies (fold_left (collect_dependency m) dependencies []))
  end.

(** [self.db_manager.pool.acquire()]: the attribute lookup fails. *)
Definition _get_performance_context (m : MockDatabaseManager) (task_id : string)
    : result PerformanceContext :=
  Err (AttributeError "'MockDatabaseManager' object has no attribute 'pool'").

Definition generate_prompt_context (m : MockDatabaseManager) (task_id : string)
    (include_history : bool) (max_interactions max_validations : Z)
    : result PromptContext :=
  match MockTaskStorage.get_task (task_storage m) task_id with
  | None => Err (ValueError ("Task " ++ task_id ++ " not found"))
  | Some task =>
      let full_context := MockContextStorage.get_task_context (context_storage m) task_id in
      let dependencies := MockTaskStorage.get_task_dependencies (task_storage m) task_id in
      let dependency_context := _build_dependency_context m task_id dependencies in
      performance_context ← _get_performance_context m task_id;
      Ok {| task_id := task_id;
            task_summary := task_summary_of task;
            requirements_context := tc_requirements_context full_context;
            codebase_context := tc_codebase_context full_context;
            recent_interactions :=
              trimmed_history include_history (tc_ai_interactions full_context) max_interactions;
            validation_history :=
              trimmed_history include_history (tc_validation_results full_context) max_validations;
            dependency_context := Some dependency_context;
            performance_context := Some performance_context;
            workflow_state := tc_workflow_state full_context;
            metadata := tc_metadata full_context |}
  end.

Definition analyze_context_patterns (m : MockDatabaseManager) (task_id : string)
    : result ContextAnalytics :=
  prompt_context ← generate_prompt_context m task_id true 10 5;
  analyze_prompt_context task_id prompt_context.

Definition export_context_for_prompt (m : MockDatabaseManager) (task_id : string)
    (format_type : string) : result text :=
  context ← generate_prompt_context m task_id true 10 5;
  if String.eqb format_type "structured" then _format_structured_context context
  else if String.eqb format_type "narrative" then _format_narrative_context context
  else if String.eqb format_type "json" then Ok (JsonDumps context)
  else Err (ValueError ("Unsupported format type: " ++ format_type)).

Definition get_context_health_score (m : MockDatabaseManager) (task_id : string)
    : result HealthReport :=
  catch
    (analytics ← analyze_context_patterns m task_id;
     Ok (health_report_of analytics))
    (fun e => Ok (degraded_report e)).

End MockEngine.

(** The error the engine meets over the in-memory manager: a stored task
    gets as far as the performance query, a missing one does not. *)
Definition mock_generation_error (m : MockEngine.MockDatabaseManager) (task_id : string)
    : exn :=
  match MockTaskStorage.get_task (MockEngine.task_storage m) task_id with
  | Some _ => AttributeError "'MockDatabaseManager' object has no attribute 'pool'"
  | None => ValueError ("Task " ++ task_id ++ " not found")
  end.

(** A record counts under [token] in the tally of the field [key]: the
    value of the field equals the token, or the record has no such field and
    the token is 'unknown'. *)
Definition tallied_under (key token : string) (record : pydict) : bool :=
  match record !! key with
  | Some value => py_eqb value (PStr token)
  | None => String.eqb token "unknown"
  end.

(** * Properties *)

(** ** The result monad *)

Lemma bind_Ok {A B} (m : result A) (f : A -> result B) a :
  m = Ok a -> (m ≫= f) = f a.
Proof. intros ->. reflexivity. Qed.

Lemma bind_Err {A B} (m : result A) (f : A -> result B) e :
  m = Err e -> (m ≫= f) = Err e.
Proof. intros ->. reflexivity. Qed.

Lemma bind_Ok_inv {A B} (m : result A) (f : A -> result B) b :
  (m ≫= f) = Ok b -> exists a, m = Ok a /\ f a = Ok b.
Proof. destruct m as [a|e]; [eauto | discriminate]. Qed.

Lemma fmap_Ok_inv {A B} (g : A -> B) (m : result A) b :
  (g <$> m) = Ok b -> exists a, m = Ok a /\ b = g a.
Proof. destruct m as [a|e]; [intros [= <-]; eauto | discriminate]. Qed.

(** Takes a hypothesis [H : (m ≫= f) = Ok b] apart. *)
Ltac bind_inv H :=
  let a := fresh "a" in
  let Ha := fresh "H" a in
  apply bind_Ok_inv in H as (a & Ha & H).

(** A loop whose body never raises on the elements it visits returns. *)
Lemma foldM_total {A S} (P : A -> Prop) (f : S -> A -> result S) l :
  (forall s a, P a -> exists s', f s a = Ok s') ->
  Forall P l -> forall s, exists s', foldM f s l = Ok s'.
Proof.
  intros Hf Hl. induction Hl as [|a l Ha _ IH]; intros s; simpl.
  - eauto.
  - destruct (Hf s a Ha) as [s' ->]. apply IH.
Qed.

(** A loop invariant carried through a successful run. *)
Lemma foldM_invariant {A S} (I : S -> list A -> Prop) (f : S -> A -> result S) :
  (forall s a s' seen, I s seen -> f s a = Ok s' -> I s' (seen ++ [a])%list) ->
  forall l s s' seen, I s seen -> foldM f s l = Ok s' -> I s' (seen ++ l)%list.
Proof.
  intros Hstep l. induction l as [|a l IH]; intros s s' seen HI H; simpl in H.
  - injection H as <-. now rewrite app_nil_r.
  - bind_inv H. replace (seen ++ a :: l)%list with ((seen ++ [a]) ++ l)%list
      by now rewrite <- app_assoc.
    eapply IH; [eapply Hstep|]; eassumption.
Qed.

(** ** Export formats (C1) *)

Lemma ai_row_dict_well_formed row : well_formed_interaction (ai_row_dict row).
Proof. split; eexists; vm_compute; reflexivity. Qed.

Lemma validation_row_dict_well_formed row : well_formed_validation (validation_row_dict row).
Proof. repeat split; eexists; vm_compute; reflexivity. Qed.

Lemma Forall_imap {A B} (P : A -> Prop) (Q : B -> Prop) (l : list A) :
  forall g : nat -> A -> B,
  (forall i x, P x -> Q (g i x)) -> Forall P l -> Forall Q (imap g l).
Proof.
  induction l as [|x l IH]; intros g Hg Hl; simpl; [constructor|].
  inversion Hl; subst. constructor; [auto|]. apply IH; [|assumption].
  intros i y. apply Hg.
Qed.

Lemma trimmed_history_Forall (P : pydict -> Prop) include full cap l :
  (forall xs, full = Some xs -> Forall P xs) ->
  trimmed_history include full cap = Some l -> Forall P l.
Proof.
  intros Hfull. unfold trimmed_history, slice_to.
  destruct full as [[|x xs]|]; try discriminate.
  destruct include; [|discriminate]. specialize (Hfull _ eq_refl).
  destruct (_ <? 0)%Z; intros [= <-]; now apply Forall_take.
Qed.

Lemma structured_interaction_total sections numbered :
  well_formed_interaction numbered.2 ->
  exists sections', structured_interaction sections numbered = Ok sections'.
Proof.
  destruct numbered as [i d]. intros [[ty Hty] [ag Hag]]. simpl in *.
  unfold structured_interaction, subscript. rewrite Hty, Hag. simpl.
  destruct (d !! "error_message") as [msg|]; simpl.
  - destruct (py_truthy msg); eauto.
  - eauto.
Qed.

Lemma structured_validation_total sections d :
  well_formed_validation d ->
  exists sections', structured_validation sections d = Ok sections'.
Proof.
  intros ([st Hst] & [ty Hty] & [vn Hvn]).
  unfold structured_validation, subscript. rewrite Hst, Hty, Hvn. simpl. eauto.
Qed.

Lemma count_passed_total passed d :
  well_formed_validation d -> exists passed', count_passed passed d = Ok passed'.
Proof.
  intros ([st Hst] & _). unfold count_passed, subscript. rewrite Hst. simpl. eauto.
Qed.

Lemma structured_interactions_total context sections :
  well_formed_context context ->
  exists sections', structured_interactions context sections = Ok sections'.
Proof.
  intros [Hi _]. unfold structured_interactions.
  destruct (recent_interactions context) as [[|x l]|]; eauto.
  apply (foldM_total (fun p => well_formed_interaction p.2)).
  - intros s a. apply structured_interaction_total.
  - apply (Forall_imap well_formed_interaction); [auto|].
    apply Forall_take. now apply Hi.
Qed.

Lemma structured_validations_total context sections :
  well_formed_context context ->
  exists sections', structured_validations context sections = Ok sections'.
Proof.
  intros [_ Hv]. unfold structured_validations.
  destruct (validation_history context) as [[|x l]|]; eauto.
  apply (foldM_total well_formed_validation).
  - intros s a. apply structured_validation_total.
  - apply Forall_take. now apply Hv.
Qed.

Lemma narrative_validations_total context narrative :
  well_formed_context context ->
  exists narrative', narrative_validations context narrative = Ok narrative'.
Proof.
  intros [_ Hv]. unfold narrative_validations.
  destruct (validation_history context) as [[|x l]|]; eauto.
  destruct (foldM_total well_formed_validation count_passed (take 3 (x :: l))
              (fun s a => count_passed_total s a)
              ltac:(apply Forall_take; now apply Hv) 0%nat) as [passed H].
  rewrite (bind_Ok _ _ _ H). eauto.
Qed.

Lemma _format_structured_context_total context :
  well_formed_context context -> exists t, _format_structured_context context = Ok t.
Proof.
  intros Hwf. unfold _format_structured_context.
  match goal with |- context [structured_interactions context ?s] =>
    destruct (structured_interactions_total context s Hwf) as [s1 H1] end.
  rewrite (bind_Ok _ _ _ H1).
  destruct (structured_validations_total context s1 Hwf) as [s2 H2].
  rewrite (bind_Ok _ _ _ H2). eauto.
Qed.

Lemma _format_narrative_context_total context :
  well_formed_context context -> exists t, _format_narrative_context context = Ok t.
Proof.
  intros Hwf. unfold _format_narrative_context.
  match goal with |- context [narrative_validations context ?s] =>
    destruct (narrative_validations_total context s Hwf) as [s1 H1] end.
  rewrite (bind_Ok _ _ _ H1). eauto.
Qed.

Lemma get_task_context_well_formed db task_id full :
  get_task_context db task_id = Ok full ->
  (forall l, tc_ai_interactions full = Some l -> Forall well_formed_interaction l)
  /\ (forall l, tc_validation_results full = Some l -> Forall well_formed_validation l).
Proof.
  unfold get_task_context. intros H.
  bind_inv H. bind_inv H. bind_inv H. injection H as <-. simpl.
  split; intros l [= <-]; apply Forall_fmap, Forall_forall; intros x _.
  - apply ai_row_dict_well_formed.
  - apply validation_row_dict_well_formed.
Qed.

Lemma generate_prompt_context_well_formed db task_id include mi mv context :
  generate_prompt_context db task_id include mi mv = Ok context ->
  well_formed_context context.
Proof.
  unfold generate_prompt_context. intros H.
  bind_inv H. bind_inv H. destruct a0 as [task|]; [|discriminate].
  bind_inv H. bind_inv H. bind_inv H. bind_inv H. bind_inv H.
  injection H as <-.
  match goal with Hc : get_task_context _ _ = Ok _ |- _ =>
    destruct (get_task_context_well_formed _ _ _ Hc) as [Hi Hv] end.
  split; simpl; intros l; apply trimmed_history_Forall; assumption.
Qed.

(** C1, as the code has it: once the prompt context of the task is generated,
    the export returns rendered text for the tokens 'structured', 'narrative'
    and 'json', and raises ValueError("Unsupported format type: ...") for every
    other token, 'raw' included; when the context cannot be generated, that
    error is raised whatever the token. *)
Theorem export_context_formats db task_id format_type :
  match generate_prompt_context_default db task_id with
  | Ok context =>
      if supported_format format_type
      then exists t, export_context_for_prompt db task_id format_type = Ok t
      else export_context_for_prompt db task_id format_type
           = Err (ValueError ("Unsupported format type: " ++ format_type))
  | Err e => export_context_for_prompt db task_id format_type = Err e
  end.
Proof.
  unfold export_context_for_prompt, supported_format.
  destruct (generate_prompt_context_default db task_id) as [context|e] eqn:Hg;
    [|reflexivity].
  apply generate_prompt_context_well_formed in Hg.
  change (Ok context ≫= ?f) with (f context). cbv beta.
  destruct (String.eqb format_type "structured"); simpl.
  { now apply _format_structured_context_total. }
  destruct (String.eqb format_type "narrative"); simpl.
  { now apply _format_narrative_context_total. }
  destruct (String.eqb format_type "json"); simpl; eauto.
Qed.

(** C1 as stated fails: for an existing task the token 'raw' is refused, and
    the token 'json', which is outside the stated set, is served. *)
Lemma export_raw_is_refused :
  (exists context, generate_prompt_context_default Fixture.plain "t1" = Ok context)
  /\ export_context_for_prompt Fixture.plain "t1" "raw"
     = Err (ValueError "Unsupported format type: raw")
  /\ (exists context,
        export_context_for_prompt Fixture.plain "t1" "json" = Ok (JsonDumps context)).
Proof. split; [eexists|split; [|eexists]]; vm_compute; reflexivity. Qed.

(** ** The health score never raises (C2) *)

Lemma health_score_of_analytics db task_id analytics :
  analyze_context_patterns db task_id = Ok analytics ->
  get_context_health_score db task_id = Ok (health_report_of analytics).
Proof. unfold get_context_health_score. now intros ->. Qed.

Lemma health_score_of_failure db task_id e :
  analyze_context_patterns db task_id = Err e ->
  get_context_health_score db task_id = Ok (degraded_report e).
Proof. unfold get_context_health_score. now intros ->. Qed.

(** Failures of the fetches reach the analysis unchanged. *)
Lemma analyze_fails_with_task_fetch db task_id e :
  pool db = true -> tasks db task_id = Err e ->
  analyze_context_patterns db task_id = Err e.
Proof.
  intros Hp Ht. unfold analyze_context_patterns, generate_prompt_context_default,
    generate_prompt_context, get_storage, get_task. now rewrite Hp, Ht.
Qed.

Lemma analyze_fails_without_task db task_id :
  pool db = true -> tasks db task_id = Ok None ->
  analyze_context_patterns db task_id = Err (ValueError ("Task " ++ task_id ++ " not found")).
Proof.
  intros Hp Ht. unfold analyze_context_patterns, generate_prompt_context_default,
    generate_prompt_context, get_storage, get_task. now rewrite Hp, Ht.
Qed.

(** C2: for every database and task id the health score returns a report;
    when anything fails on the way (a fetch, the context, an analysis, the
    recommendations) the report is the degraded one: overall score 0, status
    'error', and the text of the exception attached. *)
Theorem health_score_never_raises db task_id :
  exists report,
    get_context_health_score db task_id = Ok report
    /\ forall e, analyze_context_patterns db task_id = Err e ->
         report = degraded_report e
         /\ overall_score report = 0%Q
         /\ health_status report = "error"
         /\ error report = Some (exn_str e).
Proof.
  destruct (analyze_context_patterns db task_id) as [analytics|e] eqn:Ha.
  - exists (health_report_of analytics). split.
    + now apply health_score_of_analytics.
    + discriminate.
  - exists (degraded_report e). split.
    + now apply health_score_of_failure.
    + intros e' [= <-]. repeat split.
Qed.

Lemma health_score_never_raises_witness :
  analyze_context_patterns Fixture.plain "t2" = Err (ValueError "Task t2 not found")
  /\ get_context_health_score Fixture.plain "t2"
     = Ok (degraded_report (ValueError "Task t2 not found")).
Proof.
  split; [reflexivity|].
  destruct (health_score_never_raises Fixture.plain "t2") as (report & H1 & H2).
  destruct (H2 _ eq_refl) as [-> _]. exact H1.
Defined.

Example health_score_of_missing_task :
  get_context_health_score Fixture.plain "t2"
  = Ok {| overall_score := 0; health_status := "error"; component_scores := None;
          hr_recommendations := None; error := Some "Task t2 not found" |}.
Proof. reflexivity. Qed.

Example health_score_of_storage_failure :
  get_context_health_score
    {| pool := true;
       tasks := fun _ => Err (StorageError "connection lost");
       task_dependencies := fun _ => Ok [];
       task_context := fun _ => Ok [];
       ai_interactions := fun _ => Ok [];
       validation_results := fun _ => Ok [];
       performance_metrics := fun _ => Ok [] |} "t1"
  = Ok (degraded_report (StorageError "connection lost")).
Proof. reflexivity. Qed.

(** ** Dependency readiness (C3) *)

Lemma TaskStatus_classes (s : TaskStatus) :
  String.eqb (TaskStatus_value s) "done" = completed_status s
  /\ (String.eqb (TaskStatus_value s) "pending"
      || String.eqb (TaskStatus_value s) "in-progress") = pending_status s
  /\ (String.eqb (TaskStatus_value s) "blocked"
      || String.eqb (TaskStatus_value s) "deferred") = blocked_status s.
Proof. destruct s; repeat split. Qed.

Lemma filter_dependency_entries (p : TaskStatus -> bool) (q : dependency_entry -> bool)
    (parents : list AtomicTask) :
  (forall t, q (dependency_entry_of t) = p (status t)) ->
  length (List.filter q (dependency_entry_of <$> parents)) = count_status p parents.
Proof.
  intros Hq. unfold count_status. induction parents as [|t l IH]; [reflexivity|].
  rewrite fmap_cons. cbn [List.filter]. rewrite Hq.
  destruct (p (status t)); cbn [length]; now rewrite IH.
Qed.

Lemma collect_dependencies db deps parents :
  resolves db deps parents ->
  forall acc, foldM (collect_dependency db) acc deps
              = Ok (acc ++ (dependency_entry_of <$> parents))%list.
Proof.
  induction 1 as [|dep_id t deps parents Ht _ IH|dep_id deps parents Ht _ IH];
    intros acc; cbn [foldM].
  - now rewrite app_nil_r.
  - assert (Hs : collect_dependency db acc dep_id
                 = Ok (acc ++ [dependency_entry_of t])%list)
      by (unfold collect_dependency; now rewrite Ht).
    rewrite (bind_Ok _ _ _ Hs), IH, fmap_cons. now rewrite <- app_assoc.
  - assert (Hs : collect_dependency db acc dep_id = Ok acc)
      by (unfold collect_dependency; now rewrite Ht).
    rewrite (bind_Ok _ _ _ Hs). apply IH.
Qed.

Lemma count_status_zero p parents :
  count_status p parents = 0%nat <-> Forall (fun t => p (status t) = false) parents.
Proof.
  unfold count_status. induction parents as [|t l IH]; simpl.
  - split; [constructor | reflexivity].
  - destruct (p (status t)) eqn:E; simpl.
    + split; [discriminate | intros H; inversion H; congruence].
    + rewrite IH. split; [now constructor | intros H; now inversion H].
Qed.

(** C3: for a task with dependencies whose parents resolve to [parents], the
    summary counts completed = {done}, pending = {pending, in-progress},
    blocked = {blocked, deferred} among the resolved parents, and the
    readiness flag is (pending_count == 0 and blocked_count == 0): true when
    every resolved parent is done, false as soon as one of them is pending,
    in-progress, blocked or deferred. *)
Theorem dependency_summary_classifies db task_id deps parents :
  pool db = true -> deps <> [] -> resolves db deps parents ->
  exists s,
    _build_dependency_context db task_id deps = Ok (Dependencies s)
    /\ total_dependencies s = length parents
    /\ completed_dependencies s = count_status completed_status parents
    /\ pending_dependencies s = count_status pending_status parents
    /\ blocked_dependencies s = count_status blocked_status parents
    /\ is_ready s = ((pending_dependencies s =? 0)%nat && (blocked_dependencies s =? 0)%nat)
    /\ (Forall (fun t => status t = DONE) parents -> is_ready s = true)
    /\ (Exists (fun t => status t = PENDING \/ status t = IN_PROGRESS
                         \/ status t = BLOCKED \/ status t = DEFERRED) parents ->
        is_ready s = false).
Proof.
  intros Hp Hne Hres. unfold _build_dependency_context, get_storage.
  destruct deps as [|d deps]; [congruence|]. rewrite Hp.
  change (Ok tt ≫= ?f) with (f tt). cbv beta.
  rewrite (collect_dependencies _ _ _ Hres []). simpl app.
  change (Ok ?x ≫= ?f) with (f x). cbv beta.
  eexists. split; [reflexivity|].
  assert (Hc : forall t, is_completed_dep (dependency_entry_of t) = completed_status (status t))
    by (intros t; apply TaskStatus_classes).
  assert (Hpd : forall t, is_pending_dep (dependency_entry_of t) = pending_status (status t))
    by (intros t; apply TaskStatus_classes).
  assert (Hb : forall t, is_blocked_dep (dependency_entry_of t) = blocked_status (status t))
    by (intros t; apply TaskStatus_classes).
  unfold summarize_dependencies; simpl.
  rewrite !(filter_dependency_entries _ _ _ Hc), !(filter_dependency_entries _ _ _ Hpd),
    !(filter_dependency_entries _ _ _ Hb), length_fmap.
  repeat split.
  - intros Hall.
    assert (H1 : count_status pending_status parents = 0%nat).
    { apply count_status_zero. eapply Forall_impl; [exact Hall|]. now intros t ->. }
    assert (H2 : count_status blocked_status parents = 0%nat).
    { apply count_status_zero. eapply Forall_impl; [exact Hall|]. now intros t ->. }
    now rewrite H1, H2.
  - intros Hex. apply andb_false_iff.
    apply Exists_exists in Hex as (t & Hin & Hst).
    destruct (count_status pending_status parents =? 0)%nat eqn:E1; [|now left].
    destruct (count_status blocked_status parents =? 0)%nat eqn:E2; [|now right].
    exfalso. apply Nat.eqb_eq in E1, E2.
    apply count_status_zero in E1, E2. rewrite Forall_forall in E1, E2.
    specialize (E1 t Hin). specialize (E2 t Hin).
    destruct Hst as [H|[H|[H|H]]]; rewrite H in *; discriminate.
Qed.

Lemma dependency_summary_classifies_witness :
  pool Fixture.family = true
  /\ resolves Fixture.family ["p1"; "p2"; "ghost"] [Fixture.parent_done; Fixture.parent_pending]
  /\ exists s,
       _build_dependency_context Fixture.family "t1" ["p1"; "p2"; "ghost"]
       = Ok (Dependencies s)
       /\ total_dependencies s = 2%nat
       /\ completed_dependencies s = 1%nat
       /\ pending_dependencies s = 1%nat
       /\ blocked_dependencies s = 0%nat
       /\ is_ready s = false.
Proof.
  assert (Hres : resolves Fixture.family ["p1"; "p2"; "ghost"]
                   [Fixture.parent_done; Fixture.parent_pending]).
  { apply resolves_found; [reflexivity|].
    apply resolves_found; [reflexivity|].
    apply resolves_missing; [reflexivity|]. apply resolves_nil. }
  split; [reflexivity|]. split; [exact Hres|].
  destruct (dependency_summary_classifies Fixture.family "t1" ["p1"; "p2"; "ghost"]
              [Fixture.parent_done; Fixture.parent_pending] eq_refl
              ltac:(discriminate) Hres)
    as (s & Hs & Ht & Hc & Hp & Hb & Hr & _ & Hex).
  exists s. repeat split; try assumption.
  apply Hex. apply Exists_cons_tl, Exists_cons_hd. now left.
Defined.

(** ** Recommendations (C4) *)

Lemma matching_rules_app rules rules' :
  matching_rules (rules ++ rules') = (matching_rules rules ++ matching_rules rules')%list.
Proof. unfold matching_rules. now rewrite List.filter_app, fmap_app. Qed.

Lemma append_if_rule c r recommendations :
  append_if c r recommendations = (recommendations ++ matching_rules [(c, r)])%list.
Proof. destruct c; simpl; [reflexivity | now rewrite app_nil_r]. Qed.

Lemma slow_interactions_reported i :
  avg_time_reported i -> slow_interactions i = Ok (above 5000 (reported_avg_time i)).
Proof. destruct i as [|s]; [reflexivity|]. simpl. now intros [t ->]. Qed.

(** C4, as the code has it: the recommendations are exactly the matching
    rules, in order, of the fixed list: very_high complexity; otherwise high
    complexity; dependency_count > 3; error_rate > 0.3;
    avg_execution_time_ms > 5000; pass_rate < 0.7; validation trend declining;
    performance trend declining; no interactions; no validations -- and the
    generation returns whenever the interaction analysis found no interaction
    or reports an average execution time. *)
Theorem recommendations_are_matching_rules c i v p :
  avg_time_reported i ->
  _generate_recommendations c i v p = Ok (matching_rules (recommendation_rules c i v p)).
Proof.
  intros Hi. unfold _generate_recommendations.
  rewrite (bind_Ok _ _ _ (slow_interactions_reported i Hi)).
  rewrite !append_if_rule. f_equal.
  unfold recommendation_rules.
  change (?a :: ?b :: ?rest) with ([a; b] ++ rest)%list at 1.
  rewrite matching_rules_app.
  repeat (match goal with
          | |- context [matching_rules (?a :: ?b :: ?rest)] =>
              change (a :: b :: rest) with ([a] ++ b :: rest)%list;
              rewrite (matching_rules_app [a])
          end).
  rewrite !app_assoc. repeat f_equal.
  - destruct (String.eqb (overall_complexity c) "very_high"); [reflexivity|].
    destruct (String.eqb (overall_complexity c) "high"); reflexivity.
  - destruct i; reflexivity.
  - destruct v; reflexivity.
  - destruct v; reflexivity.
  - destruct p; reflexivity.
Qed.

Lemma recommendations_are_matching_rules_witness :
  avg_time_reported Fixture.slow_failing
  /\ _generate_recommendations Fixture.busy_complexity Fixture.slow_failing
       NoValidations NoPerformanceData
     = Ok [rec_dependencies; rec_error_rate; rec_slow; rec_no_validations].
Proof.
  split.
  - exists 6000%Q. reflexivity.
  - apply (recommendations_are_matching_rules Fixture.busy_complexity Fixture.slow_failing
             NoValidations NoPerformanceData).
    exists 6000%Q. reflexivity.
Defined.

(** C4 as stated fails: a task of high (not very high) complexity gets an
    advice that is none of the nine listed rules. *)
Lemma high_complexity_rule_is_unlisted :
  exists a,
    analyze_context_patterns Fixture.high_complexity "t1" = Ok a
    /\ recommendations a = [rec_high]
    /\ matching_rules (specified_rules (complexity_indicators a) (interaction_patterns a)
                         (validation_trends a) (performance_metrics_analysis a)) = [].
Proof. eexists. repeat split; vm_compute; reflexivity. Qed.

(** X2: the comparison [interactions.get('avg_execution_time_ms', 0) > 5000] raises
    when interactions were found and none of them reports an execution time:
    the key is present and holds [None]. *)
Lemma recommendations_raise_without_timing c s v p :
  avg_execution_time_ms s = None ->
  _generate_recommendations c (Interactions s) v p
  = Err (TypeError "'>' not supported between instances of 'NoneType' and 'int'").
Proof. intros H. unfold _generate_recommendations. simpl. now rewrite H. Qed.

Example analysis_of_untimed_interactions :
  analyze_context_patterns Fixture.untimed "t1"
  = Err (TypeError "'>' not supported between instances of 'NoneType' and 'int'").
Proof. vm_compute. reflexivity. Qed.

(** ** The context bundle (C5) *)

Lemma filter_filter {A} (p q : A -> bool) (l : list A) :
  List.filter p (List.filter q l) = List.filter (fun x => q x && p x) l.
Proof.
  induction l as [|x l IH]; [reflexivity|]. cbn [List.filter].
  destruct (q x); cbn [List.filter andb]; [destruct (p x)|]; now rewrite IH.
Qed.

(** What the loop over the context rows leaves in each field: the data of
    the last row of the type it visits. *)
Lemma process_context_rows rows :
  forall init,
    let context := fold_left process_context_row rows init in
    let visited ty :=
      context_data <$> List.filter (fun r => String.eqb (context_type r) ty) rows in
    tc_requirements_context context
    = default (tc_requirements_context init) (last (visited "requirements"))
    /\ tc_codebase_context context
       = default (tc_codebase_context init) (last (visited "codebase"))
    /\ tc_workflow_state context
       = default (tc_workflow_state init) (last (visited "workflow"))
    /\ tc_metadata context = tc_metadata init.
Proof.
  induction rows as [|r rows IH] using rev_ind; intros init; cbn zeta.
  - repeat split.
  - rewrite fold_left_app. cbn [fold_left].
    specialize (IH init). cbn zeta in IH. destruct IH as (IH1 & IH2 & IH3 & IH4).
    rewrite !List.filter_app, !fmap_app. cbn [List.filter].
    set (c := fold_left process_context_row rows init) in *. clearbody c.
    unfold process_context_row.
    destruct (String.eqb_spec (context_type r) "requirements") as [E|_].
    { rewrite ?E. cbn. rewrite last_snoc, !app_nil_r. repeat split; assumption. }
    destruct (String.eqb_spec (context_type r) "codebase") as [E|_].
    { rewrite ?E. cbn. rewrite last_snoc, !app_nil_r. repeat split; assumption. }
    destruct (String.eqb_spec (context_type r) "workflow") as [E|_].
    { rewrite ?E. cbn. rewrite last_snoc, !app_nil_r. repeat split; assumption. }
    destruct (String.eqb (context_type r) "performance");
      cbn; rewrite !app_nil_r; repeat split; assumption.
Qed.

Lemma default_last_exposes (l : list pyval) : exposes (default PNone (last l)) l.
Proof.
  destruct l as [|x l]; [reflexivity|]. unfold exposes.
  destruct (last (x :: l)) as [v|] eqn:E.
  - simpl. now apply last_Some_elem_of.
  - apply last_None in E. discriminate.
Qed.

(** Rows come newest first, so the last row of a type is its oldest one. *)
Lemma get_task_context_keeps_last_row db task_id rows full :
  task_context db task_id = Ok rows ->
  get_task_context db task_id = Ok full ->
  tc_requirements_context full = default PNone (last (stored_values "requirements" rows))
  /\ tc_codebase_context full = default PNone (last (stored_values "codebase" rows))
  /\ tc_workflow_state full = default PNone (last (stored_values "workflow" rows))
  /\ tc_metadata full = PNone.
Proof.
  intros Hrows H. unfold get_task_context in H. rewrite Hrows in H.
  bind_inv H. injection Ha as <-. bind_inv H. bind_inv H. injection H as <-.
  cbn [tc_requirements_context tc_codebase_context tc_workflow_state tc_metadata].
  destruct (process_context_rows (List.filter is_active rows) (empty_TaskContext task_id))
    as (H1 & H2 & H3 & H4).
  rewrite H1, H2, H3, H4. unfold stored_values. rewrite !filter_filter.
  repeat split.
Qed.

Lemma get_task_context_bundle db task_id rows full :
  task_context db task_id = Ok rows ->
  get_task_context db task_id = Ok full ->
  exposes (tc_requirements_context full) (stored_values "requirements" rows)
  /\ exposes (tc_codebase_context full) (stored_values "codebase" rows)
  /\ exposes (tc_workflow_state full) (stored_values "workflow" rows)
  /\ tc_metadata full = PNone.
Proof.
  intros Hrows H.
  destruct (get_task_context_keeps_last_row _ _ _ _ Hrows H) as (-> & -> & -> & ->).
  repeat split; apply default_last_exposes.
Qed.

Lemma generate_prompt_context_inv db task_id include mi mv context :
  generate_prompt_context db task_id include mi mv = Ok context ->
  exists task full deps dependency performance,
    get_task db task_id = Ok (Some task)
    /\ get_task_context db task_id = Ok full
    /\ get_task_dependencies db task_id = Ok deps
    /\ _build_dependency_context db task_id deps = Ok dependency
    /\ _get_performance_context db task_id = Ok performance
    /\ context =
       {| task_id := task_id;
          task_summary := task_summary_of task;
          requirements_context := tc_requirements_context full;
          codebase_context := tc_codebase_context full;
          recent_interactions := trimmed_history include (tc_ai_interactions full) mi;
          validation_history := trimmed_history include (tc_validation_results full) mv;
          dependency_context := Some dependency;
          performance_context := Some performance;
          workflow_state := tc_workflow_state full;
          metadata := tc_metadata full |}.
Proof.
  unfold generate_prompt_context. intros H.
  bind_inv H. bind_inv H. destruct a0 as [task|]; [|discriminate].
  bind_inv H. bind_inv H. bind_inv H. bind_inv H. bind_inv H.
  injection H as <-. repeat eexists; eassumption.
Qed.

(** C5, as the code has it: for each of the context types requirements,
    codebase and workflow, the snapshot carries one of the values stored
    (active) for that type, unmerged -- the stored value when there is exactly
    one -- and None when nothing is stored for the type; the other rows of the
    type are discarded.  Rows of type performance or metadata are not exposed:
    the snapshot's metadata is always None and its performance summary is the
    one computed from the metrics table. *)
Theorem context_bundle_exposure db task_id include mi mv context rows :
  generate_prompt_context db task_id include mi mv = Ok context ->
  task_context db task_id = Ok rows ->
  exposes (requirements_context context) (stored_values "requirements" rows)
  /\ exposes (codebase_context context) (stored_values "codebase" rows)
  /\ exposes (workflow_state context) (stored_values "workflow" rows)
  /\ (forall ty field v,
        (ty, field) ∈ [("requirements", requirements_context context);
                       ("codebase", codebase_context context);
                       ("workflow", workflow_state context)] ->
        stored_values ty rows = [v] -> field = v)
  /\ metadata context = PNone
  /\ performance_context context = match _get_performance_context db task_id with
                                    | Ok p => Some p
                                    | Err _ => None
                                    end.
Proof.
  intros Hg Hrows.
  apply generate_prompt_context_inv in Hg
    as (task & full & deps & dependency & performance & _ & Hfull & _ & _ & Hperf & ->).
  destruct (get_task_context_bundle _ _ _ _ Hrows Hfull) as (H1 & H2 & H3 & H4).
  cbn [requirements_context codebase_context workflow_state metadata performance_context].
  repeat split; try assumption.
  - intros ty field v Hin Hst.
    rewrite !elem_of_cons, elem_of_nil in Hin.
    destruct Hin as [[= -> ->]|[[= -> ->]|[[= -> ->]|[]]]];
      match goal with H : exposes _ _ |- _ => rewrite Hst in H; cbn in H end.
    + now apply list_elem_of_singleton in H1.
    + now apply list_elem_of_singleton in H2.
    + now apply list_elem_of_singleton in H3.
  - now rewrite Hperf.
Qed.

Lemma context_bundle_exposure_witness :
  exists context,
    generate_prompt_context Fixture.rewritten "t1" true 10 5 = Ok context
    /\ task_context Fixture.rewritten "t1"
       = Ok [ Fixture.row "requirements" (PDict {[ "version" := PInt 2 ]});
              Fixture.row "metadata" (PDict {[ "owner" := PStr "ops" ]});
              Fixture.row "requirements" (PDict {[ "version" := PInt 1 ]}) ]
    /\ exposes (requirements_context context)
         [PDict {[ "version" := PInt 2 ]}; PDict {[ "version" := PInt 1 ]}]
    /\ metadata context = PNone.
Proof.
  destruct (generate_prompt_context Fixture.rewritten "t1" true 10 5)
    as [context|e] eqn:Hg; [|vm_compute in Hg; discriminate].
  exists context. split; [reflexivity|]. split; [reflexivity|].
  destruct (context_bundle_exposure Fixture.rewritten "t1" true 10 5 context _ Hg eq_refl)
    as (H1 & _ & _ & _ & H5 & _).
  split; [exact H1 | exact H5].
Defined.

(** C5 as stated fails: after two writes of the requirements the snapshot
    holds the older one, and a stored metadata value is not in the snapshot. *)
Lemma newest_value_is_not_exposed :
  stored_values "requirements"
    [ Fixture.row "requirements" (PDict {[ "version" := PInt 2 ]});
      Fixture.row "metadata" (PDict {[ "owner" := PStr "ops" ]});
      Fixture.row "requirements" (PDict {[ "version" := PInt 1 ]}) ]
  = [PDict {[ "version" := PInt 2 ]}; PDict {[ "version" := PInt 1 ]}]
  /\ (requirements_context <$> generate_prompt_context_default Fixture.rewritten "t1")
     = Ok (PDict {[ "version" := PInt 1 ]})
  /\ (metadata <$> generate_prompt_context_default Fixture.rewritten "t1") = Ok PNone.
Proof. repeat split; vm_compute; reflexivity. Qed.

(** ** Validation trend (C6) *)

Lemma round_double_proper x y : (x == y)%Q -> round_double x = round_double y.
Proof. intros H. unfold round_double. now rewrite (Qred_complete _ _ H). Qed.

(** The doubles of some literals and results: 0.1 is
    [0x1.999999999999ap-4], [0.1 + 0.2] is 0.30000000000000004, 1/3 is
    [0x1.5555555555555p-2], and the small integers are themselves. *)
Example double_of_a_tenth :
  round_double (1 # 10) = 3602879701896397 # 36028797018963968.
Proof. vm_compute. reflexivity. Qed.

Example double_sum_is_rounded :
  fadd (round_double (1 # 10)) (round_double (2 # 10))
  = 1351079888211149 # 4503599627370496
  /\ Qltb (round_double (3 # 10)) (fadd (round_double (1 # 10)) (round_double (2 # 10)))
     = true.
Proof. split; vm_compute; reflexivity. Qed.

Example double_of_a_third :
  fdiv 1 3 = 6004799503160661 # 18014398509481984.
Proof. vm_compute. reflexivity. Qed.

Example double_of_small_integers :
  round_double 0 = 0%Q /\ round_double 1 = 1%Q /\ round_double 5000 = 5000%Q
  /\ round_double (-3) = (-3)%Q.
Proof. repeat split. Qed.

Lemma short_history_has_no_trend validations :
  (length validations < 3)%nat ->
  _calculate_validation_trend validations = "insufficient_data".
Proof.
  intros H. unfold _calculate_validation_trend.
  now apply Nat.ltb_lt in H as ->.
Qed.

(** C6, as the code has it: for the newest-first history
    [passed, passed, failed, passed, failed] the analysis yields pass_rate 0.6;
    the split at len // 2 = 2 gives recent = [passed, passed] with pass rate 1
    and older = [failed, passed, failed] with pass rate 0.333 (the double
    nearest to 1/3); the recent rate exceeds the older one by more than 0.1
    and the trend is 'improving'.  Any history of fewer than three records has
    the trend 'insufficient_data', whatever it holds. *)
Theorem validation_trend_of_scenario_b :
  (exists s,
     _analyze_validations (Some Fixture.scenario_b) = Ok (Validations s)
     /\ (pass_rate s == 3 # 5)%Q
     /\ recent_trend s = "improving")
  /\ recent_validations Fixture.scenario_b
     = [Fixture.outcome "passed"; Fixture.outcome "passed"]
  /\ older_validations Fixture.scenario_b
     = [Fixture.outcome "failed"; Fixture.outcome "passed"; Fixture.outcome "failed"]
  /\ (pass_rate_of (recent_validations Fixture.scenario_b) == 1)%Q
  /\ (pass_rate_of (older_validations Fixture.scenario_b)
      == 6004799503160661 # 18014398509481984)%Q
  /\ ((333 # 1000) < pass_rate_of (older_validations Fixture.scenario_b) < 334 # 1000)%Q
  /\ (pass_rate_of (older_validations Fixture.scenario_b) + (1 # 10)
      < pass_rate_of (recent_validations Fixture.scenario_b))%Q
  /\ _calculate_validation_trend Fixture.scenario_b = "improving"
  /\ forall validations,
       (length validations < 3)%nat ->
       _calculate_validation_trend validations = "insufficient_data".
Proof.
  split; [eexists; split; [vm_compute; reflexivity|]; split; vm_compute; reflexivity|].
  split; [reflexivity|]. split; [reflexivity|].
  split; [vm_compute; reflexivity|]. split; [vm_compute; reflexivity|].
  split; [split; vm_compute; reflexivity|].
  split; [vm_compute; reflexivity|].
  split; [vm_compute; reflexivity|].
  apply short_history_has_no_trend.
Qed.

Lemma validation_trend_of_scenario_b_witness :
  recent_validations Fixture.scenario_b
  = [Fixture.outcome "passed"; Fixture.outcome "passed"]
  /\ _calculate_validation_trend Fixture.scenario_b = "improving"
  /\ (length [Fixture.outcome "failed"; Fixture.outcome "failed"] < 3)%nat
  /\ _calculate_validation_trend [Fixture.outcome "failed"; Fixture.outcome "failed"]
     = "insufficient_data".
Proof.
  destruct validation_trend_of_scenario_b
    as (_ & Hrecent & _ & _ & _ & _ & _ & Htrend & Hshort).
  split; [exact Hrecent|]. split; [exact Htrend|].
  split; [simpl; lia|]. apply Hshort. simpl. lia.
Defined.

(** C6 as stated fails: the recent half of the history holds two records,
    not three, the older half three, not two, and their pass rates are not
    0.667 and 0.5. *)
Lemma scenario_b_split_is_two_three :
  length (recent_validations Fixture.scenario_b) = 2%nat
  /\ length (older_validations Fixture.scenario_b) = 3%nat
  /\ Qltb (pass_rate_of (recent_validations Fixture.scenario_b)) (9 # 10) = false
  /\ Qltb (pass_rate_of (older_validations Fixture.scenario_b)) (4 # 10) = true.
Proof. repeat split; vm_compute; reflexivity. Qed.

(** The trend at the rates 3/10 and 4/10, ten records in each half: the
    float [0.4 - 0.1] lies above the float [0.3], and [0.3 + 0.1] is [0.4]. *)
Example validation_trend_near_the_margin :
  let three :=
    (replicate 3 (Fixture.outcome "passed") ++ replicate 7 (Fixture.outcome "failed"))%list in
  let four :=
    (replicate 4 (Fixture.outcome "passed") ++ replicate 6 (Fixture.outcome "failed"))%list in
  _calculate_validation_trend (three ++ four)%list = "declining"
  /\ _calculate_validation_trend (four ++ three)%list = "stable".
Proof. split; vm_compute; reflexivity. Qed.

(** The performance trend at the same history in two units: the float
    [33.33... * 0.9] lies above 30, and [3.33... * 0.9] is 3. *)
Example performance_trend_depends_on_the_unit :
  _calculate_performance_trend [30; 30; 30; 30; 40]%Q = "improving"
  /\ _calculate_performance_trend [3; 3; 3; 3; 4]%Q = "stable".
Proof. split; vm_compute; reflexivity. Qed.

(** ** Complexity bucket (C8) *)

Lemma score_factor_monotone s1 s2 :
  s1 <= s2 -> (score_factor (Some s1) <= score_factor (Some s2))%nat.
Proof.
  intros H. unfold score_factor.
  destruct (Z.eqb_spec s1 0), (Z.eqb_spec s2 0), (Z.ltb_spec 7 s1), (Z.ltb_spec 7 s2),
    (Z.ltb_spec 5 s1), (Z.ltb_spec 5 s2); simpl; lia.
Qed.

Lemma files_factor_monotone n1 n2 :
  (n1 <= n2)%nat -> (files_factor n1 <= files_factor n2)%nat.
Proof.
  intros H. unfold files_factor.
  destruct (Nat.ltb_spec 5 n1), (Nat.ltb_spec 5 n2), (Nat.ltb_spec 2 n1),
    (Nat.ltb_spec 2 n2); lia.
Qed.

Lemma complexity_bucket_monotone n m :
  (n <= m)%nat -> (bucket_rank (complexity_bucket n) <= bucket_rank (complexity_bucket m))%nat.
Proof.
  intros H. unfold complexity_bucket.
  destruct (Nat.leb_spec 4 n), (Nat.leb_spec 4 m), (Nat.leb_spec 3 n), (Nat.leb_spec 3 m),
    (Nat.leb_spec 2 n), (Nat.leb_spec 2 m); cbn; lia.
Qed.

(** Scenario A of the specification. *)
Example scenario_a_bucket :
  overall_complexity <$>
    _analyze_complexity (Fixture.context_of 8 ["a"; "b"; "c"; "d"; "e"; "f"] 4)
  = Ok "very_high".
Proof. reflexivity. Qed.

(** C8: with everything else in the context fixed, the complexity bucket
    (low < medium < high < very_high) does not decrease when the complexity
    score increases, nor when the number of affected files increases. *)
Theorem complexity_bucket_is_monotone context :
  (forall s1 s2 r1,
     s1 <= s2 ->
     _analyze_complexity (with_complexity_score context s1) = Ok r1 ->
     exists r2,
       _analyze_complexity (with_complexity_score context s2) = Ok r2
       /\ (bucket_rank (overall_complexity r1) <= bucket_rank (overall_complexity r2))%nat)
  /\ (forall files1 files2 r1,
        (length files1 <= length files2)%nat ->
        _analyze_complexity (with_affected_files context files1) = Ok r1 ->
        exists r2,
          _analyze_complexity (with_affected_files context files2) = Ok r2
          /\ (bucket_rank (overall_complexity r1) <= bucket_rank (overall_complexity r2))%nat).
Proof.
  split.
  - intros s1 s2 r1 Hle. unfold _analyze_complexity.
    cbn [with_complexity_score with_task_summary task_summary ts_affected_files
         ts_complexity_score dependency_context].
    destruct (ts_affected_files (task_summary context)) as [files|]; [|discriminate].
    destruct (dependency_context context) as [d|]; [|discriminate].
    cbn [mbind result_bind]. intros [= <-]. eexists. split; [reflexivity|].
    cbn [overall_complexity]. apply complexity_bucket_monotone.
    repeat apply Nat.add_le_mono; try apply Nat.le_refl.
    exact (score_factor_monotone s1 s2 Hle).
  - intros files1 files2 r1 Hle. unfold _analyze_complexity.
    cbn [with_affected_files with_task_summary task_summary ts_affected_files
         ts_complexity_score dependency_context mbind result_bind].
    destruct (dependency_context context) as [d|]; [|discriminate].
    cbn [mbind result_bind]. intros [= <-]. eexists. split; [reflexivity|].
    cbn [overall_complexity]. apply complexity_bucket_monotone.
    repeat apply Nat.add_le_mono; try apply Nat.le_refl.
    exact (files_factor_monotone _ _ Hle).
Qed.

Lemma complexity_bucket_is_monotone_witness :
  6 <= 8
  /\ (overall_complexity <$>
        _analyze_complexity (with_complexity_score (Fixture.context_of 1 ["a"; "b"; "c"] 0) 6))
     = Ok "medium"
  /\ exists r2,
       _analyze_complexity (with_complexity_score (Fixture.context_of 1 ["a"; "b"; "c"] 0) 8)
       = Ok r2
       /\ (bucket_rank "medium" <= bucket_rank (overall_complexity r2))%nat.
Proof.
  split; [lia|]. split; [reflexivity|].
  exact (proj1 (complexity_bucket_is_monotone (Fixture.context_of 1 ["a"; "b"; "c"] 0))
           6 8 _ ltac:(lia) eq_refl).
Defined.

(** ** Average execution time (C9) *)

Lemma Qsum_acc (l : list Q) : forall a, (fold_left Qplus l a == a + Qsum l)%Q.
Proof.
  unfold Qsum. induction l as [|x l IH]; intros a; cbn [fold_left].
  - ring.
  - rewrite (IH (a + x)%Q), (IH (0 + x)%Q). ring.
Qed.

Lemma Qsum_cons x (l : list Q) : (Qsum (x :: l) == x + Qsum l)%Q.
Proof. unfold Qsum at 1. cbn [fold_left]. rewrite Qsum_acc. ring. Qed.

Lemma filter_metric_of_row (rows : list metric_row) :
  List.filter is_execution_time (metric_of_row <$> rows)
  = metric_of_row <$> List.filter (fun r => String.eqb (metric_type r) "execution_time") rows.
Proof.
  induction rows as [|r rows IH]; [reflexivity|].
  rewrite fmap_cons. cbn [List.filter]. unfold is_execution_time at 1.
  cbn [metric_of_row m_type].
  destruct (String.eqb (metric_type r) "execution_time"); now rewrite IH.
Qed.

(** The sum skips the values that are missing or zero: with every value
    present it is the sum of the values. *)
Lemma sum_values_present (rows : list metric_row) :
  Forall (fun r => is_Some (metric_value r)) rows ->
  forall a,
    (fold_left (fun acc m =>
                  match m_value m with
                  | Some v => if Qeq_bool v 0 then acc else (acc + v)%Q
                  | None => acc
                  end) (metric_of_row <$> rows) a
     == a + Qsum (sample_values rows))%Q.
Proof.
  induction 1 as [|r rows [v Hv] _ IH]; intros a.
  - cbn. unfold Qsum. cbn. ring.
  - rewrite fmap_cons. cbn [fold_left]. rewrite IH.
    unfold sample_values. cbn [omap list_omap]. rewrite Hv.
    fold (sample_values rows). rewrite Qsum_cons.
    cbn [metric_of_row m_value]. rewrite Hv.
    destruct (Qeq_bool v 0) eqn:E; cbn [m_value].
    + apply Qeq_bool_eq in E. rewrite E. ring.
    + rewrite E. ring.
Qed.

Lemma sample_values_length (rows : list metric_row) :
  Forall (fun r => is_Some (metric_value r)) rows ->
  length (sample_values rows) = length rows.
Proof.
  induction 1 as [|r rows [v Hv] _ IH]; [reflexivity|].
  unfold sample_values. cbn [omap list_omap]. rewrite Hv. cbn [length].
  now f_equal.
Qed.

(** X28: when the latest twenty samples of the task hold at least one sample
    of type execution_time, and these samples carry their value, the
    summary's avg_execution_time is the arithmetic mean of exactly their
    values; when they hold none, the average is absent (no metrics at all, or
    None). *)
Theorem avg_execution_time_is_mean db task_id rows :
  pool db = true ->
  performance_metrics db task_id = Ok rows ->
  (fetched_execution_times rows <> [] ->
   Forall (fun r => is_Some (metric_value r)) (fetched_execution_times rows) ->
   exists s a,
     _get_performance_context db task_id = Ok (Metrics s)
     /\ avg_execution_time s = Some a
     /\ (a == mean (sample_values (fetched_execution_times rows)))%Q)
  /\ (fetched_execution_times rows = [] ->
      _get_performance_context db task_id = Ok NoMetrics
      \/ exists s,
           _get_performance_context db task_id = Ok (Metrics s)
           /\ avg_execution_time s = None).
Proof.
  intros Hp Hrows. unfold _get_performance_context, fetched_execution_times.
  rewrite Hp, Hrows. cbn [mbind result_bind fmap result_fmap].
  set (fetched := take 20 rows). clearbody fetched.
  destruct fetched as [|r fetched].
  { split; [intros H; now contradiction H | now left]. }
  rewrite filter_metric_of_row.
  set (ex := List.filter _ (r :: fetched)). clearbody ex.
  split.
  - intros Hne Hall. destruct ex as [|e ex]; [congruence|].
    assert (Hm : exists m ms, metric_of_row <$> e :: ex = m :: ms)
      by (rewrite fmap_cons; eauto).
    destruct Hm as (m & ms & Hm). rewrite Hm.
    do 2 eexists. split; [reflexivity|].
    cbn [avg_execution_time]. split; [reflexivity|].
    rewrite <- Hm. unfold mean, sum_values.
    rewrite (sum_values_present _ Hall), length_fmap, (sample_values_length _ Hall).
    now rewrite Qplus_0_l.
  - intros ->. right. eexists. split; reflexivity.
Qed.

Lemma avg_execution_time_is_mean_witness :
  pool Fixture.measured = true
  /\ fetched_execution_times
       [ Fixture.sample "execution_time" (Some 100%Q);
         Fixture.sample "memory" (Some 7%Q);
         Fixture.sample "execution_time" (Some 300%Q) ]
     = [ Fixture.sample "execution_time" (Some 100%Q);
         Fixture.sample "execution_time" (Some 300%Q) ]
  /\ exists s a,
       _get_performance_context Fixture.measured "t1" = Ok (Metrics s)
       /\ avg_execution_time s = Some a
       /\ (a == 200)%Q.
Proof.
  split; [reflexivity|]. split; [reflexivity|].
  destruct (proj1 (avg_execution_time_is_mean Fixture.measured "t1" _ eq_refl eq_refl))
    as (s & a & H1 & H2 & H3).
  - discriminate.
  - repeat constructor; eexists; reflexivity.
  - exists s, a. split; [exact H1|]. split; [exact H2|].
    rewrite H3. reflexivity.
Defined.

(** C9 fails on the code: a sample of type execution_time whose value is
    missing is left out of the sum and still counted by the division.  For
    the two execution_time samples [NULL, 10] the only value is 10, and so is
    the mean of the values; the summary reports 5.  (The interaction
    analysis, which averages execution times as well, divides by the number
    of records that carry a time.) *)
Theorem avg_execution_time_counts_missing_values :
  performance_metrics Sample.half_valued "t1" = Ok Sample.half_valued_rows
  /\ fetched_execution_times Sample.half_valued_rows = Sample.half_valued_rows
  /\ sample_values (fetched_execution_times Sample.half_valued_rows) = [10%Q]
  /\ (mean (sample_values (fetched_execution_times Sample.half_valued_rows)) == 10)%Q
  /\ exists s,
       _get_performance_context Sample.half_valued "t1" = Ok (Metrics s)
       /\ execution_times_count s = 2%nat
       /\ (default 0%Q (avg_execution_time s) == 5)%Q
       /\ Qeq_bool (default 0%Q (avg_execution_time s))
            (mean (sample_values (fetched_execution_times Sample.half_valued_rows)))
          = false.
Proof.
  split; [reflexivity|]. split; [reflexivity|]. split; [reflexivity|].
  split; [reflexivity|].
  eexists. split; [reflexivity|]. split; [reflexivity|]. split; reflexivity.
Qed.

(** ** Records without a success field (C10) *)

Lemma is_failed_present_and_falsy interaction :
  is_failed_interaction interaction = present_and_falsy interaction.
Proof.
  unfold is_failed_interaction, present_and_falsy.
  now destruct (interaction !! "success").
Qed.

Lemma filter_ext_length {A} (p q : A -> bool) (l : list A) :
  (forall x, p x = q x) -> length (List.filter p l) = length (List.filter q l).
Proof.
  intros H. induction l as [|x l IH]; [reflexivity|]. cbn [List.filter].
  rewrite H. destruct (q x); cbn [length]; now rewrite IH.
Qed.

Lemma interaction_step_error_count st interaction st' :
  interaction_step st interaction = Ok st' ->
  il_error_count st'
  = (il_error_count st + if present_and_falsy interaction then 1 else 0)%nat.
Proof.
  unfold interaction_step. intros H. bind_inv H.
  rewrite <- is_failed_present_and_falsy.
  destruct (py_truthy _).
  - bind_inv H. injection H as <-. cbn [il_error_count].
    destruct (is_failed_interaction interaction); lia.
  - injection H as <-. cbn [il_error_count].
    destruct (is_failed_interaction interaction); lia.
Qed.

Lemma interaction_loop_error_count interactions st :
  foldM interaction_step interaction_loop_init interactions = Ok st ->
  il_error_count st = length (List.filter present_and_falsy interactions).
Proof.
  intros H.
  apply (foldM_invariant
           (fun s seen => il_error_count s = length (List.filter present_and_falsy seen))
           interaction_step) with (seen := []) in H; [exact H| |reflexivity].
  intros s a s' seen HI Hstep.
  rewrite (interaction_step_error_count _ _ _ Hstep), HI, List.filter_app, length_app.
  cbn [List.filter]. now destruct (present_and_falsy a).
Qed.

Lemma interaction_sentence_reports interactions :
  interaction_sentence interactions
  = if (0 <? length (List.filter present_and_falsy interactions))%nat
    then [Lit "There have been "; nat_val (length interactions);
          Lit " recent AI interactions with ";
          nat_val (length (List.filter present_and_falsy interactions));
          Lit " errors that may need attention."]
    else [Lit "There have been "; nat_val (length interactions);
          Lit " successful recent AI interactions."].
Proof.
  unfold interaction_sentence, narrative_error_count.
  now rewrite (filter_ext_length _ _ interactions is_failed_present_and_falsy).
Qed.

Lemma narrative_validations_appends context narrative lines :
  narrative_validations context narrative = Ok lines ->
  exists after, lines = (narrative ++ after)%list /\ (length after <= 1)%nat.
Proof.
  unfold narrative_validations. intros H.
  destruct (validation_history context) as [[|v l]|].
  - injection H as <-. exists []. split; [now rewrite app_nil_r | cbn; lia].
  - bind_inv H. injection H as <-. eexists. split; [reflexivity | cbn; lia].
  - injection H as <-. exists []. split; [now rewrite app_nil_r | cbn; lia].
Qed.

(** C10: a record that lacks the success field is treated as successful.
    The interaction analysis counts in error_count exactly the records whose
    success field is present and falsy, and success_rate is one minus their
    share.  The narrative that [_format_narrative_context] renders for a
    snapshot with interactions carries one sentence about them, followed at
    most by the validation sentence: with k such records among the n
    interactions it reads 'There have been n recent AI interactions with k
    errors that may need attention.' when k is positive and 'There have been
    n successful recent AI interactions.' when k is 0.  A record without the
    field is in neither count. *)
Theorem missing_success_is_success :
  (forall interactions s,
     _analyze_interactions (Some interactions) = Ok (Interactions s) ->
     error_count s = length (List.filter present_and_falsy interactions)
     /\ (success_rate s
         == 1 - Qnat (length (List.filter present_and_falsy interactions))
                / Qnat (length interactions))%Q)
  /\ (forall context interactions t,
        recent_interactions context = Some interactions ->
        interactions <> [] ->
        _format_narrative_context context = Ok t ->
        exists before after,
          (length after <= 1)%nat
          /\ t = Joined " "
                (before ++
                 (if (0 <? length (List.filter present_and_falsy interactions))%nat
                  then [Lit "There have been "; nat_val (length interactions);
                        Lit " recent AI interactions with ";
                        nat_val (length (List.filter present_and_falsy interactions));
                        Lit " errors that may need attention."]
                  else [Lit "There have been "; nat_val (length interactions);
                        Lit " successful recent AI interactions."])
                 :: after)%list)
  /\ (forall interaction,
        interaction !! "success" = None ->
        present_and_falsy interaction = false
        /\ is_failed_interaction interaction = false).
Proof.
  split; [|split].
  - intros interactions s H. unfold _analyze_interactions in H.
    destruct interactions as [|i l]; [discriminate|].
    bind_inv H. injection H as <-. cbn [error_count success_rate].
    rewrite (interaction_loop_error_count _ _ Ha). split; reflexivity.
  - intros context interactions t Hi Hne H.
    unfold _format_narrative_context in H. rewrite Hi in H.
    destruct interactions as [|i l]; [congruence|].
    apply bind_Ok_inv in H as (lines & Hv & H). injection H as <-.
    apply narrative_validations_appends in Hv as (after & -> & Hafter).
    rewrite interaction_sentence_reports, <- app_assoc.
    eexists. exists after. split; [exact Hafter|]. reflexivity.
  - intros interaction H. unfold is_failed_interaction, present_and_falsy.
    now rewrite H.
Qed.

Lemma missing_success_is_success_witness :
  (exists s,
     _analyze_interactions (Some Fixture.mixed_interactions) = Ok (Interactions s)
     /\ error_count s = 2%nat
     /\ (success_rate s == 1 # 3)%Q)
  /\ (exists before after,
        _format_narrative_context (Sample.narrated Fixture.mixed_interactions)
        = Ok (Joined " "
                (before ++
                 [Lit "There have been "; nat_val 3; Lit " recent AI interactions with ";
                  nat_val 2; Lit " errors that may need attention."]
                 :: after)%list))
  /\ (exists before after,
        _format_narrative_context
          (Sample.narrated [ {[ "interaction_type" := PStr "prompt" ]} ])
        = Ok (Joined " "
                (before ++
                 [Lit "There have been "; nat_val 1;
                  Lit " successful recent AI interactions."]
                 :: after)%list)).
Proof.
  split; [|split].
  - destruct (_analyze_interactions (Some Fixture.mixed_interactions))
      as [[|s]|e] eqn:H; try (vm_compute in H; discriminate).
    exists s.
    destruct (proj1 missing_success_is_success _ _ H) as [H1 H2].
    split; [reflexivity|]. split; [exact H1|]. rewrite H2. reflexivity.
  - destruct (_format_narrative_context (Sample.narrated Fixture.mixed_interactions))
      as [t|e] eqn:H; [|vm_compute in H; discriminate].
    destruct (proj1 (proj2 missing_success_is_success)
                (Sample.narrated Fixture.mixed_interactions) Fixture.mixed_interactions t
                eq_refl ltac:(discriminate) H) as (before & after & _ & ->).
    exists before, after. reflexivity.
  - destruct (_format_narrative_context
                (Sample.narrated [ {[ "interaction_type" := PStr "prompt" ]} ]))
      as [t|e] eqn:H; [|vm_compute in H; discriminate].
    destruct (proj1 (proj2 missing_success_is_success)
                (Sample.narrated [ {[ "interaction_type" := PStr "prompt" ]} ])
                [ {[ "interaction_type" := PStr "prompt" ]} ] t
                eq_refl ltac:(discriminate) H) as (before & after & _ & ->).
    exists before, after. reflexivity.
Defined.

(** ** Range and status of the health score (C7) *)

Lemma Qltb_lt a b : Qltb a b = true <-> (a < b)%Q.
Proof.
  unfold Qltb. rewrite negb_true_iff. split.
  - intros H. apply Qnot_le_lt. intros Hle. apply Qle_bool_iff in Hle. congruence.
  - intros H. destruct (Qle_bool b a) eqn:E; [|reflexivity].
    apply Qle_bool_iff in E. apply Qlt_not_le in H. contradiction.
Qed.

Lemma Qltb_ge a b : Qltb a b = false <-> (b <= a)%Q.
Proof.
  unfold Qltb. rewrite negb_false_iff. apply Qle_bool_iff.
Qed.

Lemma max0_range x : (0 <= max0 x)%Q /\ (x <= max0 x)%Q /\ (x <= 100 -> max0 x <= 100)%Q.
Proof.
  unfold max0. destruct (Qltb 0 x) eqn:E.
  - apply Qltb_lt in E. repeat split; lra.
  - apply Qltb_ge in E. repeat split; lra.
Qed.

Lemma min100_range x : (0 <= x -> 0 <= min100 x)%Q /\ (min100 x <= 100)%Q.
Proof.
  unfold min100. destruct (Qltb x 100) eqn:E.
  - apply Qltb_lt in E. split; lra.
  - split; lra.
Qed.

Lemma validation_health_range v :
  (0 <= validation_health_of v)%Q /\ (validation_health_of v <= 100)%Q.
Proof.
  destruct v as [|s]; cbn [validation_health_of]; [split; lra|].
  set (x := (pass_rate s * 100 + trend_bonus (recent_trend s))%Q).
  pose proof (max0_range x) as (H0 & _ & _).
  pose proof (min100_range (max0 x)) as [H1 H2]. split; auto.
Qed.

Lemma performance_health_range p :
  (0 <= performance_health_of p)%Q /\ (performance_health_of p <= 90)%Q.
Proof.
  destruct p as [|s]; cbn [performance_health_of]; [split; lra|].
  unfold trend_score.
  repeat (match goal with |- context [if ?b then _ else _] => destruct b end);
    split; lra.
Qed.

Lemma complexity_health_range c :
  (0 <= complexity_scores c)%Q /\ (complexity_scores c <= 90)%Q.
Proof.
  unfold complexity_scores.
  repeat (match goal with |- context [if ?b then _ else _] => destruct b end);
    split; lra.
Qed.

(** The interaction component is within 0-100 when the success rate is a
    share and the average time, if any, is not negative. *)
Lemma interaction_health_range i :
  (forall s, i = Interactions s ->
     (0 <= success_rate s <= 1)%Q
     /\ forall t, avg_execution_time_ms s = Some t -> (0 <= t)%Q) ->
  (0 <= interaction_health_of i)%Q /\ (interaction_health_of i <= 100)%Q.
Proof.
  destruct i as [|s]; cbn [interaction_health_of]; [split; lra|].
  intros H. destruct (H s eq_refl) as [[Hs0 Hs1] Ht].
  destruct (avg_execution_time_ms s) as [t|]; [|split; lra].
  specialize (Ht t eq_refl).
  destruct (Qeq_bool t 0); [split; lra|].
  pose proof (max0_range (100 - t / 100)%Q) as (H0 & _ & H100).
  assert (0 <= t / 100)%Q by (apply Qle_shift_div_l; lra).
  split; [|assert (max0 (100 - t / 100) <= 100)%Q by (apply H100; lra)]; nra.
Qed.

Lemma weighted_sum_range scores :
  (0 <= interaction_health scores <= 100)%Q ->
  (0 <= validation_health scores <= 100)%Q ->
  (0 <= performance_health scores <= 100)%Q ->
  (0 <= complexity_health scores <= 100)%Q ->
  (0 <= weighted_sum scores <= 100)%Q.
Proof. unfold weighted_sum. intros. split; lra. Qed.

Lemma round_half_even_range x :
  (0 <= x <= 1000)%Q -> 0 <= round_half_even x <= 1000.
Proof.
  intros [H0 H1]. unfold round_half_even.
  pose proof (Qfloor_le x) as Hf. pose proof (Qlt_floor x) as Hc.
  set (f := Qfloor x) in *.
  assert (Hf0 : 0 <= f).
  { assert (inject_Z 0 < inject_Z (f + 1))%Q as H by (change (inject_Z 0) with 0%Q; lra).
    rewrite <- Zlt_Qlt in H. lia. }
  assert (Hf1 : f <= 1000).
  { assert (inject_Z f <= inject_Z 1000)%Q as H by (change (inject_Z 1000) with 1000%Q; lra).
    now rewrite <- Zle_Qle in H. }
  destruct (Z.eq_dec f 1000) as [E|E].
  - assert (Hd : Qltb (x - inject_Z f) (1 # 2) = true).
    { apply Qltb_lt. rewrite E. change (inject_Z 1000) with 1000%Q. lra. }
    rewrite Hd. lia.
  - destruct (Qltb _ _); [lia|]. destruct (Qltb _ _); [lia|].
    destruct (Z.even f); lia.
Qed.

Lemma round1_range x : (0 <= x <= 100)%Q -> (0 <= round1 x <= 100)%Q.
Proof.
  intros H. unfold round1.
  assert (Hr : 0 <= round_half_even (x * 10) <= 1000)
    by (apply round_half_even_range; lra).
  destruct Hr as [Hr0 Hr1].
  rewrite Zle_Qle in Hr0, Hr1.
  change (inject_Z 0) with 0%Q in Hr0. change (inject_Z 1000) with 1000%Q in Hr1.
  split.
  - apply Qle_shift_div_l; lra.
  - apply Qle_shift_div_r; lra.
Qed.

(** The status is read off the unrounded score by the thresholds 80
    (excellent), 60 (good) and 40 (fair), and is poor below. *)
Lemma health_status_thresholds x :
  ((80 <= x)%Q -> health_status_of x = "excellent")
  /\ ((60 <= x)%Q -> (x < 80)%Q -> health_status_of x = "good")
  /\ ((40 <= x)%Q -> (x < 60)%Q -> health_status_of x = "fair")
  /\ ((x < 40)%Q -> health_status_of x = "poor").
Proof.
  unfold health_status_of.
  destruct (Qle_bool 80 x) eqn:E80; destruct (Qle_bool 60 x) eqn:E60;
    destruct (Qle_bool 40 x) eqn:E40;
    repeat match goal with
           | H : Qle_bool _ _ = true |- _ => apply Qle_bool_iff in H
           | H : Qle_bool ?a ?b = false |- _ =>
               assert (b < a)%Q
                 by (apply Qnot_le_lt; intros Hle; apply Qle_bool_iff in Hle; congruence);
               clear H
           end;
    repeat split; intros; try reflexivity; lra.
Qed.

Example status_at_80 : health_status_of 80 = "excellent".
Proof. reflexivity. Qed.

Example status_at_79_9 : health_status_of (799 # 10) = "good".
Proof. reflexivity. Qed.

Lemma num_q_add a b : (num_q (num_add a b) == num_q a + num_q b)%Q.
Proof.
  destruct a as [x|p], b as [y|q]; cbn [num_add num_q]; try reflexivity.
  now rewrite inject_Z_plus.
Qed.

Lemma interaction_step_total_time st interaction st' :
  nonnegative_time interaction ->
  interaction_step st interaction = Ok st' ->
  (0 <= num_q (il_total_execution_time st))%Q ->
  (0 <= num_q (il_total_execution_time st'))%Q.
Proof.
  unfold interaction_step, nonnegative_time. intros Hnn H Hst. bind_inv H.
  destruct (interaction !! "execution_time_ms") as [v|] eqn:Ev;
    cbn [default from_option Datatypes.id] in H.
  - destruct (py_truthy v).
    + bind_inv H. injection H as <-. cbn [il_total_execution_time].
      unfold iadd in Ha0. destruct (as_num v) as [n|] eqn:En; [|discriminate].
      injection Ha0 as <-. rewrite num_q_add.
      specialize (Hnn v n eq_refl En). lra.
    + now injection H as <-.
  - cbn in H. now injection H as <-.
Qed.

Lemma interaction_loop_total_time interactions st :
  Forall nonnegative_time interactions ->
  foldM interaction_step interaction_loop_init interactions = Ok st ->
  (0 <= num_q (il_total_execution_time st))%Q.
Proof.
  intros Hall H.
  apply (foldM_invariant
           (fun s seen => Forall nonnegative_time seen ->
                          (0 <= num_q (il_total_execution_time s))%Q)
           interaction_step) with (seen := []) in H.
  - exact H.
  - intros s a s' seen HI Hstep Hseen. apply Forall_app in Hseen as [Hs Ha].
    inversion Ha; subst. eapply interaction_step_total_time; eauto.
  - intros _. apply Qle_refl.
  - exact Hall.
Qed.

Lemma Qnat_nonneg n : (0 <= Qnat n)%Q.
Proof.
  unfold Qnat. change 0%Q with (inject_Z 0). rewrite <- Zle_Qle. lia.
Qed.

Lemma Qnat_pos n : (0 < n)%nat -> (0 < Qnat n)%Q.
Proof.
  intros H. unfold Qnat. change 0%Q with (inject_Z 0). rewrite <- Zlt_Qlt. lia.
Qed.

Lemma Qnat_le n m : (n <= m)%nat -> (Qnat n <= Qnat m)%Q.
Proof. intros H. unfold Qnat. rewrite <- Zle_Qle. lia. Qed.

(** What the interaction analysis guarantees about its rates. *)
Lemma _analyze_interactions_rates interactions s :
  Forall nonnegative_time interactions ->
  _analyze_interactions (Some interactions) = Ok (Interactions s) ->
  (0 <= success_rate s <= 1)%Q
  /\ forall t, avg_execution_time_ms s = Some t -> (0 <= t)%Q.
Proof.
  intros Hall H. unfold _analyze_interactions in H.
  destruct interactions as [|i l]; [discriminate|].
  bind_inv H. injection H as <-. cbn [success_rate avg_execution_time_ms].
  pose proof (interaction_loop_error_count _ _ Ha) as Hec.
  pose proof (interaction_loop_total_time _ _ Hall Ha) as Htot.
  set (len := length (i :: l)) in *.
  assert (Hlen : (0 < len)%nat) by (subst len; cbn; lia).
  assert (Hle : (il_error_count a <= len)%nat)
    by (rewrite Hec; apply List.filter_length_le).
  pose proof (Qnat_pos _ Hlen). pose proof (Qnat_le _ _ Hle).
  pose proof (Qnat_nonneg (il_error_count a)).
  split.
  - assert (0 <= Qnat (il_error_count a) / Qnat len)%Q by (apply Qle_shift_div_l; lra).
    assert (Qnat (il_error_count a) / Qnat len <= 1)%Q by (apply Qle_shift_div_r; lra).
    change (S (length l)) with len. split; lra.
  - intros t. destruct (Nat.ltb_spec 0 (il_execution_count a)); [|discriminate].
    intros [= <-]. apply Qle_shift_div_l; [now apply Qnat_pos | lra].
Qed.

(** With no negative execution time among the interactions of the context,
    the weighted sum of the component scores is within 0-100. *)
Lemma health_of_prompt_context_range task_id context analytics :
  (forall l, recent_interactions context = Some l -> Forall nonnegative_time l) ->
  analyze_prompt_context task_id context = Ok analytics ->
  (0 <= weighted_sum (component_scores_of analytics) <= 100)%Q.
Proof.
  intros Hnn H. unfold analyze_prompt_context in H.
  bind_inv H. bind_inv H. bind_inv H. bind_inv H. injection H as <-.
  apply weighted_sum_range; unfold component_scores_of;
    cbn [interaction_health validation_health performance_health complexity_health
         interaction_patterns validation_trends performance_metrics_analysis
         complexity_indicators].
  - apply interaction_health_range. intros s ->.
    destruct (recent_interactions context) as [l|] eqn:El; [|discriminate].
    eapply _analyze_interactions_rates; [|eassumption]. now apply Hnn.
  - apply validation_health_range.
  - pose proof (performance_health_range (_analyze_performance (performance_context context))).
    lra.
  - pose proof (complexity_health_range (overall_complexity a)). lra.
Qed.

Lemma ai_row_dict_nonnegative_time row :
  (forall z, ai_execution_time_ms row = Some z -> 0 <= z) ->
  nonnegative_time (ai_row_dict row).
Proof.
  intros Hrow v n Hv Hn.
  assert (E : ai_row_dict row !! "execution_time_ms"
              = Some (of_oint (ai_execution_time_ms row)))
    by (vm_compute; reflexivity).
  rewrite E in Hv. injection Hv as <-.
  destruct (ai_execution_time_ms row) as [z|]; [|discriminate].
  injection Hn as <-. cbn [num_q]. change 0%Q with (inject_Z 0).
  rewrite <- Zle_Qle. now apply Hrow.
Qed.

(** X1: with no negative execution time recorded for the task, a health report
    that was produced (not the degraded one) has its score within 0-100,
    before and after rounding, and its status is read off the unrounded
    score. *)
Lemma health_score_range db task_id report :
  (forall rows, ai_interactions db task_id = Ok rows ->
     Forall (fun r => forall z, ai_execution_time_ms r = Some z -> 0 <= z) rows) ->
  get_context_health_score db task_id = Ok report ->
  error report = None ->
  exists overall,
    overall_score report = round1 overall
    /\ health_status report = health_status_of overall
    /\ (0 <= overall <= 100)%Q
    /\ (0 <= overall_score report <= 100)%Q.
Proof.
  intros Hrows H Herr. unfold get_context_health_score in H.
  destruct (analyze_context_patterns db task_id) as [analytics|e] eqn:Ha;
    cbn [mbind result_bind catch] in H; injection H as <-; [|discriminate].
  exists (weighted_sum (component_scores_of analytics)).
  assert (Hrange : (0 <= weighted_sum (component_scores_of analytics) <= 100)%Q).
  { unfold analyze_context_patterns in Ha. bind_inv Ha.
    eapply health_of_prompt_context_range; [|eassumption].
    apply generate_prompt_context_inv in Ha0
      as (task & full & deps & dependency & performance & _ & Hfull & _ & _ & _ & ->).
    cbn [recent_interactions]. intros l Hl.
    refine (trimmed_history_Forall _ _ _ _ _ _ Hl). intros xs Hxs.
    unfold get_task_context in Hfull.
    bind_inv Hfull. bind_inv Hfull. bind_inv Hfull. injection Hfull as <-.
    cbn [tc_ai_interactions] in Hxs. injection Hxs as <-.
    apply fmap_Ok_inv in Ha1 as (rows & Hr & ->).
    apply Forall_fmap, Forall_take. eapply Forall_impl; [now apply Hrows|].
    intros r. apply ai_row_dict_nonnegative_time. }
  repeat split; try apply Hrange; now apply round1_range.
Qed.

(** C7 on the code: the status follows the thresholds 80/60/40 on the
    unrounded score ([health_status_thresholds]), and the score is within
    0-100 when no execution time is negative ([health_score_range]); but the
    interaction component has no upper clamp, and for a task whose one
    interaction records an execution time of -1000000 ms the report is
    produced with interaction_health 3100 and overall score 973. *)
Theorem health_score_exceeds_range :
  exists report scores,
    get_context_health_score Fixture.negative_time "t1" = Ok report
    /\ error report = None
    /\ component_scores report = Some scores
    /\ (interaction_health scores == 3100)%Q
    /\ (overall_score report == 973)%Q
    /\ Qle_bool (overall_score report) 100 = false
    /\ health_status report = "excellent".
Proof. do 2 eexists. repeat split; vm_compute; reflexivity. Qed.

(** ** Further properties of the code *)

Lemma health_score_range_witness :
  exists report,
    get_context_health_score Fixture.plain "t1" = Ok report
    /\ error report = None
    /\ (0 <= overall_score report <= 100)%Q.
Proof.
  destruct (get_context_health_score Fixture.plain "t1") as [report|e] eqn:H;
    [|vm_compute in H; discriminate].
  assert (Herr : error report = None)
    by (vm_compute in H; injection H as <-; reflexivity).
  exists report. split; [reflexivity|]. split; [exact Herr|].
  destruct (health_score_range Fixture.plain "t1" report) as (overall & _ & _ & _ & Hr).
  - intros rows [= <-]. repeat constructor. intros z [= <-]. lia.
  - exact H.
  - exact Herr.
  - exact Hr.
Defined.

Lemma recommendations_raise_without_timing_witness :
  avg_execution_time_ms Fixture.untimed_patterns = None
  /\ _generate_recommendations Fixture.busy_complexity
       (Interactions Fixture.untimed_patterns) NoValidations NoPerformanceData
     = Err (TypeError "'>' not supported between instances of 'NoneType' and 'int'").
Proof.
  split; [reflexivity|].
  exact (recommendations_raise_without_timing Fixture.busy_complexity
           Fixture.untimed_patterns NoValidations NoPerformanceData eq_refl).
Defined.

(** X3: among the active rows of one context type the snapshot keeps the oldest:
    the rows are read newest first and each overwrites the field. *)
Theorem context_bundle_keeps_oldest db task_id include mi mv context rows :
  generate_prompt_context db task_id include mi mv = Ok context ->
  task_context db task_id = Ok rows ->
  requirements_context context = default PNone (last (stored_values "requirements" rows))
  /\ codebase_context context = default PNone (last (stored_values "codebase" rows))
  /\ workflow_state context = default PNone (last (stored_values "workflow" rows)).
Proof.
  intros Hg Hrows.
  apply generate_prompt_context_inv in Hg
    as (task & full & deps & dependency & performance & _ & Hfull & _ & _ & _ & ->).
  destruct (get_task_context_keeps_last_row _ _ _ _ Hrows Hfull) as (H1 & H2 & H3 & _).
  cbn [requirements_context codebase_context workflow_state]. auto.
Qed.

Lemma context_bundle_keeps_oldest_witness :
  exists context,
    generate_prompt_context Fixture.rewritten "t1" true 10 5 = Ok context
    /\ stored_values "requirements"
         [ Fixture.row "requirements" (PDict {[ "version" := PInt 2 ]});
           Fixture.row "metadata" (PDict {[ "owner" := PStr "ops" ]});
           Fixture.row "requirements" (PDict {[ "version" := PInt 1 ]}) ]
       = [PDict {[ "version" := PInt 2 ]}; PDict {[ "version" := PInt 1 ]}]
    /\ requirements_context context = PDict {[ "version" := PInt 1 ]}.
Proof.
  destruct (generate_prompt_context Fixture.rewritten "t1" true 10 5)
    as [context|e] eqn:Hg; [|vm_compute in Hg; discriminate].
  exists context. split; [reflexivity|]. split; [reflexivity|].
  exact (proj1 (context_bundle_keeps_oldest Fixture.rewritten "t1" true 10 5 context _
                  Hg eq_refl)).
Defined.

(** ** Failures of the entry points *)

(** X5: a failure of the context generation surfaces unchanged from the
    export, whatever the format token (supported or not), and from the
    analysis; the health score turns it into the degraded report. *)
Theorem generation_failure_surfaces db task_id format_type e :
  generate_prompt_context_default db task_id = Err e ->
  export_context_for_prompt db task_id format_type = Err e
  /\ analyze_context_patterns db task_id = Err e
  /\ get_context_health_score db task_id = Ok (degraded_report e).
Proof.
  intros H. unfold get_context_health_score, export_context_for_prompt,
    analyze_context_patterns. rewrite H. repeat split.
Qed.

Lemma generation_failure_surfaces_witness :
  generate_prompt_context_default Fixture.plain "t2"
  = Err (ValueError "Task t2 not found")
  /\ export_context_for_prompt Fixture.plain "t2" "unsupported"
     = Err (ValueError "Task t2 not found")
  /\ get_context_health_score Fixture.plain "t2"
     = Ok (degraded_report (ValueError "Task t2 not found")).
Proof.
  split; [reflexivity|].
  destruct (generation_failure_surfaces Fixture.plain "t2" "unsupported"
              (ValueError "Task t2 not found") eq_refl) as (H1 & _ & H3).
  split; assumption.
Defined.

(** The fetches of [get_task_context], in their order. *)
Lemma get_task_context_failures db task_id :
  (forall e, task_context db task_id = Err e -> get_task_context db task_id = Err e)
  /\ (forall rows e,
        task_context db task_id = Ok rows ->
        ai_interactions db task_id = Err e -> get_task_context db task_id = Err e)
  /\ (forall rows ais e,
        task_context db task_id = Ok rows ->
        ai_interactions db task_id = Ok ais ->
        validation_results db task_id = Err e -> get_task_context db task_id = Err e)
  /\ (forall rows ais vals,
        task_context db task_id = Ok rows ->
        ai_interactions db task_id = Ok ais ->
        validation_results db task_id = Ok vals ->
        exists full, get_task_context db task_id = Ok full).
Proof.
  unfold get_task_context. repeat split.
  - now intros e ->.
  - now intros rows e -> ->.
  - now intros rows ais e -> -> ->.
  - intros rows ais vals -> -> ->. eexists. reflexivity.
Qed.

(** X6: the context generation reports the first failing step, in the order:
    the pool (RuntimeError), the task fetch, the absent task (ValueError), the
    context rows, the interactions, the validations, the dependency ids, and
    then the parents and the metrics. *)
Theorem generation_failure_order db task_id include mi mv :
  (pool db = false ->
   generate_prompt_context db task_id include mi mv
   = Err (RuntimeError "Database not initialized"))
  /\ (pool db = true ->
      (forall e, tasks db task_id = Err e ->
         generate_prompt_context db task_id include mi mv = Err e)
      /\ (tasks db task_id = Ok None ->
          generate_prompt_context db task_id include mi mv
          = Err (ValueError ("Task " ++ task_id ++ " not found")))
      /\ (forall task e,
            tasks db task_id = Ok (Some task) ->
            get_task_context db task_id = Err e ->
            generate_prompt_context db task_id include mi mv = Err e)
      /\ (forall task full e,
            tasks db task_id = Ok (Some task) ->
            get_task_context db task_id = Ok full ->
            task_dependencies db task_id = Err e ->
            generate_prompt_context db task_id include mi mv = Err e)
      /\ (forall task full deps e,
            tasks db task_id = Ok (Some task) ->
            get_task_context db task_id = Ok full ->
            task_dependencies db task_id = Ok deps ->
            _build_dependency_context db task_id deps = Err e ->
            generate_prompt_context db task_id include mi mv = Err e)
      /\ (forall task full deps dependency e,
            tasks db task_id = Ok (Some task) ->
            get_task_context db task_id = Ok full ->
            task_dependencies db task_id = Ok deps ->
            _build_dependency_context db task_id deps = Ok dependency ->
            performance_metrics db task_id = Err e ->
            generate_prompt_context db task_id include mi mv = Err e)).
Proof.
  unfold generate_prompt_context, get_storage, get_task, get_task_dependencies,
    _get_performance_context.
  split; [now intros ->|]. intros ->. cbn [mbind result_bind]. repeat split.
  - now intros e ->.
  - now intros ->.
  - intros task e -> H. cbn [mbind result_bind]. now rewrite H.
  - intros task full e -> H1 H2. cbn [mbind result_bind].
    rewrite H1. cbn [mbind result_bind]. now rewrite H2.
  - intros task full deps e -> H1 H2 H3. cbn [mbind result_bind].
    rewrite H1. cbn [mbind result_bind]. rewrite H2. cbn [mbind result_bind].
    now rewrite H3.
  - intros task full deps dependency e -> H1 H2 H3 H4. cbn [mbind result_bind].
    rewrite H1. cbn [mbind result_bind]. rewrite H2. cbn [mbind result_bind].
    rewrite H3. cbn [mbind result_bind]. now rewrite H4.
Qed.

Lemma generation_failure_order_witness :
  pool Fixture.plain = true
  /\ tasks Fixture.plain "t2" = Ok None
  /\ generate_prompt_context Fixture.plain "t2" true 10 5
     = Err (ValueError "Task t2 not found").
Proof.
  split; [reflexivity|]. split; [reflexivity|].
  exact (proj1 (proj2 (proj2 (generation_failure_order Fixture.plain "t2" true 10 5) eq_refl))
           eq_refl).
Defined.

(** X7: the context generation returns when the pool is initialised, the
    task exists, every fetch succeeds and the dependency ids resolve (missing
    parents are skipped); the snapshot then carries the task's summary with
    status and priority as their enum tokens, and both the dependency and the
    performance summaries. *)
Theorem generation_returns db tid include mi mv task rows ais vals deps parents samples :
  pool db = true ->
  tasks db tid = Ok (Some task) ->
  task_context db tid = Ok rows ->
  ai_interactions db tid = Ok ais ->
  validation_results db tid = Ok vals ->
  task_dependencies db tid = Ok deps ->
  resolves db deps parents ->
  performance_metrics db tid = Ok samples ->
  exists context dependency performance,
    generate_prompt_context db tid include mi mv = Ok context
    /\ task_id context = tid
    /\ ts_status (task_summary context) = TaskStatus_value (status task)
    /\ ts_priority (task_summary context) = TaskPriority_value (priority task)
    /\ ts_title (task_summary context) = title task
    /\ dependency_context context = Some dependency
    /\ has_dependencies dependency = negb (bool_decide (deps = []))
    /\ performance_context context = Some performance.
Proof.
  intros Hp Ht Hrows Hai Hval Hdeps Hres Hs.
  destruct (proj2 (proj2 (proj2 (get_task_context_failures db tid)))
              rows ais vals Hrows Hai Hval) as [full Hfull].
  assert (Hdep : exists dependency,
             _build_dependency_context db tid deps = Ok dependency
             /\ has_dependencies dependency = negb (bool_decide (deps = []))).
  { destruct deps as [|d deps].
    - exists NoDependencies. split; reflexivity.
    - unfold _build_dependency_context, get_storage. rewrite Hp.
      rewrite (bind_Ok _ _ _ eq_refl), (collect_dependencies _ _ _ Hres []).
      eexists. split; reflexivity. }
  destruct Hdep as (dependency & Hdep & Hhas).
  assert (Hperf : exists performance, _get_performance_context db tid = Ok performance).
  { unfold _get_performance_context. rewrite Hp, Hs.
    cbn [mbind result_bind fmap result_fmap].
    destruct (take 20 samples); eexists; reflexivity. }
  destruct Hperf as [performance Hperf].
  unfold generate_prompt_context, get_storage, get_task, get_task_dependencies.
  rewrite Hp. cbn [mbind result_bind]. rewrite Ht. cbn [mbind result_bind].
  rewrite Hfull. cbn [mbind result_bind]. rewrite Hdeps. cbn [mbind result_bind].
  rewrite Hdep. cbn [mbind result_bind]. rewrite Hperf. cbn [mbind result_bind].
  do 3 eexists. split; [reflexivity|]. repeat split. exact Hhas.
Qed.

Lemma generation_returns_witness :
  resolves Fixture.family ["p1"; "p2"; "ghost"] [Fixture.parent_done; Fixture.parent_pending]
  /\ exists context,
       generate_prompt_context Fixture.family "t1" true 10 5 = Ok context
       /\ ts_status (task_summary context) = "pending".
Proof.
  assert (Hres : resolves Fixture.family ["p1"; "p2"; "ghost"]
                   [Fixture.parent_done; Fixture.parent_pending]).
  { apply resolves_found; [reflexivity|].
    apply resolves_found; [reflexivity|].
    apply resolves_missing; [reflexivity|]. apply resolves_nil. }
  split; [exact Hres|].
  destruct (generation_returns Fixture.family "t1" true 10 5 _ _ _ _ _ _ _
              eq_refl eq_refl eq_refl eq_refl eq_refl eq_refl Hres eq_refl)
    as (context & dependency & performance & H & _ & Hst & _).
  exists context. split; [exact H | exact Hst].
Defined.

(** ** History, dependencies and metrics of the snapshot *)

Lemma trimmed_history_nonneg include (full : list pydict) cap :
  0 <= cap ->
  trimmed_history include (Some full) cap
  = if include && negb (bool_decide (full = [])) then Some (take (Z.to_nat cap) full)
    else None.
Proof.
  intros Hcap. unfold trimmed_history, slice_to.
  destruct full as [|x l]; [now destruct include|].
  destruct include; [|reflexivity].
  destruct (Z.ltb_spec cap 0); [lia | reflexivity].
Qed.

(** X8: the histories of the snapshot are the newest rows, in their order:
    with a cap that is not negative, the first min(cap, 50) interaction rows
    and the first min(cap, 20) validation rows, as dicts; they are absent
    (None) when include_history is off or when the table holds no row. *)
Theorem history_is_newest_prefix db tid include mi mv context ais vals :
  generate_prompt_context db tid include mi mv = Ok context ->
  ai_interactions db tid = Ok ais ->
  validation_results db tid = Ok vals ->
  0 <= mi -> 0 <= mv ->
  recent_interactions context
  = (if include && negb (bool_decide (ais = []))
     then Some (ai_row_dict <$> take (Z.to_nat mi `min` 50) ais) else None)
  /\ validation_history context
     = (if include && negb (bool_decide (vals = []))
        then Some (validation_row_dict <$> take (Z.to_nat mv `min` 20) vals) else None).
Proof.
  intros Hg Hai Hval Hmi Hmv.
  apply generate_prompt_context_inv in Hg
    as (task & full & deps & dependency & performance & _ & Hfull & _ & _ & _ & ->).
  unfold get_task_context in Hfull. rewrite Hai, Hval in Hfull.
  bind_inv Hfull. cbn [mbind result_bind fmap result_fmap] in Hfull.
  injection Hfull as <-.
  cbn [recent_interactions validation_history tc_ai_interactions tc_validation_results].
  rewrite !trimmed_history_nonneg by assumption.
  rewrite <- !fmap_take, !take_take. split.
  - destruct ais; [now destruct include | reflexivity].
  - destruct vals; [now destruct include | reflexivity].
Qed.

Lemma history_is_newest_prefix_witness :
  exists context,
    generate_prompt_context Fixture.plain "t1" true 0 5 = Ok context
    /\ recent_interactions context = Some []
    /\ validation_history context
       = Some [validation_row_dict (Fixture.validation "passed")].
Proof.
  destruct (generate_prompt_context Fixture.plain "t1" true 0 5)
    as [context|e] eqn:Hg; [|vm_compute in Hg; discriminate].
  exists context. split; [reflexivity|].
  exact (history_is_newest_prefix Fixture.plain "t1" true 0 5 context _ _ Hg
           eq_refl eq_refl ltac:(lia) ltac:(lia)).
Defined.

Lemma count_status_partition parents :
  length parents
  = (count_status completed_status parents + count_status pending_status parents
     + count_status blocked_status parents
     + count_status (fun s => match s with CANCELLED => true | _ => false end) parents)%nat.
Proof.
  unfold count_status. induction parents as [|t l IH]; [reflexivity|].
  cbn [List.filter length]. destruct (status t); cbn [completed_status pending_status
    blocked_status length]; lia.
Qed.

(** X9: a cancelled parent does not hold a task back.  The summary is ready
    exactly when every resolved parent is done or cancelled, and the parents
    that fall in none of the three counted classes are the cancelled ones. *)
Theorem readiness_ignores_cancelled db tid deps parents :
  pool db = true -> deps <> [] -> resolves db deps parents ->
  exists s,
    _build_dependency_context db tid deps = Ok (Dependencies s)
    /\ (is_ready s = true
        <-> Forall (fun t => status t = DONE \/ status t = CANCELLED) parents)
    /\ total_dependencies s
       = (completed_dependencies s + pending_dependencies s + blocked_dependencies s
          + count_status (fun s => match s with CANCELLED => true | _ => false end)
              parents)%nat.
Proof.
  intros Hp Hne Hres. unfold _build_dependency_context, get_storage.
  destruct deps as [|d deps]; [congruence|]. rewrite Hp.
  rewrite (bind_Ok _ _ _ eq_refl), (collect_dependencies _ _ _ Hres []).
  cbn [app mbind result_bind]. eexists. split; [reflexivity|].
  unfold summarize_dependencies.
  cbn [is_ready total_dependencies completed_dependencies pending_dependencies
       blocked_dependencies].
  rewrite (filter_dependency_entries completed_status is_completed_dep)
    by (intros t; apply TaskStatus_classes).
  rewrite (filter_dependency_entries pending_status is_pending_dep)
    by (intros t; apply TaskStatus_classes).
  rewrite (filter_dependency_entries blocked_status is_blocked_dep)
    by (intros t; apply TaskStatus_classes).
  rewrite length_fmap. split; [|apply count_status_partition].
  rewrite andb_true_iff, !Nat.eqb_eq, !count_status_zero, !Forall_forall.
  split.
  - intros [H1 H2] t Hin. specialize (H1 t Hin). specialize (H2 t Hin).
    destruct (status t); try discriminate; auto.
  - intros H. split; intros t Hin; destruct (H t Hin) as [-> | ->]; reflexivity.
Qed.

Lemma readiness_ignores_cancelled_witness :
  resolves Sample.cancelled_parent ["t1"] [Fixture.task "c1" CANCELLED 1 []]
  /\ exists s,
       _build_dependency_context Sample.cancelled_parent "t9" ["t1"] = Ok (Dependencies s)
       /\ is_ready s = true.
Proof.
  assert (Hres : resolves Sample.cancelled_parent ["t1"] [Fixture.task "c1" CANCELLED 1 []]).
  { apply resolves_found; [reflexivity|]. apply resolves_nil. }
  split; [exact Hres|].
  destruct (readiness_ignores_cancelled Sample.cancelled_parent "t9" ["t1"] _ eq_refl
              ltac:(discriminate) Hres)
    as (s & Hs & Hready & Htotal).
  exists s. split; [exact Hs|].
  apply Hready. constructor; [right; reflexivity | constructor].
Defined.

Lemma foldM_app {A S} (f : S -> A -> result S) (l1 l2 : list A) :
  forall s, foldM f s (l1 ++ l2) = foldM f s l1 ≫= fun s' => foldM f s' l2.
Proof.
  induction l1 as [|a l1 IH]; intros s; [reflexivity|].
  cbn [app foldM]. destruct (f s a) as [s'|e]; [apply IH | reflexivity].
Qed.

(** X10: the dependency summary is all or nothing.  With no dependency id
    the storage is not touched at all (the answer is the empty summary even
    with no pool); otherwise an uninitialised pool raises RuntimeError, and a
    parent fetch that raises ends the summary with that error, whatever the
    parents before it resolved to and whatever follows. *)
Theorem dependency_summary_failures db tid :
  _build_dependency_context db tid [] = Ok NoDependencies
  /\ (forall deps, deps <> [] -> pool db = false ->
        _build_dependency_context db tid deps
        = Err (RuntimeError "Database not initialized"))
  /\ (forall before parents dep_id after e,
        pool db = true ->
        resolves db before parents ->
        get_task db dep_id = Err e ->
        _build_dependency_context db tid (before ++ dep_id :: after) = Err e).
Proof.
  split; [reflexivity|]. split.
  - intros [|d deps] Hne Hp; [congruence|].
    unfold _build_dependency_context, get_storage. now rewrite Hp.
  - intros before parents dep_id after e Hp Hres He.
    unfold _build_dependency_context, get_storage.
    destruct (before ++ dep_id :: after)%list as [|x l] eqn:E;
      [now destruct before|]. rewrite <- E. rewrite Hp.
    rewrite (bind_Ok _ _ _ eq_refl), foldM_app, (collect_dependencies _ _ _ Hres []).
    cbn [app mbind result_bind foldM].
    assert (Hs : forall acc, collect_dependency db acc dep_id = Err e)
      by (intros acc; unfold collect_dependency; now rewrite He).
    now rewrite Hs.
Qed.

Lemma dependency_summary_failures_witness :
  resolves Sample.flaky ["p1"] [Fixture.parent_done]
  /\ get_task Sample.flaky "p2" = Err (StorageError "timeout")
  /\ _build_dependency_context Sample.flaky "t1" ["p1"; "p2"; "p3"]
     = Err (StorageError "timeout").
Proof.
  assert (Hres : resolves Sample.flaky ["p1"] [Fixture.parent_done]).
  { apply resolves_found; [reflexivity|]. apply resolves_nil. }
  split; [exact Hres|]. split; [reflexivity|].
  exact (proj2 (proj2 (dependency_summary_failures Sample.flaky "t1")) ["p1"]
           [Fixture.parent_done] "p2" ["p3"] (StorageError "timeout") eq_refl Hres eq_refl).
Defined.

(** ** The performance summary *)

(** X11: the performance summary is bounded by the query and the slice: no
    row gives has_metrics False; otherwise total_metrics is the number of
    rows fetched, at most 20, recent_metrics are the 10 newest of them in
    order, the execution-time count is the number of fetched rows whose type
    is execution_time, at most total_metrics, and the average is None exactly
    when no fetched row is of that type. *)
Theorem performance_summary_bounds db tid samples :
  pool db = true ->
  performance_metrics db tid = Ok samples ->
  (samples = [] -> _get_performance_context db tid = Ok NoMetrics)
  /\ (samples <> [] ->
      exists s,
        _get_performance_context db tid = Ok (Metrics s)
        /\ total_metrics s = (length samples `min` 20)%nat
        /\ recent_metrics s = metric_of_row <$> take 10 samples
        /\ execution_times_count s = length (fetched_execution_times samples)
        /\ (execution_times_count s <= total_metrics s)%nat
        /\ (avg_execution_time s = None <-> execution_times_count s = 0%nat)
        /\ (avg_execution_time s = None <-> fetched_execution_times samples = [])
        /\ (avg_execution_time s = None
            <-> Forall (fun row => metric_type row <> "execution_time") (take 20 samples))
        /\ avg_execution_time_ms_summary s = avg_execution_time s).
Proof.
  intros Hp Hs. unfold _get_performance_context. rewrite Hp, Hs.
  cbn [mbind result_bind fmap result_fmap]. split; [now intros ->|].
  intros Hne. destruct samples as [|r samples]; [congruence|].
  change (take 20 (r :: samples)) with (r :: take 19 samples).
  eexists. split; [reflexivity|].
  cbn [total_metrics recent_metrics execution_times_count avg_execution_time
       avg_execution_time_ms_summary].
  change (r :: take 19 samples) with (take 20 (r :: samples)).
  unfold fetched_execution_times.
  set (fetched := take 20 (r :: samples)).
  rewrite !filter_metric_of_row.
  set (timed := List.filter (fun r0 => String.eqb (metric_type r0) "execution_time") fetched).
  assert (Hnone : match metric_of_row <$> timed with
                  | [] => None
                  | _ :: _ =>
                      Some (sum_values (metric_of_row <$> timed)
                            / Qnat (length (metric_of_row <$> timed)))%Q
                  end = None <-> timed = []).
  { destruct timed; cbn; split; congruence. }
  split; [subst fetched; now rewrite length_fmap, length_take, Nat.min_comm|].
  split; [subst fetched; rewrite <- fmap_take, take_take; reflexivity|].
  split; [apply length_fmap|].
  split; [rewrite !length_fmap; apply List.filter_length_le|].
  split; [rewrite Hnone, length_fmap; destruct timed; cbn; split; congruence|].
  split; [exact Hnone|].
  split; [|reflexivity].
  rewrite Hnone. subst timed. clearbody fetched. clear.
  induction fetched as [|row rows IH]; cbn [List.filter].
  - split; [constructor | reflexivity].
  - destruct (String.eqb_spec (metric_type row) "execution_time") as [E|E].
    + split; [discriminate|]. intros H. inversion H; subst. contradiction.
    + rewrite IH. split.
      * intros H. now constructor.
      * intros H. now inversion H.
Qed.

Lemma performance_summary_bounds_witness :
  exists s,
    _get_performance_context Fixture.measured "t1" = Ok (Metrics s)
    /\ total_metrics s = 3%nat
    /\ execution_times_count s = 2%nat.
Proof.
  destruct (proj2 (performance_summary_bounds Fixture.measured "t1" _ eq_refl eq_refl))
    as (s & H & Ht & _ & Hc & _).
  - discriminate.
  - exists s. split; [exact H|]. split; [exact Ht | exact Hc].
Defined.

(** ** Invariants of the interaction and validation analyses *)

Lemma tally_set_total k n counts :
  (tally_total (tally_set k n counts) + tally_get k counts = tally_total counts + n)%nat.
Proof.
  induction counts as [|[k' n'] rest IH]; cbn [tally_set tally_get tally_total fold_right snd].
  - lia.
  - destruct (py_eqb k k'); cbn [tally_total fold_right snd]; [lia|].
    fold (tally_total (tally_set k n rest)). fold (tally_total rest). lia.
Qed.

Lemma tally_incr_total k counts counts' :
  tally_incr k counts = Ok counts' -> tally_total counts' = S (tally_total counts).
Proof.
  unfold tally_incr. destruct (hashable k); [|discriminate]. intros [= <-].
  pose proof (tally_set_total k (tally_get k counts + 1) counts). lia.
Qed.

Lemma py_eqb_str_l s k : py_eqb (PStr s) k = true -> k = PStr s.
Proof.
  destruct k; cbn; try discriminate. intros H. apply String.eqb_eq in H. now subst.
Qed.

Lemma py_eqb_str_r s k : py_eqb k (PStr s) = true -> k = PStr s.
Proof.
  destruct k; cbn; try discriminate. intros H. apply String.eqb_eq in H. now subst.
Qed.

Lemma py_eqb_str_refl s : py_eqb (PStr s) (PStr s) = true.
Proof. cbn. apply String.eqb_refl. Qed.

Lemma py_eqb_str_sym s k : py_eqb (PStr s) k = py_eqb k (PStr s).
Proof.
  destruct (py_eqb (PStr s) k) eqn:E1.
  - apply py_eqb_str_l in E1 as ->. symmetry. apply py_eqb_str_refl.
  - destruct (py_eqb k (PStr s)) eqn:E2; [|reflexivity].
    apply py_eqb_str_r in E2 as ->. now rewrite py_eqb_str_refl in E1.
Qed.

Lemma tally_get_set_str s k n counts :
  tally_get (PStr s) (tally_set k n counts)
  = if py_eqb (PStr s) k then n else tally_get (PStr s) counts.
Proof.
  induction counts as [|[k' n'] rest IH]; cbn [tally_set tally_get].
  - reflexivity.
  - destruct (py_eqb k k') eqn:Ekk'; cbn [tally_get].
    + destruct (py_eqb (PStr s) k') eqn:Ek'.
      * apply py_eqb_str_l in Ek' as ->. apply py_eqb_str_r in Ekk' as ->.
        now rewrite py_eqb_str_refl.
      * destruct (py_eqb (PStr s) k) eqn:Ek; [|reflexivity].
        apply py_eqb_str_l in Ek as ->. congruence.
    + rewrite IH. destruct (py_eqb (PStr s) k') eqn:Ek'; [|reflexivity].
      destruct (py_eqb (PStr s) k) eqn:Ek; [|reflexivity].
      apply py_eqb_str_l in Ek as ->. congruence.
Qed.

Lemma tally_incr_get_str s k counts counts' :
  tally_incr k counts = Ok counts' ->
  tally_get (PStr s) counts'
  = (tally_get (PStr s) counts + if py_eqb (PStr s) k then 1 else 0)%nat.
Proof.
  unfold tally_incr. destruct (hashable k); [|discriminate]. intros [= <-].
  rewrite tally_get_set_str. destruct (py_eqb (PStr s) k) eqn:E; [|lia].
  apply py_eqb_str_l in E as ->. lia.
Qed.

(** What one turn of the interaction loop does to the counters. *)
Lemma interaction_step_counters st interaction st' :
  interaction_step st interaction = Ok st' ->
  tally_total (il_type_counts st') = S (tally_total (il_type_counts st))
  /\ il_execution_count st'
     = (il_execution_count st + if is_timed interaction then 1 else 0)%nat.
Proof.
  unfold interaction_step, is_timed. intros H. bind_inv H.
  apply tally_incr_total in Ha.
  destruct (py_truthy _).
  - bind_inv H. injection H as <-. cbn [il_type_counts il_execution_count]. split; [exact Ha | lia].
  - injection H as <-. cbn [il_type_counts il_execution_count]. split; [exact Ha | lia].
Qed.

Lemma interaction_loop_counters interactions st :
  foldM interaction_step interaction_loop_init interactions = Ok st ->
  tally_total (il_type_counts st) = length interactions
  /\ il_execution_count st = length (List.filter is_timed interactions).
Proof.
  intros H.
  apply (foldM_invariant
           (fun s seen => tally_total (il_type_counts s) = length seen
                          /\ il_execution_count s = length (List.filter is_timed seen))
           interaction_step) with (seen := []) in H; [exact H| |split; reflexivity].
  intros s a s' seen [HI1 HI2] Hstep.
  destruct (interaction_step_counters _ _ _ Hstep) as [H1 H2].
  rewrite H1, H2, HI1, HI2, List.filter_app, !length_app. cbn [List.filter length].
  split; [lia|]. destruct (is_timed a); cbn [length]; lia.
Qed.

Lemma filter_length_zero {A} (p : A -> bool) (l : list A) :
  length (List.filter p l) = 0%nat <-> Forall (fun x => p x = false) l.
Proof.
  induction l as [|x l IH]; cbn [List.filter].
  - split; [constructor | reflexivity].
  - destruct (p x) eqn:E; cbn [length].
    + split; [discriminate | intros H; inversion H; congruence].
    + rewrite IH. split; [now constructor | intros H; now inversion H].
Qed.

(** X12: the interaction analysis of a non-empty history, when it returns,
    has counted every record once: total_interactions and the per-type counts
    add up to the number of records, error_count is at most that number, the
    error and success rates lie in 0..1 and add up to 1, and the average
    execution time is None exactly when no record reports a truthy time. *)
Theorem interaction_analysis_invariants interactions s :
  _analyze_interactions (Some interactions) = Ok (Interactions s) ->
  total_interactions s = length interactions
  /\ tally_total (interaction_types s) = length interactions
  /\ (error_count s <= total_interactions s)%nat
  /\ (0 <= error_rate s <= 1)%Q
  /\ (error_rate s + success_rate s == 1)%Q
  /\ (avg_execution_time_ms s = None
      <-> Forall (fun i => is_timed i = false) interactions).
Proof.
  intros H. unfold _analyze_interactions in H.
  destruct interactions as [|i l]; [discriminate|].
  bind_inv H. injection H as <-.
  cbn [total_interactions interaction_types error_count error_rate success_rate
       avg_execution_time_ms].
  destruct (interaction_loop_counters _ _ Ha) as [Htypes Hcount].
  pose proof (interaction_loop_error_count _ _ Ha) as Hec.
  set (len := length (i :: l)) in *.
  assert (Hlen : (0 < len)%nat) by (subst len; cbn; lia).
  assert (Hle : (il_error_count a <= len)%nat)
    by (rewrite Hec; apply List.filter_length_le).
  pose proof (Qnat_pos _ Hlen). pose proof (Qnat_le _ _ Hle).
  pose proof (Qnat_nonneg (il_error_count a)).
  assert (0 <= Qnat (il_error_count a) / Qnat len)%Q by (apply Qle_shift_div_l; lra).
  assert (Qnat (il_error_count a) / Qnat len <= 1)%Q by (apply Qle_shift_div_r; lra).
  split; [reflexivity|]. split; [exact Htypes|]. split; [exact Hle|].
  split; [split; assumption|]. split; [ring|]. split.
  - destruct (Nat.ltb_spec 0 (il_execution_count a)); [discriminate|].
    intros _. apply filter_length_zero. lia.
  - intros Hall. apply filter_length_zero in Hall.
    destruct (Nat.ltb_spec 0 (il_execution_count a)); [lia | reflexivity].
Qed.

Lemma interaction_analysis_invariants_witness :
  exists s,
    _analyze_interactions (Some Fixture.mixed_interactions) = Ok (Interactions s)
    /\ total_interactions s = 3%nat
    /\ avg_execution_time_ms s = None.
Proof.
  destruct (_analyze_interactions (Some Fixture.mixed_interactions))
    as [[|s]|e] eqn:H; try (vm_compute in H; discriminate).
  exists s. split; [reflexivity|].
  destruct (interaction_analysis_invariants _ _ H) as (H1 & _ & _ & _ & _ & H6).
  split; [exact H1|]. apply H6. repeat constructor.
Defined.

Lemma tally_key_tallied key token record :
  py_eqb (PStr token) (default (PStr "unknown") (record !! key))
  = tallied_under key token record.
Proof.
  unfold tallied_under. destruct (record !! key) as [v|]; cbn [default from_option].
  - apply py_eqb_str_sym.
  - reflexivity.
Qed.

Lemma is_passed_tallied validation :
  is_passed validation = tallied_under "status" "passed" validation.
Proof.
  unfold is_passed, tallied_under.
  now destruct (validation !! "status").
Qed.

Lemma validation_step_counters st validation st' :
  validation_step st validation = Ok st' ->
  tally_total (vl_status_counts st') = S (tally_total (vl_status_counts st))
  /\ tally_total (vl_type_counts st') = S (tally_total (vl_type_counts st))
  /\ (forall token,
        tally_get (PStr token) (vl_status_counts st')
        = (tally_get (PStr token) (vl_status_counts st)
           + if tallied_under "status" token validation then 1 else 0)%nat)
  /\ (forall token,
        tally_get (PStr token) (vl_type_counts st')
        = (tally_get (PStr token) (vl_type_counts st)
           + if tallied_under "validation_type" token validation then 1 else 0)%nat).
Proof.
  unfold validation_step. intros H. bind_inv H. bind_inv H.
  assert (Hs : forall token,
             tally_get (PStr token) a
             = (tally_get (PStr token) (vl_status_counts st)
                + if tallied_under "status" token validation then 1 else 0)%nat).
  { intros token. rewrite <- tally_key_tallied. now apply tally_incr_get_str. }
  assert (Ht : forall token,
             tally_get (PStr token) a0
             = (tally_get (PStr token) (vl_type_counts st)
                + if tallied_under "validation_type" token validation then 1 else 0)%nat).
  { intros token. rewrite <- tally_key_tallied. now apply tally_incr_get_str. }
  apply tally_incr_total in Ha. apply tally_incr_total in Ha0.
  destruct (default PNone (validation !! "score"));
    try (bind_inv H); injection H as <-;
    cbn [vl_status_counts vl_type_counts]; auto.
Qed.

Lemma validation_loop_counters validations st :
  foldM validation_step validation_loop_init validations = Ok st ->
  tally_total (vl_status_counts st) = length validations
  /\ tally_total (vl_type_counts st) = length validations
  /\ (forall token,
        tally_get (PStr token) (vl_status_counts st)
        = length (List.filter (tallied_under "status" token) validations))
  /\ (forall token,
        tally_get (PStr token) (vl_type_counts st)
        = length (List.filter (tallied_under "validation_type" token) validations)).
Proof.
  intros H.
  apply (foldM_invariant
           (fun s seen =>
              tally_total (vl_status_counts s) = length seen
              /\ tally_total (vl_type_counts s) = length seen
              /\ (forall token,
                    tally_get (PStr token) (vl_status_counts s)
                    = length (List.filter (tallied_under "status" token) seen))
              /\ (forall token,
                    tally_get (PStr token) (vl_type_counts s)
                    = length (List.filter (tallied_under "validation_type" token) seen)))
           validation_step) with (seen := []) in H; [exact H| |repeat split].
  intros s a s' seen (HI1 & HI2 & HI3 & HI4) Hstep.
  destruct (validation_step_counters _ _ _ Hstep) as (H1 & H2 & H3 & H4).
  rewrite H1, H2, HI1, HI2, !length_app. cbn [length].
  split; [lia|]. split; [lia|]. split; intros token.
  - rewrite H3, HI3, List.filter_app, length_app. cbn [List.filter].
    destruct (tallied_under "status" token a); cbn [length]; lia.
  - rewrite H4, HI4, List.filter_app, length_app. cbn [List.filter].
    destruct (tallied_under "validation_type" token a); cbn [length]; lia.
Qed.

(** X13: the validation analysis of a non-empty history, when it returns,
    has counted every record once in both distributions: under each status
    (and each validation type) it reports the number of records that carry
    it, a record without the field counting under 'unknown'.  Its pass_rate
    is the share of the records whose status is 'passed', a number in 0..1;
    a record without a status is never counted as passed. *)
Theorem validation_analysis_invariants validations s :
  _analyze_validations (Some validations) = Ok (Validations s) ->
  total_validations s = length validations
  /\ tally_total (status_distribution s) = length validations
  /\ tally_total (validation_types s) = length validations
  /\ (forall token,
        tally_get (PStr token) (status_distribution s)
        = length (List.filter (tallied_under "status" token) validations))
  /\ (forall token,
        tally_get (PStr token) (validation_types s)
        = length (List.filter (tallied_under "validation_type" token) validations))
  /\ (pass_rate s
      == Qnat (length (List.filter (tallied_under "status" "passed") validations))
         / Qnat (length validations))%Q
  /\ (0 <= pass_rate s <= 1)%Q.
Proof.
  intros H. unfold _analyze_validations in H.
  destruct validations as [|v l]; [discriminate|].
  bind_inv H. injection H as <-.
  cbn [total_validations status_distribution validation_types pass_rate recent_trend].
  destruct (validation_loop_counters _ _ Ha) as (H1 & H2 & H3 & H4).
  rewrite (H3 "passed").
  set (passed := length (List.filter (tallied_under "status" "passed") (v :: l))).
  set (len := length (v :: l)) in *.
  assert (Hlen : (0 < len)%nat) by (subst len; cbn; lia).
  assert (Hle : (passed <= len)%nat) by apply List.filter_length_le.
  pose proof (Qnat_pos _ Hlen). pose proof (Qnat_le _ _ Hle).
  pose proof (Qnat_nonneg passed).
  split; [reflexivity|]. split; [exact H1|]. split; [exact H2|].
  split; [exact H3|]. split; [exact H4|].
  split; [reflexivity|].
  try change (S (length l)) with len. split.
  - apply Qle_shift_div_l; lra.
  - apply Qle_shift_div_r; lra.
Qed.

Lemma validation_analysis_invariants_witness :
  exists s,
    _analyze_validations
      (Some [Fixture.outcome "passed"; {[ "validator_name" := PStr "pytest" ]}])
    = Ok (Validations s)
    /\ total_validations s = 2%nat
    /\ tally_get (PStr "unknown") (status_distribution s) = 1%nat
    /\ tally_get (PStr "passed") (status_distribution s) = 1%nat
    /\ tally_get (PStr "unknown") (validation_types s) = 2%nat.
Proof.
  destruct (_analyze_validations
              (Some [Fixture.outcome "passed"; {[ "validator_name" := PStr "pytest" ]}]))
    as [[|s]|e] eqn:H; try (vm_compute in H; discriminate).
  exists s. split; [reflexivity|].
  destruct (validation_analysis_invariants _ _ H) as (H1 & _ & _ & H4 & H5 & _).
  split; [exact H1|]. split; [exact (H4 "unknown")|].
  split; [exact (H4 "passed") | exact (H5 "unknown")].
Defined.

(** ** Trends *)

Lemma pass_rate_of_all_passed (l : list pydict) :
  l <> [] -> Forall (fun v => is_passed v = true) l -> pass_rate_of l = 1%Q.
Proof.
  intros Hne Hall. unfold pass_rate_of, fdiv.
  assert (E : List.filter is_passed l = l).
  { induction Hall as [|v l Hv _ IH]; [reflexivity|]. cbn [List.filter]. rewrite Hv.
    destruct l; [reflexivity|]. now rewrite IH. }
  rewrite E. transitivity (round_double 1); [|reflexivity]. apply round_double_proper.
  apply Qmult_inv_r.
  assert (0 < Qnat (length l))%Q by (apply Qnat_pos; destruct l; [congruence | cbn; lia]).
  lra.
Qed.

Lemma pass_rate_of_none_passed (l : list pydict) :
  Forall (fun v => is_passed v = false) l -> pass_rate_of l = 0%Q.
Proof.
  intros Hall. unfold pass_rate_of, fdiv.
  apply filter_length_zero in Hall. rewrite Hall.
  transitivity (round_double 0); [|reflexivity]. apply round_double_proper.
  unfold Qnat at 1. cbn [Z.of_nat]. unfold Qdiv. ring.
Qed.

(** X15: a uniform history has no trend.  With three records or more, a
    history in which every record passed, or in which none did, is 'stable'
    (never 'improving' or 'declining'). *)
Theorem uniform_history_is_stable (validations : list pydict) :
  (3 <= length validations)%nat ->
  Forall (fun v => is_passed v = true) validations
  \/ Forall (fun v => is_passed v = false) validations ->
  _calculate_validation_trend validations = "stable".
Proof.
  intros Hlen Hall. unfold _calculate_validation_trend.
  destruct (Nat.ltb_spec (length validations) 3); [lia|].
  unfold recent_validations, older_validations.
  set (half := (length validations / 2)%nat).
  assert (Hhalf : (1 <= half /\ half < length validations)%nat).
  { subst half. split.
    - apply Nat.div_le_lower_bound; lia.
    - apply Nat.div_lt; lia. }
  assert (Hr : take half validations <> []).
  { assert (L : length (take half validations) = half) by (rewrite length_take; lia).
    intros E. rewrite E in L. cbn [length] in L. lia. }
  assert (Ho : drop half validations <> []).
  { assert (L : length (drop half validations) = (length validations - half)%nat)
      by apply length_drop.
    intros E. rewrite E in L. cbn [length] in L. lia. }
  destruct Hall as [Hall|Hall].
  - rewrite (pass_rate_of_all_passed (take half validations))
      by (try exact Hr; now apply Forall_take).
    rewrite (pass_rate_of_all_passed (drop half validations))
      by (try exact Ho; now apply Forall_drop).
    vm_compute. reflexivity.
  - rewrite (pass_rate_of_none_passed (take half validations))
      by now apply Forall_take.
    rewrite (pass_rate_of_none_passed (drop half validations))
      by now apply Forall_drop.
    vm_compute. reflexivity.
Qed.

Lemma uniform_history_is_stable_witness :
  (3 <= length [Fixture.outcome "failed"; Fixture.outcome "failed"; Fixture.outcome "failed"])%nat
  /\ _calculate_validation_trend
       [Fixture.outcome "failed"; Fixture.outcome "failed"; Fixture.outcome "failed"]
     = "stable".
Proof.
  split; [cbn; lia|].
  apply uniform_history_is_stable; [cbn; lia|]. right. repeat constructor.
Defined.

(** ** Tasks without a file list, tasks without a history *)

(** X17: a task stored without a file list cannot be analysed.  When the
    task's [affected_files] is None (the dataclass default) and its prompt
    context is generated, the analysis raises the TypeError of [len(None)],
    whatever else is stored, and the health score is the degraded report
    carrying that message. *)
Theorem analysis_needs_file_list db tid task context :
  tasks db tid = Ok (Some task) ->
  affected_files task = None ->
  generate_prompt_context_default db tid = Ok context ->
  analyze_context_patterns db tid
  = Err (TypeError "object of type 'NoneType' has no len()")
  /\ get_context_health_score db tid
     = Ok {| overall_score := 0%Q;
             health_status := "error";
             component_scores := None;
             hr_recommendations := None;
             error := Some "object of type 'NoneType' has no len()" |}.
Proof.
  intros Ht Hfiles Hg.
  assert (Ha : analyze_context_patterns db tid
               = Err (TypeError "object of type 'NoneType' has no len()")).
  { unfold analyze_context_patterns. rewrite Hg. cbn [mbind result_bind].
    apply generate_prompt_context_inv in Hg
      as (task' & full & deps & dependency & performance & Ht' & _ & _ & _ & _ & ->).
    unfold get_task in Ht'. rewrite Ht in Ht'. injection Ht' as <-.
    unfold analyze_prompt_context, _analyze_complexity.
    cbn [task_summary task_summary_of ts_affected_files]. rewrite Hfiles. reflexivity. }
  split; [exact Ha|].
  unfold get_context_health_score. rewrite Ha. reflexivity.
Qed.

Lemma analysis_needs_file_list_witness :
  affected_files (default_task "new") = None
  /\ (exists context, generate_prompt_context_default Fresh.unlisted "t1" = Ok context)
  /\ analyze_context_patterns Fresh.unlisted "t1"
     = Err (TypeError "object of type 'NoneType' has no len()").
Proof.
  split; [reflexivity|]. split; [eexists; reflexivity|].
  exact (proj1 (analysis_needs_file_list Fresh.unlisted "t1" (default_task "new") _
                  eq_refl eq_refl eq_refl)).
Defined.

Lemma complexity_bucket_cases n :
  complexity_bucket n = "very_high" \/ complexity_bucket n = "high"
  \/ complexity_bucket n = "medium" \/ complexity_bucket n = "low".
Proof.
  unfold complexity_bucket.
  destruct (4 <=? n)%nat; [now left|].
  destruct (3 <=? n)%nat; [now right; left|].
  destruct (2 <=? n)%nat; [now right; right; left | now right; right; right].
Qed.

Lemma get_task_context_histories db task_id ais vals full :
  ai_interactions db task_id = Ok ais ->
  validation_results db task_id = Ok vals ->
  get_task_context db task_id = Ok full ->
  tc_ai_interactions full = Some (ai_row_dict <$> take 50 ais)
  /\ tc_validation_results full = Some (validation_row_dict <$> take 20 vals).
Proof.
  intros Hai Hval H. unfold get_task_context in H. rewrite Hai, Hval in H.
  bind_inv H. cbn [fmap result_fmap mbind result_bind] in H.
  injection H as <-. split; reflexivity.
Qed.

Lemma get_performance_context_empty db task_id performance :
  performance_metrics db task_id = Ok [] ->
  _get_performance_context db task_id = Ok performance ->
  performance = NoMetrics.
Proof.
  intros Hs H. unfold _get_performance_context in H. rewrite Hs in H.
  bind_inv H. cbn in H. now injection H as <-.
Qed.

Lemma unrecorded_recommendations c :
  exists advice,
    _generate_recommendations c NoInteractions NoValidations NoPerformanceData
    = Ok (advice ++ [rec_no_interactions; rec_no_validations])%list.
Proof.
  unfold _generate_recommendations.
  cbn [slow_interactions mbind result_bind has_interactions has_validations negb].
  replace (Qltb (3 # 10) 0) with false by reflexivity.
  replace (Qltb 1 (7 # 10)) with false by reflexivity.
  set (advice := append_if (3 <? dependency_count c)%nat rec_dependencies _).
  exists advice. unfold append_if. rewrite <- app_assoc. reflexivity.
Qed.

Lemma complexity_scores_cases n :
  complexity_scores (complexity_bucket n) = 30%Q
  \/ complexity_scores (complexity_bucket n) = 50%Q
  \/ complexity_scores (complexity_bucket n) = 70%Q
  \/ complexity_scores (complexity_bucket n) = 90%Q.
Proof.
  destruct (complexity_bucket_cases n) as [E|[E|[E|E]]]; rewrite E.
  - now left.
  - now right; left.
  - now right; right; left.
  - now right; right; right.
Qed.

Lemma unrecorded_analysis tid context files dependency :
  ts_affected_files (task_summary context) = Some files ->
  dependency_context context = Some dependency ->
  recent_interactions context = None ->
  validation_history context = None ->
  performance_context context = Some NoMetrics ->
  exists c advice n,
    overall_complexity c = complexity_bucket n
    /\ analyze_prompt_context tid context
       = Ok {| ca_task_id := tid;
               complexity_indicators := c;
               interaction_patterns := NoInteractions;
               validation_trends := NoValidations;
               performance_metrics_analysis := NoPerformanceData;
               recommendations :=
                 (advice ++ [rec_no_interactions; rec_no_validations])%list |}.
Proof.
  intros Hfiles Hdep Hi Hv Hp.
  unfold analyze_prompt_context, _analyze_complexity.
  rewrite Hfiles, Hdep, Hi, Hv, Hp.
  cbn [mbind result_bind _analyze_interactions _analyze_validations _analyze_performance].
  match goal with |- context [_generate_recommendations ?c _ _ _] =>
    destruct (unrecorded_recommendations c) as [advice Hr];
    exists c, advice end.
  eexists. split; [reflexivity|].
  rewrite Hr. reflexivity.
Qed.

(** X18: a task nothing is recorded about is rated 'fair'.  When the task
    has a file list and there are no interactions, no validations and no
    metrics for it, the health score returns a report (not the degraded
    one) whose interaction, validation and performance components are the
    neutral 50, whose overall score lies between 46 and 58, whose status
    is 'fair' whatever the complexity, and whose recommendations end with
    the advisories to enable logging and to implement validation checks. *)
Theorem unrecorded_task_is_fair db tid context files :
  generate_prompt_context_default db tid = Ok context ->
  ts_affected_files (task_summary context) = Some files ->
  ai_interactions db tid = Ok [] ->
  validation_results db tid = Ok [] ->
  performance_metrics db tid = Ok [] ->
  exists report scores advice,
    get_context_health_score db tid = Ok report
    /\ error report = None
    /\ component_scores report = Some scores
    /\ interaction_health scores = 50%Q
    /\ validation_health scores = 50%Q
    /\ performance_health scores = 50%Q
    /\ (46 <= overall_score report)%Q /\ (overall_score report <= 58)%Q
    /\ health_status report = "fair"
    /\ hr_recommendations report
       = Some (advice ++ [rec_no_interactions; rec_no_validations])%list.
Proof.
  intros Hg Hfiles Hai Hval Hs.
  assert (Hc : exists dependency,
             dependency_context context = Some dependency
             /\ recent_interactions context = None
             /\ validation_history context = None
             /\ performance_context context = Some NoMetrics).
  { apply generate_prompt_context_inv in Hg
      as (task & full & deps & dependency & performance & _ & Hfull & _ & _ & Hperf & ->).
    destruct (get_task_context_histories _ _ _ _ _ Hai Hval Hfull) as [Ei Ev].
    apply (get_performance_context_empty _ _ _ Hs) in Hperf. subst performance.
    exists dependency. cbn [dependency_context recent_interactions validation_history
                            performance_context].
    rewrite Ei, Ev. repeat split. }
  destruct Hc as (dependency & Hdep & Hi & Hv & Hp).
  destruct (unrecorded_analysis tid context files dependency Hfiles Hdep Hi Hv Hp)
    as (c & advice & n & Hn & Ha).
  unfold get_context_health_score, analyze_context_patterns.
  rewrite Hg. cbn [mbind result_bind]. rewrite Ha. cbn [mbind result_bind catch].
  eexists. exists {| interaction_health := 50; validation_health := 50;
                     performance_health := 50;
                     complexity_health := complexity_scores (complexity_bucket n) |}, advice.
  split; [reflexivity|].
  unfold health_report_of, component_scores_of, weighted_sum.
  cbn [error component_scores overall_score health_status hr_recommendations
       interaction_patterns validation_trends performance_metrics_analysis
       complexity_indicators recommendations interaction_health validation_health
       performance_health complexity_health interaction_health_of validation_health_of
       performance_health_of].
  rewrite Hn.
  split; [reflexivity|]. split; [reflexivity|].
  split; [reflexivity|]. split; [reflexivity|]. split; [reflexivity|].
  destruct (complexity_scores_cases n) as [E|[E|[E|E]]]; rewrite E;
    (split; [vm_compute; discriminate|]);
    (split; [vm_compute; discriminate|]);
    (split; reflexivity).
Qed.

Lemma unrecorded_task_is_fair_witness :
  exists report,
    get_context_health_score Fresh.untouched "t1" = Ok report
    /\ health_status report = "fair".
Proof.
  destruct (unrecorded_task_is_fair Fresh.untouched "t1" _ ["a.py"; "b.py"; "c.py"]
              eq_refl eq_refl eq_refl eq_refl eq_refl)
    as (report & scores & advice & H & _ & _ & _ & _ & _ & _ & _ & Hst & _).
  exists report. split; [exact H | exact Hst].
Defined.

(** ** The narrative export *)

Lemma count_passed_rows (rows : list validation_row) (passed : nat) :
  foldM count_passed passed (validation_row_dict <$> rows)
  = Ok (passed + length (List.filter row_passed rows))%nat.
Proof.
  revert passed. induction rows as [|row rows IH]; intros passed.
  - cbn. f_equal. lia.
  - rewrite fmap_cons. cbn [foldM].
    assert (Hs : count_passed passed (validation_row_dict row)
                 = Ok (if row_passed row then (passed + 1)%nat else passed)).
    { unfold count_passed, subscript, validation_row_dict, row_passed. reflexivity. }
    rewrite Hs. cbn [mbind result_bind]. rewrite IH. cbn [List.filter].
    destruct (row_passed row); cbn [length]; f_equal; lia.
Qed.

Lemma default_validation_history db tid context vals :
  generate_prompt_context_default db tid = Ok context ->
  validation_results db tid = Ok vals ->
  vals <> [] ->
  validation_history context = Some (validation_row_dict <$> take 5 vals).
Proof.
  intros Hg Hval Hne.
  apply generate_prompt_context_inv in Hg
    as (task & full & deps & dependency & performance & _ & Hfull & _ & _ & _ & ->).
  unfold get_task_context in Hfull. rewrite Hval in Hfull.
  bind_inv Hfull. bind_inv Hfull. cbn [mbind result_bind fmap result_fmap] in Hfull.
  injection Hfull as <-.
  cbn [validation_history tc_validation_results].
  rewrite trimmed_history_nonneg by lia.
  rewrite <- fmap_take, take_take.
  destruct vals; [congruence | reflexivity].
Qed.

(** X19: the narrative export closes with the outcome of the newest three
    validations.  Whenever the narrative is rendered for a task with at
    least one validation row, its last sentence is 'Recent validation
    results show p/n checks passing.', where n is the number of rows among
    the newest three and p the number of those whose status is 'passed';
    older rows do not count. *)
Theorem narrative_counts_newest_validations db tid t vals :
  export_context_for_prompt db tid "narrative" = Ok t ->
  validation_results db tid = Ok vals ->
  vals <> [] ->
  exists sentences,
    t = Joined " "
          (sentences ++
           [[Lit "Recent validation results show ";
             nat_val (length (List.filter row_passed (take 3 vals)));
             Lit "/"; nat_val (length (take 3 vals)); Lit " checks passing."]])%list.
Proof.
  intros He Hval Hne. unfold export_context_for_prompt in He.
  apply bind_Ok_inv in He as (context & Hg & He).
  cbn [String.eqb Ascii.eqb Bool.eqb] in He.
  pose proof (default_validation_history _ _ _ _ Hg Hval Hne) as Hh.
  unfold _format_narrative_context in He.
  apply bind_Ok_inv in He as (narrative & Hn & He).
  injection He as <-.
  unfold narrative_validations in Hn. rewrite Hh in Hn.
  destruct vals as [|v vals]; [congruence|].
  change (validation_row_dict <$> take 5 (v :: vals))
    with (validation_row_dict v :: (validation_row_dict <$> take 4 vals)) in Hn.
  cbv beta iota zeta in Hn.
  change (validation_row_dict v :: (validation_row_dict <$> take 4 vals))
    with (validation_row_dict <$> take 5 (v :: vals)) in Hn.
  rewrite <- fmap_take, take_take in Hn.
  change (3 `min` 5)%nat with 3%nat in Hn.
  rewrite count_passed_rows in Hn. cbn [mbind result_bind] in Hn.
  rewrite length_fmap in Hn. injection Hn as <-.
  eexists. reflexivity.
Qed.

Lemma narrative_counts_newest_validations_witness :
  exists t sentences,
    export_context_for_prompt Fixture.plain "t1" "narrative" = Ok t
    /\ t = Joined " "
             (sentences ++
              [[Lit "Recent validation results show "; nat_val 1; Lit "/"; nat_val 1;
                Lit " checks passing."]])%list.
Proof.
  destruct (export_context_for_prompt Fixture.plain "t1" "narrative")
    as [t|e] eqn:He; [|vm_compute in He; discriminate].
  destruct (narrative_counts_newest_validations Fixture.plain "t1" t
              [Fixture.validation "passed"] He eq_refl ltac:(discriminate))
    as [sentences Hs].
  exists t, sentences. split; [reflexivity | exact Hs].
Defined.

(** ** The in-memory task storage *)

Lemma TaskStatus_eqb_eq a b : TaskStatus_eqb a b = true <-> a = b.
Proof. destruct a, b; cbn; split; congruence. Qed.

Lemma lookup_assign_same k task table :
  MockTaskStorage.lookup_task k (MockTaskStorage.assign_task k task table) = Some task.
Proof.
  induction table as [|[k' t] rest IH]; cbn.
  - now rewrite String.eqb_refl.
  - destruct (String.eqb k' k) eqn:E; cbn; rewrite E; [reflexivity | exact IH].
Qed.

Lemma lookup_assign_other k k' task table :
  k' <> k ->
  MockTaskStorage.lookup_task k' (MockTaskStorage.assign_task k task table)
  = MockTaskStorage.lookup_task k' table.
Proof.
  intros Hne. induction table as [|[k0 t] rest IH]; cbn.
  - destruct (String.eqb_spec k k'); [congruence | reflexivity].
  - destruct (String.eqb_spec k0 k) as [->|Hk]; cbn.
    + destruct (String.eqb_spec k k'); [congruence | reflexivity].
    + destruct (String.eqb k0 k'); [reflexivity | exact IH].
Qed.

Lemma assign_keys_present k task task' table :
  MockTaskStorage.lookup_task k table = Some task' ->
  fst <$> MockTaskStorage.assign_task k task table = fst <$> table.
Proof.
  induction table as [|[k0 t] rest IH]; cbn; [discriminate|].
  destruct (String.eqb_spec k0 k) as [->|Hk]; cbn; [reflexivity|].
  intros H. now rewrite IH.
Qed.

Lemma lookup_None_keys k table :
  MockTaskStorage.lookup_task k table = None <-> k ∉ (fst <$> table).
Proof.
  induction table as [|[k0 t] rest IH]; cbn.
  - split; [intros _; apply not_elem_of_nil | reflexivity].
  - rewrite not_elem_of_cons. destruct (String.eqb_spec k0 k) as [->|Hk].
    + split; [discriminate | intros [H _]; congruence].
    + rewrite IH. split; [intros H; split; [congruence | exact H] | intros [_ H]; exact H].
Qed.

Lemma assign_keys_absent k task table :
  MockTaskStorage.lookup_task k table = None ->
  fst <$> MockTaskStorage.assign_task k task table = ((fst <$> table) ++ [k])%list.
Proof.
  induction table as [|[k0 t] rest IH]; cbn; [reflexivity|].
  destruct (String.eqb_spec k0 k) as [->|Hk]; cbn; [discriminate|].
  intros H. now rewrite IH.
Qed.

Lemma assign_Forall (P : string * AtomicTask -> Prop) k task table :
  P (k, task) -> Forall P table -> Forall P (MockTaskStorage.assign_task k task table).
Proof.
  intros Hk. induction 1 as [|[k0 t] rest Hx Hrest IH]; cbn.
  - repeat constructor. exact Hk.
  - destruct (String.eqb_spec k0 k) as [->|_]; constructor; assumption.
Qed.

Lemma assign_keys_NoDup k task table :
  NoDup (fst <$> table) -> NoDup (fst <$> MockTaskStorage.assign_task k task table).
Proof.
  intros Hnd. destruct (MockTaskStorage.lookup_task k table) as [task'|] eqn:E.
  - now rewrite (assign_keys_present _ _ _ _ E).
  - rewrite (assign_keys_absent _ _ _ E). apply NoDup_app. split; [exact Hnd|].
    split; [|apply NoDup_singleton].
    intros x Hx Hin. apply list_elem_of_singleton in Hin. subst x.
    now apply lookup_None_keys in E.
Qed.

Lemma lookup_elem_of k task table :
  MockTaskStorage.lookup_task k table = Some task -> (k, task) ∈ table.
Proof.
  induction table as [|[k0 t] rest IH]; cbn; [discriminate|].
  destruct (String.eqb_spec k0 k) as [->|_].
  - intros [= ->]. apply list_elem_of_here.
  - intros H. apply list_elem_of_further, IH, H.
Qed.

Lemma elem_of_lookup k task table :
  NoDup (fst <$> table) -> (k, task) ∈ table ->
  MockTaskStorage.lookup_task k table = Some task.
Proof.
  induction table as [|[k0 t] rest IH]; cbn; intros Hnd Hin.
  - now apply elem_of_nil in Hin.
  - apply NoDup_cons in Hnd as [Hk0 Hnd].
    apply elem_of_cons in Hin as [[= -> ->]|Hin].
    + now rewrite String.eqb_refl.
    + destruct (String.eqb_spec k0 k) as [->|_]; [|now apply IH].
      exfalso. apply Hk0. apply list_elem_of_fmap. now exists (k, task).
Qed.

(** X20: a stored task is found again.  [store_task] returns the task's own
    id when it has a non-empty one and the drawn uuid otherwise; looking that
    id up afterwards gives the task with the id filled in, its creation time
    kept (or read from the clock when it had none), the update time set, and
    every other field as it was.  Tasks under other ids, the dependencies and
    the contexts are untouched. *)
Theorem stored_task_is_found (s s' : MockTaskStorage.state) (task : AtomicTask)
    (fresh t1 t2 k : string) :
  MockTaskStorage.store_task s task fresh t1 t2 = (s', k) ->
  (forall i, id task = Some i -> i <> "" -> k = i)
  /\ (id task = None \/ id task = Some "" -> k = fresh)
  /\ MockTaskStorage.get_task s' k
     = Some {| id := Some k;
               title := title task;
               description := description task;
               affected_files := affected_files task;
               complexity_score := complexity_score task;
               status := status task;
               priority := priority task;
               created_at := Some (default t1 (created_at task));
               updated_at := Some t2;
               assigned_to := assigned_to task;
               estimated_hours := estimated_hours task;
               actual_hours := actual_hours task;
               tags := tags task |}
  /\ (forall k', k' <> k -> MockTaskStorage.get_task s' k' = MockTaskStorage.get_task s k')
  /\ MockTaskStorage.dependencies s' = MockTaskStorage.dependencies s
  /\ MockTaskStorage.contexts s' = MockTaskStorage.contexts s.
Proof.
  unfold MockTaskStorage.store_task. intros [= <- <-].
  split; [|split; [|split; [|split; [|split]]]].
  - intros i -> Hi. destruct (String.eqb_spec i ""); [congruence | reflexivity].
  - intros [->| ->]; reflexivity.
  - unfold MockTaskStorage.get_task. cbn [MockTaskStorage.tasks].
    apply lookup_assign_same.
  - intros k' Hk'. unfold MockTaskStorage.get_task. cbn [MockTaskStorage.tasks].
    now apply lookup_assign_other.
  - reflexivity.
  - reflexivity.
Qed.

Lemma stored_task_is_found_witness :
  exists stored,
    MockTaskStorage.get_task
      (fst (MockTaskStorage.store_task MockTaskStorage.empty (default_task "new")
              "uuid-1" "10:00" "10:01"))
      "uuid-1" = Some stored
    /\ id stored = Some "uuid-1" /\ created_at stored = Some "10:00".
Proof.
  eexists. split.
  - exact (proj1 (proj2 (proj2
             (stored_task_is_found MockTaskStorage.empty _ (default_task "new")
                "uuid-1" "10:00" "10:01" "uuid-1" eq_refl)))).
  - split; reflexivity.
Defined.

(** X21: a status update touches one task.  For an id that is not stored the
    call changes nothing, and the context passed with it is dropped.  For a
    stored id the task gets the new status and update time and keeps its
    place and its other fields; a truthy context is appended to the contexts
    of that id as a 'status_update' entry, a falsy one is not recorded.
    Other tasks, other contexts and the dependencies stay as they were. *)
Theorem status_update_is_local (s : MockTaskStorage.state) (k : string)
    (new_status : TaskStatus) (context : pyval) (t1 t2 : string) :
  match MockTaskStorage.get_task s k with
  | None => MockTaskStorage.update_task_status s k new_status context t1 t2 = s
  | Some task =>
      MockTaskStorage.get_task
        (MockTaskStorage.update_task_status s k new_status context t1 t2) k
      = Some (MockTaskStorage.with_status task new_status t1)
      /\ fst <$> MockTaskStorage.tasks
                   (MockTaskStorage.update_task_status s k new_status context t1 t2)
         = fst <$> MockTaskStorage.tasks s
      /\ MockTaskStorage.contexts
           (MockTaskStorage.update_task_status s k new_status context t1 t2) !! k
         = (if py_truthy context
            then Some (default [] (MockTaskStorage.contexts s !! k) ++
                       [{| MockTaskStorage.ce_context_type := "status_update";
                           MockTaskStorage.ce_context_data := context;
                           MockTaskStorage.ce_created_at := t2 |}])%list
            else MockTaskStorage.contexts s !! k)
  end
  /\ (forall k', k' <> k ->
        MockTaskStorage.get_task
          (MockTaskStorage.update_task_status s k new_status context t1 t2) k'
        = MockTaskStorage.get_task s k'
        /\ MockTaskStorage.contexts
             (MockTaskStorage.update_task_status s k new_status context t1 t2) !! k'
           = MockTaskStorage.contexts s !! k')
  /\ MockTaskStorage.dependencies
       (MockTaskStorage.update_task_status s k new_status context t1 t2)
     = MockTaskStorage.dependencies s.
Proof.
  unfold MockTaskStorage.update_task_status, MockTaskStorage.get_task.
  destruct (MockTaskStorage.lookup_task k (MockTaskStorage.tasks s)) as [task|] eqn:E.
  - destruct (py_truthy context);
      cbn [MockTaskStorage.store_task_context MockTaskStorage.tasks
           MockTaskStorage.contexts MockTaskStorage.dependencies].
    + split; [split; [apply lookup_assign_same|split]|split].
      * exact (assign_keys_present _ _ _ _ E).
      * now rewrite lookup_insert_eq.
      * intros k' Hk'. split; [now apply lookup_assign_other|].
        now rewrite lookup_insert_ne.
      * reflexivity.
    + split; [split; [apply lookup_assign_same|split]|split].
      * exact (assign_keys_present _ _ _ _ E).
      * reflexivity.
      * intros k' Hk'. split; [now apply lookup_assign_other | reflexivity].
      * reflexivity.
  - split; [reflexivity|]. split; [intros; split; reflexivity | reflexivity].
Qed.

Lemma add_task_dependency_parents (s : MockTaskStorage.state) parent child ty :
  MockTaskStorage.get_task_dependencies
    (MockTaskStorage.add_task_dependency s parent child ty) child
  = (if bool_decide (parent ∈ MockTaskStorage.get_task_dependencies s child)
     then MockTaskStorage.get_task_dependencies s child
     else MockTaskStorage.get_task_dependencies s child ++ [parent])%list.
Proof.
  unfold MockTaskStorage.get_task_dependencies, MockTaskStorage.add_task_dependency.
  cbn [MockTaskStorage.dependencies].
  destruct (MockTaskStorage.dependencies s !! child) as [parents|] eqn:E.
  - rewrite E. cbn [default from_option Datatypes.id].
    destruct (bool_decide (parent ∈ parents)).
    + now rewrite E.
    + now rewrite lookup_insert_eq.
  - rewrite lookup_insert_eq. cbn [default from_option Datatypes.id].
    rewrite bool_decide_eq_false_2 by apply not_elem_of_nil.
    now rewrite lookup_insert_eq.
Qed.

Lemma add_task_dependency_others (s : MockTaskStorage.state) parent child ty c :
  c <> child ->
  MockTaskStorage.dependencies (MockTaskStorage.add_task_dependency s parent child ty) !! c
  = MockTaskStorage.dependencies s !! c.
Proof.
  intros Hc. unfold MockTaskStorage.add_task_dependency.
  cbn [MockTaskStorage.dependencies].
  destruct (MockTaskStorage.dependencies s !! child) as [parents|] eqn:E.
  - rewrite E. cbn [default from_option Datatypes.id].
    destruct (bool_decide (parent ∈ parents)); [reflexivity|].
    now rewrite lookup_insert_ne.
  - rewrite lookup_insert_eq. cbn [default from_option Datatypes.id].
    rewrite bool_decide_eq_false_2 by apply not_elem_of_nil.
    now rewrite !lookup_insert_ne.
Qed.

Lemma add_task_dependency_lookup (s : MockTaskStorage.state) parent child ty :
  MockTaskStorage.dependencies (MockTaskStorage.add_task_dependency s parent child ty)
    !! child
  = Some (MockTaskStorage.get_task_dependencies
            (MockTaskStorage.add_task_dependency s parent child ty) child).
Proof.
  unfold MockTaskStorage.get_task_dependencies, MockTaskStorage.add_task_dependency.
  cbn [MockTaskStorage.dependencies].
  destruct (MockTaskStorage.dependencies s !! child) as [parents|] eqn:E.
  - rewrite E. cbn [default from_option Datatypes.id].
    destruct (bool_decide (parent ∈ parents)).
    + now rewrite E.
    + now rewrite lookup_insert_eq.
  - rewrite lookup_insert_eq. cbn [default from_option Datatypes.id].
    rewrite bool_decide_eq_false_2 by apply not_elem_of_nil.
    now rewrite lookup_insert_eq.
Qed.

(** X22: a dependency is recorded once.  After [add_task_dependency] the
    parent is among the child's dependencies: appended at the end when it was
    not there, and the list left as it was when it was.  Doing the same call
    again changes nothing, the lists of other children are unchanged, a list
    without duplicates stays without duplicates, and the dependency type does
    not matter. *)
Theorem dependency_is_recorded_once (s : MockTaskStorage.state) (parent child : string)
    (ty ty' : DependencyType) :
  parent ∈ MockTaskStorage.get_task_dependencies
             (MockTaskStorage.add_task_dependency s parent child ty) child
  /\ MockTaskStorage.get_task_dependencies
       (MockTaskStorage.add_task_dependency s parent child ty) child
     = (if bool_decide (parent ∈ MockTaskStorage.get_task_dependencies s child)
        then MockTaskStorage.get_task_dependencies s child
        else MockTaskStorage.get_task_dependencies s child ++ [parent])%list
  /\ (forall c, c <> child ->
        MockTaskStorage.get_task_dependencies
          (MockTaskStorage.add_task_dependency s parent child ty) c
        = MockTaskStorage.get_task_dependencies s c)
  /\ MockTaskStorage.add_task_dependency
       (MockTaskStorage.add_task_dependency s parent child ty) parent child ty'
     = MockTaskStorage.add_task_dependency s parent child ty
  /\ (NoDup (MockTaskStorage.get_task_dependencies s child) ->
      NoDup (MockTaskStorage.get_task_dependencies
               (MockTaskStorage.add_task_dependency s parent child ty) child)).
Proof.
  assert (Hin : parent ∈ MockTaskStorage.get_task_dependencies
                  (MockTaskStorage.add_task_dependency s parent child ty) child).
  { rewrite add_task_dependency_parents.
    destruct (bool_decide (parent ∈ MockTaskStorage.get_task_dependencies s child)) eqn:E.
    - now apply bool_decide_eq_true in E.
    - apply elem_of_app. right. now apply list_elem_of_singleton. }
  split; [exact Hin|]. split; [apply add_task_dependency_parents|].
  split; [|split].
  - intros c Hc. unfold MockTaskStorage.get_task_dependencies.
    now rewrite add_task_dependency_others.
  - set (s1 := MockTaskStorage.add_task_dependency s parent child ty) in *.
    pose proof (add_task_dependency_lookup s parent child ty) as Hl. fold s1 in Hl.
    unfold MockTaskStorage.add_task_dependency at 1. rewrite Hl.
    cbn [default from_option Datatypes.id].
    rewrite bool_decide_eq_true_2 by exact Hin. now destruct s1.
  - intros Hnd. rewrite add_task_dependency_parents.
    destruct (bool_decide (parent ∈ MockTaskStorage.get_task_dependencies s child)) eqn:E;
      [exact Hnd|].
    apply bool_decide_eq_false in E. apply NoDup_app. split; [exact Hnd|].
    split; [|apply NoDup_singleton].
    intros x Hx Hx'. apply list_elem_of_singleton in Hx'. now subst x.
Qed.

Lemma filter_status_partition (l : list AtomicTask) :
  (length (List.filter (fun task => TaskStatus_eqb (status task) PENDING) l)
   + length (List.filter (fun task => TaskStatus_eqb (status task) IN_PROGRESS) l)
   + length (List.filter (fun task => TaskStatus_eqb (status task) DONE) l)
   + length (List.filter (fun task => TaskStatus_eqb (status task) DEFERRED) l)
   + length (List.filter (fun task => TaskStatus_eqb (status task) BLOCKED) l)
   + length (List.filter (fun task => TaskStatus_eqb (status task) CANCELLED) l)
   = length l)%nat.
Proof.
  induction l as [|task l IH]; [reflexivity|].
  cbn [List.filter]. destruct (status task); cbn [TaskStatus_eqb length]; lia.
Qed.

(** X23: the status lists sort the stored tasks.  In a storage whose task
    table has each key once, [get_tasks_by_status] returns exactly the tasks
    that [get_task] finds under some id and whose status is the one asked
    for; and the lists of the six statuses together hold every stored task
    once. *)
Theorem status_lists_sort_the_tasks (s : MockTaskStorage.state) :
  MockTaskStorage.keyed s ->
  (forall task wanted,
     task ∈ MockTaskStorage.get_tasks_by_status s wanted
     <-> status task = wanted
         /\ exists k, MockTaskStorage.get_task s k = Some task)
  /\ (length (MockTaskStorage.get_tasks_by_status s PENDING)
      + length (MockTaskStorage.get_tasks_by_status s IN_PROGRESS)
      + length (MockTaskStorage.get_tasks_by_status s DONE)
      + length (MockTaskStorage.get_tasks_by_status s DEFERRED)
      + length (MockTaskStorage.get_tasks_by_status s BLOCKED)
      + length (MockTaskStorage.get_tasks_by_status s CANCELLED)
      = length (MockTaskStorage.tasks s))%nat.
Proof.
  intros [Hnd _]. split.
  - intros task wanted. unfold MockTaskStorage.get_tasks_by_status, MockTaskStorage.get_task.
    rewrite list_elem_of_In, filter_In, <- list_elem_of_In, TaskStatus_eqb_eq.
    rewrite list_elem_of_fmap. split.
    + intros [([k t] & -> & Hin) Hst]. split; [exact Hst|].
      exists k. now apply elem_of_lookup.
    + intros [Hst [k Hk]]. split; [|exact Hst].
      exists (k, task). split; [reflexivity|]. now apply lookup_elem_of.
  - unfold MockTaskStorage.get_tasks_by_status.
    rewrite filter_status_partition. apply length_fmap.
Qed.

Lemma status_lists_sort_the_tasks_witness :
  MockTaskStorage.keyed
    (fst (MockTaskStorage.store_task MockTaskStorage.empty (default_task "new")
            "uuid-1" "10:00" "10:01"))
  /\ (length (MockTaskStorage.get_tasks_by_status
                (fst (MockTaskStorage.store_task MockTaskStorage.empty (default_task "new")
                        "uuid-1" "10:00" "10:01")) PENDING)
      + 0 + 0 + 0 + 0 + 0 = 1)%nat.
Proof.
  assert (H : MockTaskStorage.keyed
                (fst (MockTaskStorage.store_task MockTaskStorage.empty (default_task "new")
                        "uuid-1" "10:00" "10:01"))).
  { split; cbn.
    - apply NoDup_singleton.
    - repeat constructor. }
  split; [exact H|].
  exact (proj2 (status_lists_sort_the_tasks _ H)).
Defined.

Lemma store_task_keyed s task fresh t1 t2 :
  MockTaskStorage.keyed s ->
  MockTaskStorage.keyed (fst (MockTaskStorage.store_task s task fresh t1 t2)).
Proof.
  intros [Hnd Hid]. unfold MockTaskStorage.store_task, MockTaskStorage.keyed.
  cbn [fst MockTaskStorage.tasks]. split.
  - now apply assign_keys_NoDup.
  - apply assign_Forall; [reflexivity | exact Hid].
Qed.

Lemma update_task_status_keyed s k st context t1 t2 :
  MockTaskStorage.keyed s ->
  MockTaskStorage.keyed (MockTaskStorage.update_task_status s k st context t1 t2).
Proof.
  intros [Hnd Hid]. unfold MockTaskStorage.update_task_status.
  destruct (MockTaskStorage.lookup_task k (MockTaskStorage.tasks s)) as [task|] eqn:E;
    [|now split].
  assert (Hk : id task = Some k).
  { apply lookup_elem_of in E. rewrite Forall_forall in Hid. exact (Hid _ E). }
  destruct (py_truthy context);
    unfold MockTaskStorage.keyed;
    cbn [MockTaskStorage.store_task_context MockTaskStorage.tasks];
    (split; [now apply assign_keys_NoDup | apply assign_Forall; [exact Hk | exact Hid]]).
Qed.

Lemma add_task_dependency_duplicate_free s parent child ty :
  MockTaskStorage.duplicate_free s ->
  MockTaskStorage.duplicate_free (MockTaskStorage.add_task_dependency s parent child ty).
Proof.
  intros Hdf c parents Hc.
  destruct (decide (c = child)) as [->|Hne].
  - rewrite add_task_dependency_lookup in Hc. injection Hc as <-.
    rewrite add_task_dependency_parents.
    assert (Hnd : NoDup (MockTaskStorage.get_task_dependencies s child)).
    { unfold MockTaskStorage.get_task_dependencies.
      destruct (MockTaskStorage.dependencies s !! child) as [l|] eqn:E.
      - exact (Hdf _ _ E).
      - apply NoDup_nil_2. }
    destruct (bool_decide (parent ∈ MockTaskStorage.get_task_dependencies s child)) eqn:E;
      [exact Hnd|].
    apply bool_decide_eq_false in E. apply NoDup_app. split; [exact Hnd|].
    split; [|apply NoDup_singleton].
    intros x Hx Hx'. apply list_elem_of_singleton in Hx'. now subst x.
  - rewrite add_task_dependency_others in Hc by exact Hne. exact (Hdf _ _ Hc).
Qed.

Lemma perform_keeps_invariants s c :
  MockTaskStorage.keyed s /\ MockTaskStorage.duplicate_free s ->
  MockTaskStorage.keyed (MockTaskStorage.perform s c)
  /\ MockTaskStorage.duplicate_free (MockTaskStorage.perform s c).
Proof.
  intros [Hk Hdf]. destruct c; cbn [MockTaskStorage.perform].
  - split; [now apply store_task_keyed | exact Hdf].
  - split; [now apply update_task_status_keyed|].
    unfold MockTaskStorage.update_task_status.
    destruct (MockTaskStorage.lookup_task _ _); [|exact Hdf].
    destruct (py_truthy context); exact Hdf.
  - split; [exact Hk | exact Hdf].
  - split; [exact Hk | now apply add_task_dependency_duplicate_free].
Qed.

(** X24: the storage stays consistent.  Starting from a storage in which
    every key of the task table occurs once, every task is stored under its
    own id and no dependency list names a parent twice, any sequence of
    calls of [store_task], [update_task_status], [store_task_context] and
    [add_task_dependency] leads to a storage with the same three
    properties; so [get_task k] only ever returns a task whose id is k. *)
Theorem storage_stays_consistent (s : MockTaskStorage.state)
    (calls : list MockTaskStorage.call) :
  MockTaskStorage.keyed s ->
  MockTaskStorage.duplicate_free s ->
  MockTaskStorage.keyed (MockTaskStorage.run s calls)
  /\ MockTaskStorage.duplicate_free (MockTaskStorage.run s calls)
  /\ (forall k task,
        MockTaskStorage.get_task (MockTaskStorage.run s calls) k = Some task ->
        id task = Some k).
Proof.
  intros Hk Hdf.
  assert (H : MockTaskStorage.keyed (MockTaskStorage.run s calls)
              /\ MockTaskStorage.duplicate_free (MockTaskStorage.run s calls)).
  { unfold MockTaskStorage.run. revert s Hk Hdf.
    induction calls as [|c calls IH]; intros s Hk Hdf; [now split|].
    cbn [fold_left].
    destruct (perform_keeps_invariants s c (conj Hk Hdf)) as [Hk' Hdf'].
    now apply IH. }
  destruct H as [Hk' Hdf']. split; [exact Hk'|]. split; [exact Hdf'|].
  intros k task Hget. destruct Hk' as [_ Hid].
  apply lookup_elem_of in Hget. rewrite Forall_forall in Hid. exact (Hid _ Hget).
Qed.

Lemma storage_stays_consistent_witness :
  MockTaskStorage.keyed MockTaskStorage.empty
  /\ MockTaskStorage.duplicate_free MockTaskStorage.empty
  /\ MockTaskStorage.duplicate_free
       (MockTaskStorage.run MockTaskStorage.empty
          [MockTaskStorage.StoreTask (default_task "a") "u1" "10:00" "10:01";
           MockTaskStorage.AddTaskDependency "u1" "u2" BLOCKS;
           MockTaskStorage.AddTaskDependency "u1" "u2" REQUIRES]).
Proof.
  assert (Hk : MockTaskStorage.keyed MockTaskStorage.empty).
  { split; cbn; [apply NoDup_nil_2 | constructor]. }
  assert (Hdf : MockTaskStorage.duplicate_free MockTaskStorage.empty).
  { intros c parents H. cbn in H. now rewrite lookup_empty in H. }
  split; [exact Hk|]. split; [exact Hdf|].
  exact (proj1 (proj2 (storage_stays_consistent MockTaskStorage.empty _ Hk Hdf))).
Defined.

(** ** The window of the performance analysis *)

Lemma execution_time_values_rows (rows : list metric_row) :
  execution_time_values (metric_of_row <$> rows) = timed_values rows.
Proof.
  unfold timed_values. induction rows as [|row rows IH]; [reflexivity|].
  rewrite fmap_cons. cbn [execution_time_values omap list_omap].
  remember (execution_time_values (metric_of_row <$> rows)) as rest eqn:Er.
  rewrite <- IH. clear IH Er.
  unfold is_execution_time, metric_of_row. cbn [m_type m_value].
  destruct (metric_value row) as [v|]; cbn.
  - destruct (Qeq_bool v 0) eqn:E; cbn.
    + now destruct (String.eqb (metric_type row) "execution_time").
    + rewrite E. now destruct (String.eqb (metric_type row) "execution_time").
  - now destruct (String.eqb (metric_type row) "execution_time").
Qed.

Lemma get_performance_context_recent db tid samples performance :
  performance_metrics db tid = Ok samples ->
  samples <> [] ->
  _get_performance_context db tid = Ok performance ->
  exists s, performance = Metrics s
            /\ recent_metrics s = metric_of_row <$> take 10 samples.
Proof.
  intros Hs Hne. unfold _get_performance_context. rewrite Hs.
  destruct (pool db); [|discriminate].
  cbn [mbind result_bind fmap result_fmap].
  destruct samples as [|r samples]; [congruence|].
  change (take 20 (r :: samples)) with (r :: take 19 samples).
  cbv iota. change (r :: take 19 samples) with (take 20 (r :: samples)).
  intros [= <-]. eexists. split; [reflexivity|].
  cbn [recent_metrics]. now rewrite <- fmap_take, take_take.
Qed.

(** X25: the performance analysis looks at the newest ten metrics.  When
    the analysis of a task returns and the metrics table holds rows for it
    (newest first), the analysis reports performance data, counts
    min(rows, 10) metrics, and takes its trend from the non-zero
    execution_time values among the ten newest rows; fewer than three such
    values give 'insufficient_data'.  With no row there is no performance
    data. *)
Theorem performance_analysis_window db tid analytics samples :
  analyze_context_patterns db tid = Ok analytics ->
  performance_metrics db tid = Ok samples ->
  (samples = [] -> performance_metrics_analysis analytics = NoPerformanceData)
  /\ (samples <> [] ->
      exists s,
        performance_metrics_analysis analytics = PerformanceData s
        /\ pa_total_metrics s = (length samples `min` 10)%nat
        /\ execution_time_trend s
           = _calculate_performance_trend (timed_values (take 10 samples))
        /\ ((length (timed_values (take 10 samples)) < 3)%nat ->
            execution_time_trend s = "insufficient_data")).
Proof.
  intros Ha Hs. unfold analyze_context_patterns in Ha.
  apply bind_Ok_inv in Ha as (context & Hg & Ha).
  apply generate_prompt_context_inv in Hg
    as (task & full & deps & dependency & performance & _ & _ & _ & _ & Hperf & ->).
  unfold analyze_prompt_context in Ha.
  bind_inv Ha. bind_inv Ha. bind_inv Ha. bind_inv Ha. injection Ha as <-.
  cbn [performance_metrics_analysis performance_context].
  split.
  - intros ->. apply (get_performance_context_empty _ _ _ Hs) in Hperf. now subst.
  - intros Hne.
    destruct (get_performance_context_recent _ _ _ _ Hs Hne Hperf) as (s & -> & Hrecent).
    cbn [_analyze_performance].
    eexists. split; [reflexivity|].
    cbn [pa_total_metrics execution_time_trend].
    rewrite Hrecent, execution_time_values_rows.
    split; [|split].
    + now rewrite length_fmap, length_take, Nat.min_comm.
    + reflexivity.
    + intros Hlt. unfold _calculate_performance_trend.
      destruct (Nat.ltb_spec (length (timed_values (take 10 samples))) 3);
        [reflexivity | lia].
Qed.

Lemma performance_analysis_window_witness :
  exists analytics s,
    analyze_context_patterns Fixture.measured "t1" = Ok analytics
    /\ performance_metrics_analysis analytics = PerformanceData s
    /\ execution_time_trend s = "insufficient_data".
Proof.
  destruct (analyze_context_patterns Fixture.measured "t1") as [analytics|e] eqn:Ha;
    [|vm_compute in Ha; discriminate].
  destruct (proj2 (performance_analysis_window Fixture.measured "t1" analytics _ Ha eq_refl)
              ltac:(discriminate))
    as (s & Hp & _ & _ & Hshort).
  exists analytics, s. split; [reflexivity|]. split; [exact Hp|].
  apply Hshort. vm_compute. lia.
Defined.

(** ** The in-memory context storage and the engine over it *)

(** X26: over the in-memory manager the engine builds no prompt context.
    [MockDatabaseManager] has no [pool], which the performance query reads:
    whatever its storages hold, for a stored task every call of
    [generate_prompt_context] raises that AttributeError, and for a task
    that is not stored the ValueError 'Task ... not found'.  The analysis
    and the export raise the same error, whatever the format, and the
    health score is the degraded report with that message. *)
Theorem engine_needs_a_pool (m : MockEngine.MockDatabaseManager) (tid : string)
    (include : bool) (mi mv : Z) (format_type : string) :
  MockEngine.generate_prompt_context m tid include mi mv
  = Err (mock_generation_error m tid)
  /\ MockEngine.analyze_context_patterns m tid = Err (mock_generation_error m tid)
  /\ MockEngine.export_context_for_prompt m tid format_type
     = Err (mock_generation_error m tid)
  /\ MockEngine.get_context_health_score m tid
     = Ok {| overall_score := 0%Q;
             health_status := "error";
             component_scores := None;
             hr_recommendations := None;
             error := Some (exn_str (mock_generation_error m tid)) |}
  /\ (forall task,
        MockTaskStorage.get_task (MockEngine.task_storage m) tid = Some task ->
        mock_generation_error m tid
        = AttributeError "'MockDatabaseManager' object has no attribute 'pool'").
Proof.
  assert (Hg : forall include mi mv,
             MockEngine.generate_prompt_context m tid include mi mv
             = Err (mock_generation_error m tid)).
  { intros. unfold MockEngine.generate_prompt_context, mock_generation_error.
    now destruct (MockTaskStorage.get_task (MockEngine.task_storage m) tid). }
  split; [apply Hg|].
  unfold MockEngine.get_context_health_score, MockEngine.analyze_context_patterns,
    MockEngine.export_context_for_prompt.
  rewrite !Hg. repeat split.
  intros task Ht. unfold mock_generation_error. now rewrite Ht.
Qed.

Lemma interaction_dict_well_formed interaction :
  well_formed_interaction (MockContextStorage.interaction_dict interaction).
Proof. split; eexists; reflexivity. Qed.

(** X27: the in-memory history grows at its end.  After
    [store_ai_interaction] the context of that task lists the interactions
    it listed before, in the same order, followed by the new one: a dict
    with the keys the formatters read, whose 'created_at' is the
    interaction's own time, or the clock when it had none.  The histories
    of other tasks and all validation histories are unchanged; nothing is
    capped or reordered. *)
Theorem stored_interaction_comes_last (s : MockContextStorage.state) (tid : string)
    (interaction : MockContextStorage.AIInteraction) (fresh now : string) :
  exists before added,
    tc_ai_interactions (MockContextStorage.get_task_context s tid) = Some before
    /\ tc_ai_interactions
         (MockContextStorage.get_task_context
            (MockContextStorage.store_ai_interaction s tid interaction fresh now) tid)
       = Some (before ++ [added])%list
    /\ well_formed_interaction added
    /\ added !! "agent_name" = Some (PStr (MockContextStorage.agent_name interaction))
    /\ added !! "success" = Some (PBool (MockContextStorage.success interaction))
    /\ added !! "execution_time_ms"
       = Some (of_oint (MockContextStorage.execution_time_ms interaction))
    /\ added !! "created_at"
       = Some (PStr (default now (MockContextStorage.ai_created_at interaction)))
    /\ (forall other,
          other <> tid ->
          MockContextStorage.get_task_context
            (MockContextStorage.store_ai_interaction s tid interaction fresh now) other
          = MockContextStorage.get_task_context s other)
    /\ (forall any,
          tc_validation_results
            (MockContextStorage.get_task_context
               (MockContextStorage.store_ai_interaction s tid interaction fresh now) any)
          = tc_validation_results (MockContextStorage.get_task_context s any)).
Proof.
  eexists. eexists. split; [reflexivity|].
  split.
  { unfold MockContextStorage.get_task_context, MockContextStorage.store_ai_interaction.
    cbn [tc_ai_interactions MockContextStorage.ai_interactions].
    rewrite lookup_insert_eq. cbn [default from_option Datatypes.id].
    rewrite fmap_app. reflexivity. }
  split; [apply interaction_dict_well_formed|].
  split; [reflexivity|]. split; [reflexivity|]. split; [reflexivity|].
  split; [reflexivity|]. split.
  - intros other Hne.
    unfold MockContextStorage.get_task_context, MockContextStorage.store_ai_interaction.
    cbn [MockContextStorage.ai_interactions MockContextStorage.validation_results].
    now rewrite lookup_insert_ne.
  - intros any. reflexivity.
Qed.
